(** * SEC.py: company lookup and financial-fact normalisation

    A shallow embedding of the logic of [SEC.py]: the three functions
    [get_ticker_from_company_name], [get_cik_from_ticker] and
    [get_financial_data], and the table preparation that every lookup mode
    of the page repeats (group-by on the year, inner merge, sort, unit
    scaling).

    Conventions.
    - A Python [str] is a [string] of bytes; case mapping, whitespace and
      digits are the ASCII ones (for ASCII text they coincide with
      Python's).  A Python [int] is a [Z].
    - An HTTP exchange [requests.get(url, headers)] is represented by the
      response it produced: [user_agent] and [cik_10digit] only feed the
      request and therefore do not appear as arguments.
    - Code that may raise returns a [result]; [Raise] carries the Python
      exception class.
    - Library calls are modelled after the library: [datetime.strptime]
      and [date.toordinal] after CPython, [groupby(...).sum()], [pd.merge]
      and [sort_values] on lists of rows, and the division of a column by
      the unit factor as an exact quotient in [Q]. *)

From Stdlib Require Import ZArith List String Ascii Bool Lia Permutation Sorted QArith.
Import ListNotations.
Local Open Scope string_scope.
Local Open Scope Z_scope.

(* ================================================================== *)
(** ** Python primitives used by the program *)
(* ================================================================== *)

Module Py.

(** Code point of a character. *)
Definition ord (c : ascii) : N := N_of_ascii c.

Definition chr (n : N) : ascii := ascii_of_N n.

(** [str.isspace] on the ASCII range: TAB..CR, FS..US and SPACE. *)
Definition is_space (c : ascii) : bool :=
  let n := ord c in
  ((9 <=? n) && (n <=? 13) || (28 <=? n) && (n <=? 32))%N.

Definition is_lower (c : ascii) : bool :=
  let n := ord c in ((97 <=? n) && (n <=? 122))%N.

Definition is_upper (c : ascii) : bool :=
  let n := ord c in ((65 <=? n) && (n <=? 90))%N.

Definition is_digit (c : ascii) : bool :=
  let n := ord c in ((48 <=? n) && (n <=? 57))%N.

(** [int(c)] for a digit character. *)
Definition digit_val (c : ascii) : Z := Z.of_N (ord c) - 48.

Definition upper_char (c : ascii) : ascii :=
  if is_lower c then chr (ord c - 32) else c.

Definition lower_char (c : ascii) : ascii :=
  if is_upper c then chr (ord c + 32) else c.

Fixpoint map_string (f : ascii -> ascii) (s : string) : string :=
  match s with
  | EmptyString => EmptyString
  | String c s' => String (f c) (map_string f s')
  end.

(** [s.upper()] and [s.lower()]. *)
Definition upper : string -> string := map_string upper_char.
Definition lower : string -> string := map_string lower_char.

Fixpoint lstrip (s : string) : string :=
  match s with
  | EmptyString => EmptyString
  | String c s' => if is_space c then lstrip s' else s
  end.

Fixpoint rstrip (s : string) : string :=
  match s with
  | EmptyString => EmptyString
  | String c s' =>
      match rstrip s' with
      | EmptyString => if is_space c then EmptyString else String c EmptyString
      | r => String c r
      end
  end.

(** [s.strip()]. *)
Definition strip (s : string) : string := rstrip (lstrip s).

(** [needle in hay] on strings. *)
Fixpoint contains (needle hay : string) : bool :=
  String.prefix needle hay ||
  match hay with
  | EmptyString => false
  | String _ hay' => contains needle hay'
  end.

(** Truth value of a string: [not s] is [true] exactly for the empty one. *)
Definition truthy (s : string) : bool :=
  match s with EmptyString => false | _ => true end.

Fixpoint repeat_char (c : ascii) (n : nat) : string :=
  match n with
  | O => EmptyString
  | S n' => String c (repeat_char c n')
  end.

(** Decimal digits of a non-negative number, most significant first. *)
Fixpoint digits_fuel (fuel : nat) (n : Z) (acc : string) : string :=
  let acc' := String (chr (48 + Z.to_N (n mod 10))) acc in
  match fuel with
  | O => acc'
  | S fuel' => if n <? 10 then acc' else digits_fuel fuel' (n / 10) acc'
  end.

Definition digits (n : Z) : string :=
  digits_fuel (Z.to_nat (Z.log2 n)) n EmptyString.

(** [str(n)] for an [int]. *)
Definition str (n : Z) : string :=
  if n <? 0 then String "-" (digits (- n)) else digits n.

(** [s.zfill(width)]: left padding with zeros, after a leading sign. *)
Definition zfill (width : nat) (s : string) : string :=
  let pad := (width - String.length s)%nat in
  match s with
  | String c s' =>
      if (Ascii.eqb c "+" || Ascii.eqb c "-")%bool
      then String c (repeat_char "0" pad ++ s')
      else repeat_char "0" pad ++ s
  | EmptyString => repeat_char "0" pad
  end.

End Py.

(** Outcome of a computation that may raise. *)
Inductive exn : Type :=
| KeyError | TypeError | AttributeError | ValueError | JSONDecodeError.

Inductive result (A : Type) : Type :=
| Ok (a : A)
| Raise (e : exn).
Arguments Ok {A} a.
Arguments Raise {A} e.

Definition bind {A B : Type} (r : result A) (k : A -> result B) : result B :=
  match r with
  | Ok a => k a
  | Raise e => Raise e
  end.

Notation "x <- r ;; k" := (bind r (fun x => k))
  (at level 61, r at next level, right associativity).

(** A dictionary with string keys, as the list of its items. *)
Fixpoint dict_get {V : Type} (k : string) (d : list (string * V)) : option V :=
  match d with
  | [] => None
  | (k', v) :: d' => if String.eqb k' k then Some v else dict_get k d'
  end.

(** An HTTP response with its decoded body. *)
Record response (B : Type) : Type := mk_response {
  status_code : Z;
  body : B
}.
Arguments mk_response {B} _ _.
Arguments status_code {B} _.
Arguments body {B} _.

(* ================================================================== *)
(** ** Identifier resolver *)
(* ================================================================== *)

Module Resolver.

(** One entry of [company_tickers.json]:
    [{"cik_str": 320193, "ticker": "AAPL", "title": "Apple Inc."}]. *)
Record EntityInfo : Type := mk_info {
  cik_str : Z;
  ticker : string;
  title : string
}.

(** [data.items()]: the entries in the order of the document, each under
    its opaque key. *)
Definition snapshot : Type := list (string * EntityInfo).

Definition SYNONYMS : list (string * string) :=
  [ ("google", "alphabet inc");
    ("nvidia", "nvidia corporation") ].

(** Lines 28-30: the synonym substitution. *)
Definition substitute_synonym (company_name : string) : string :=
  let name_lower := Py.strip (Py.lower company_name) in
  match dict_get name_lower SYNONYMS with
  | Some canonical => canonical
  | None => company_name
  end.

(** The loop of lines 44-48 over [data.items()]. *)
Fixpoint matched_tickers (name_upper : string) (items : snapshot) : list string :=
  match items with
  | [] => []
  | (_, info) :: rest =>
      let title_upper := Py.upper (title info) in
      if Py.contains name_upper title_upper
      then ticker info :: matched_tickers name_upper rest
      else matched_tickers name_upper rest
  end.

Definition get_ticker_from_company_name
    (company_name : string) (resp : response snapshot) : list string :=
  let company_name := substitute_synonym company_name in
  if negb (status_code resp =? 200) then []
  else
    let data := body resp in
    let name_upper := Py.strip (Py.upper company_name) in
    matched_tickers name_upper data.

(** The loop of lines 71-75: the first entry whose ticker matches decides. *)
Fixpoint first_cik (t_upper : string) (items : snapshot) : string :=
  match items with
  | [] => ""
  | (_, info) :: rest =>
      if String.eqb (Py.upper (ticker info)) t_upper
      then
        let cik_str_10 := Py.zfill 10 (Py.str (cik_str info)) in
        "CIK" ++ cik_str_10
      else first_cik t_upper rest
  end.

Definition get_cik_from_ticker
    (ticker_ : string) (resp : response snapshot) : string :=
  if negb (status_code resp =? 200) then ""
  else
    let data := body resp in
    let t_upper := Py.strip (Py.upper ticker_) in
    first_cik t_upper data.

(** The guard of the "Search (Company)" button, lines 176-192. *)
Inductive search_outcome : Type :=
| StError (msg : string)
| StWarning (msg : string)
| Matched (tickers : list string).

Definition search_company
    (user_agent input_company : string) (resp : response snapshot)
    : search_outcome :=
  if negb (Py.truthy user_agent) then StError "Please enter a valid User-Agent."
  else if negb (Py.truthy (Py.strip input_company))
  then StWarning "Please enter a company name."
  else
    let matched := get_ticker_from_company_name input_company resp in
    match matched with
    | [] => StError ("No matches found for '" ++ input_company ++ "'.")
    | _ => Matched matched
    end.

End Resolver.

(* ================================================================== *)
(** ** JSON documents and calendar dates *)
(* ================================================================== *)

(** A decoded JSON document.  Numbers are integers, which is how the
    facts API reports USD amounts; an object is the list of its items. *)
#[warnings="-register-all"]
Inductive json : Type :=
| JNull
| JBool (b : bool)
| JNum (z : Z)
| JStr (s : string)
| JArr (elems : list json)
| JObj (fields : list (string * json)).

Definition json_eq_dec : forall a b : json, {a = b} + {a <> b}.
Proof.
  fix IH 1.
  decide equality.
  - apply Bool.bool_dec.
  - apply Z.eq_dec.
  - apply string_dec.
  - apply list_eq_dec. apply IH.
  - apply list_eq_dec. decide equality. apply string_dec.
Defined.

Module Date.

(** [calendar.isleap]. *)
Definition is_leap (y : Z) : bool :=
  (y mod 4 =? 0) && (negb (y mod 100 =? 0) || (y mod 400 =? 0)).

Definition days_in_month (y m : Z) : Z :=
  if m =? 2 then (if is_leap y then 29 else 28)
  else if (m =? 4) || (m =? 6) || (m =? 9) || (m =? 11) then 30
  else 31.

(** Days in the year [y] before the first of month [m]. *)
Definition days_before_month (y m : Z) : Z :=
  let base :=
    match m with
    | 1 => 0 | 2 => 31 | 3 => 59 | 4 => 90 | 5 => 120 | 6 => 151
    | 7 => 181 | 8 => 212 | 9 => 243 | 10 => 273 | 11 => 304 | _ => 334
    end in
  if (2 <? m) && is_leap y then base + 1 else base.

(** Days before January 1st of year [y]. *)
Definition days_before_year (y : Z) : Z :=
  let y1 := y - 1 in
  y1 * 365 + y1 / 4 - y1 / 100 + y1 / 400.

Record date : Type := mk_date { year : Z; month : Z; day : Z }.

(** [date.toordinal()]. *)
Definition toordinal (d : date) : Z :=
  days_before_year (year d) + days_before_month (year d) (month d) + day d.

(** The constructor check of [datetime]: year 1..9999, month 1..12 and a
    day that exists in that month. *)
Definition valid (d : date) : bool :=
  (1 <=? year d) && (year d <=? 9999) &&
  (1 <=? month d) && (month d <=? 12) &&
  (1 <=? day d) && (day d <=? days_in_month (year d) (month d)).

Definition is_dash (c : ascii) : bool := Ascii.eqb c "-".

(** The month field, pattern [1[0-2]|0[1-9]|[1-9]], followed by a dash;
    returns the month and what follows the dash. *)
Definition parse_month (s : string) : option (Z * string) :=
  match s with
  | String a (String b (String c rest)) =>
      let va := Py.digit_val a in
      let vb := Py.digit_val b in
      if Py.is_digit a && Py.is_digit b &&
         ((va =? 1) && (vb <=? 2) || (va =? 0) && (1 <=? vb))
      then (if is_dash c then Some (10 * va + vb, rest) else None)
      else if Py.is_digit a && (1 <=? va) && is_dash b
      then Some (va, String c rest)
      else None
  | String a (String b rest) =>
      if Py.is_digit a && (1 <=? Py.digit_val a) && is_dash b
      then Some (Py.digit_val a, rest)
      else None
  | _ => None
  end.

(** The day field, pattern [3[0-1]|[1-2]\d|0[1-9]|[1-9]| [1-9]]; the
    first alternative that matches is taken, and nothing may follow it. *)
Definition parse_day (s : string) : option Z :=
  match s with
  | String a (String b rest) =>
      let va := Py.digit_val a in
      let vb := Py.digit_val b in
      if Py.is_digit a && Py.is_digit b &&
         ((va =? 3) && (vb <=? 1) || (1 <=? va) && (va <=? 2) ||
          (va =? 0) && (1 <=? vb))
      then (match rest with EmptyString => Some (10 * va + vb) | _ => None end)
      else if Py.is_digit a && (1 <=? va)
      then None
      else if Ascii.eqb a " " && Py.is_digit b && (1 <=? vb)
      then (match rest with EmptyString => Some vb | _ => None end)
      else None
  | String a EmptyString =>
      if Py.is_digit a && (1 <=? Py.digit_val a) then Some (Py.digit_val a) else None
  | _ => None
  end.

(** [datetime.strptime(s, "%Y-%m-%d")]; [None] stands for [ValueError]. *)
Definition strptime (s : string) : option date :=
  match s with
  | String y1 (String y2 (String y3 (String y4 (String dash rest)))) =>
      if Py.is_digit y1 && Py.is_digit y2 && Py.is_digit y3 && Py.is_digit y4
         && is_dash dash
      then
        let y := 1000 * Py.digit_val y1 + 100 * Py.digit_val y2
                 + 10 * Py.digit_val y3 + Py.digit_val y4 in
        match parse_month rest with
        | Some (m, rest') =>
            match parse_day rest' with
            | Some d =>
                let dt := mk_date y m d in
                if valid dt then Some dt else None
            | None => None
            end
        | None => None
        end
      else None
  | _ => None
  end.

(** [(end_date - start_date).days]. *)
Definition days_between (start_date end_date : date) : Z :=
  toordinal end_date - toordinal start_date.

End Date.

(* ================================================================== *)
(** ** Financial fact fetcher *)
(* ================================================================== *)

Module Fetcher.

(** [v == s] for a string literal [s]: only an equal string compares equal. *)
Definition eq_str (v : option json) (s : string) : bool :=
  match v with
  | Some (JStr s') => String.eqb s' s
  | _ => false
  end.

(** Lines 112-118.  The bare [except] turns a missing key ([KeyError]), a
    value that is not a string ([TypeError]) and an unparsable string
    ([ValueError]) into [False]. *)
Definition is_full_year (item : list (string * json)) : bool :=
  match dict_get "start" item, dict_get "end" item with
  | Some (JStr s), Some (JStr e) =>
      match Date.strptime s, Date.strptime e with
      | Some start_date, Some end_date =>
          300 <=? Date.days_between start_date end_date
      | _, _ => false
      end
  | _, _ => false
  end.

(** The condition of the comprehension of lines 120-125 for one element:
    [u.get] exists on a dict only, and is the first thing evaluated. *)
Definition keep_10k (u : json) : result bool :=
  match u with
  | JObj fields =>
      Ok (eq_str (dict_get "form" fields) "10-K"
          && eq_str (dict_get "fp" fields) "FY"
          && is_full_year fields)
  | _ => Raise AttributeError
  end.

(** The comprehension itself: elements are visited in order and the first
    one without a [get] method aborts it. *)
Fixpoint ten_k_filter (units : list json) : result (list json) :=
  match units with
  | [] => Ok []
  | u :: rest =>
      b <- keep_10k u ;;
      tl <- ten_k_filter rest ;;
      Ok (if b then u :: tl else tl)
  end.

(** [x.get("end", "")] as a sort key.  Every record that reaches the sort
    passed [is_full_year], so its [end] is a string (lemma
    [kept_has_string_dates]); the key of anything else is never compared. *)
Definition end_key (x : json) : string :=
  match x with
  | JObj fields =>
      match dict_get "end" fields with
      | Some (JStr s) => s
      | _ => ""
      end
  | _ => ""
  end.

(** [item.get(k)] inside the loop, on records that are known dicts. *)
Definition field (item : json) (k : string) : option json :=
  match item with
  | JObj fields => dict_get k fields
  | _ => None
  end.

Definition start_end (item : json) : option json * option json :=
  (field item "start", field item "end").

Definition key_eq_dec (a b : option json * option json) : {a = b} + {a <> b}.
Proof.
  decide equality; decide equality; apply json_eq_dec.
Defined.

(** [k in seen]; the set is kept as the list of the keys added so far. *)
Definition mem_key (k : option json * option json)
    (seen : list (option json * option json)) : bool :=
  if in_dec key_eq_dec k seen then true else false.

(** [sorted(l, key=end_key, reverse=True)]: a stable sort, descending;
    records with equal keys keep their relative order. *)
Fixpoint insert_desc (x : json) (l : list json) : list json :=
  match l with
  | [] => [x]
  | y :: l' =>
      if String.ltb (end_key x) (end_key y)
      then y :: insert_desc x l'
      else x :: l
  end.

Fixpoint sorted_desc (l : list json) : list json :=
  match l with
  | [] => []
  | x :: l' => insert_desc x (sorted_desc l')
  end.

(** [l[:n]] for an [int] [n]: a negative [n] counts from the end. *)
Definition slice_to {A : Type} (n : Z) (l : list A) : list A :=
  if 0 <=? n then firstn (Z.to_nat n) l
  else firstn (Z.to_nat (Z.of_nat (List.length l) + n)) l.

(** Lines 131-139.  [unique_records] is accumulated in reverse. *)
Fixpoint dedup_loop (final_count : Z) (items : list json)
    (unique_rev : list json) (seen : list (option json * option json))
    : list json :=
  match items with
  | [] => rev unique_rev
  | item :: rest =>
      let k := start_end item in
      let '(unique_rev', seen') :=
        if negb (mem_key k seen) then (item :: unique_rev, k :: seen)
        else (unique_rev, seen) in
      if Z.of_nat (List.length unique_rev') =? final_count
      then rev unique_rev'
      else dedup_loop final_count rest unique_rev' seen'
  end.

Definition py_result : Type := option (list json) * option string.

(** [data["units"]["USD"]] under [except KeyError]. *)
Inductive lookup_outcome : Type :=
| Found (v : json)
| Missing
| NotSubscriptable.

Definition subscript (v : json) (k : string) : lookup_outcome :=
  match v with
  | JObj fields =>
      match dict_get k fields with
      | Some x => Found x
      | None => Missing
      end
  | _ => NotSubscriptable
  end.

(** Truth value of a decoded document, as [if not units] tests it. *)
Definition truthy (v : json) : bool :=
  match v with
  | JNull => false
  | JBool b => b
  | JNum z => negb (z =? 0)
  | JStr s => Py.truthy s
  | JArr l => match l with [] => false | _ => true end
  | JObj f => match f with [] => false | _ => true end
  end.

(** The values a [for u in units] visits. *)
Definition iterate (v : json) : result (list json) :=
  match v with
  | JArr l => Ok l
  | JObj f => Ok (map (fun kv => JStr (fst kv)) f)
  | JStr s => Ok (map (fun c => JStr (String c EmptyString)) (list_ascii_of_string s))
  | _ => Raise TypeError
  end.

(** Lines 109-141, from the USD fact list on. *)
Definition select_records (concept : string) (units : json)
    (fetch_count final_count : Z) : result py_result :=
  if negb (truthy units)
  then Ok (None, Some ("No " ++ concept ++ " (USD) data found"))
  else
    elems <- iterate units ;;
    ten_k_units <- ten_k_filter elems ;;
    match ten_k_units with
    | [] => Ok (None, Some ("No 10-K full-year data found for " ++ concept))
    | _ =>
        let sorted_units := slice_to fetch_count (sorted_desc ten_k_units) in
        let unique_records := dedup_loop final_count sorted_units [] [] in
        Ok (Some unique_records, None)
    end.

(** The body is [None] when the response text is not a JSON document, in
    which case [resp.json()] raises. *)
Definition get_financial_data (concept : string)
    (resp : response (option json)) (fetch_count final_count : Z)
    : result py_result :=
  if negb (status_code resp =? 200)
  then Ok (None, Some ("Request failed (status " ++ Py.str (status_code resp)
                       ++ ") for " ++ concept))
  else
    match body resp with
    | None => Raise JSONDecodeError
    | Some data =>
        match subscript data "units" with
        | NotSubscriptable => Raise TypeError
        | Missing => Ok (None, Some ("USD unit not found for " ++ concept))
        | Found u =>
            match subscript u "USD" with
            | NotSubscriptable => Raise TypeError
            | Missing => Ok (None, Some ("USD unit not found for " ++ concept))
            | Found units => select_records concept units fetch_count final_count
            end
        end
    end.

End Fetcher.

(* ================================================================== *)
(** ** Series normaliser *)
(* ================================================================== *)

Module Normalizer.

(** A two-column frame [Year, value] and the merged three-column frame
    [Year, Revenue, NetIncome], as the lists of their rows. *)
Definition frame : Type := list (Z * Z).
Definition frame3 : Type := list (Z * Z * Z).

(** One more row for a group: the groups are kept in ascending key order
    and the values of one key are summed. *)
Fixpoint add_to_group (y v : Z) (groups : frame) : frame :=
  match groups with
  | [] => [(y, v)]
  | (y', v') :: rest =>
      if y <? y' then (y, v) :: groups
      else if y =? y' then (y', v' + v) :: rest
      else (y', v') :: add_to_group y v rest
  end.

(** [df.groupby("Year", as_index=False).sum()]. *)
Definition groupby_sum (rows : frame) : frame :=
  fold_left (fun groups r => add_to_group (fst r) (snd r) groups) rows [].

(** The right rows joined to one left row. *)
Definition join_row (y r : Z) (right : frame) : frame3 :=
  map (fun yn => (y, r, snd yn)) (filter (fun yn => fst yn =? y) right).

(** [pd.merge(left, right, on="Year", how="inner")]: one row per pair of
    rows with the same key, in the order of the left keys. *)
Definition merge_inner (left right : frame) : frame3 :=
  flat_map (fun yr => join_row (fst yr) (snd yr) right) left.

Definition year_of (row : Z * Z * Z) : Z := fst (fst row).
Definition revenue_of (row : Z * Z * Z) : Z := snd (fst row).
Definition net_income_of (row : Z * Z * Z) : Z := snd row.

Fixpoint insert_by_year (row : Z * Z * Z) (l : frame3) : frame3 :=
  match l with
  | [] => [row]
  | row' :: l' =>
      if year_of row' <? year_of row
      then row' :: insert_by_year row l'
      else row :: l
  end.

(** [df.sort_values("Year")], ascending. *)
Fixpoint sort_values (df : frame3) : frame3 :=
  match df with
  | [] => []
  | row :: df' => insert_by_year row (sort_values df')
  end.

(** Lines 239, 335 and 424, from the two grouped frames. *)
Definition combine (df_rev df_ni : frame) : frame3 :=
  sort_values (merge_inner df_rev df_ni).

(** Lines 227-239 from the two row lists.  A frame built from no rows has
    no [Year] column, and grouping it raises. *)
Definition df_combined (rev_list ni_list : frame) : result frame3 :=
  match rev_list, ni_list with
  | [], _ | _, [] => Raise KeyError
  | _, _ => Ok (combine (groupby_sum rev_list) (groupby_sum ni_list))
  end.

(** [Series.max()]: [None] is the NaN of an empty column. *)
Definition series_max (col : list Z) : option Z :=
  match col with
  | [] => None
  | x :: rest => Some (fold_left Z.max rest x)
  end.

(** The builtin [max(a, b)]: [b] when [b > a], else [a]; every comparison
    with NaN is false. *)
Definition py_max (a b : option Z) : option Z :=
  match a, b with
  | Some x, Some y => if x <? y then b else a
  | _, _ => a
  end.

Definition max_val (df : frame3) : option Z :=
  py_max (series_max (map revenue_of df)) (series_max (map net_income_of df)).

(** Lines 242-247: [(factor, unit_label)]. *)
Definition unit_scale (df : frame3) : Z * string :=
  match max_val df with
  | Some m =>
      if 10 ^ 12 <=? m then (10 ^ 12, "(in Trillions USD)")
      else (10 ^ 9, "(in Billions USD)")
  | None => (10 ^ 9, "(in Billions USD)")
  end.

(** [value / factor] as an exact quotient. *)
Definition scaled (v factor : Z) : Q := (inject_Z v / inject_Z factor)%Q.

Record scaled_table : Type := mk_scaled {
  rows : list (Z * Q * Q);
  rv_col : string;
  ni_col : string
}.

(** Lines 241-260. *)
Definition scale_table (df : frame3) : scaled_table :=
  let '(factor, unit_label) := unit_scale df in
  mk_scaled
    (map (fun row => (year_of row,
                      scaled (revenue_of row) factor,
                      scaled (net_income_of row) factor)) df)
    ("Revenue " ++ unit_label)
    ("NetIncome " ++ unit_label).

End Normalizer.

(* ================================================================== *)
(** ** The page: identifier entry, fetch of both concepts, session *)
(* ================================================================== *)

Module App.
Import Resolver Fetcher Normalizer.

(** What the page displays through [st.error], [st.warning] and
    [st.info]. *)
Inductive message : Type :=
| MError (msg : string)
| MWarning (msg : string)
| MInfo (msg : string).

(** Truth value of [None] or a string. *)
Definition truthy_opt (v : option string) : bool :=
  match v with
  | Some s => Py.truthy s
  | None => false
  end.

(** Either the run halts on [st.stop()] after a message, or it goes on
    with an identifier. *)
Inductive entry : Type :=
| Halt (msg : message)
| Identifier (cik_10 : string).

(** CIK mode, lines 388-398. *)
Definition cik_mode (user_agent input_cik : string) : entry :=
  if negb (Py.truthy user_agent)
  then Halt (MError "Please enter a valid User-Agent.")
  else
    let c := Py.strip input_cik in
    if negb (Py.truthy c) then Halt (MWarning "Please enter a CIK.")
    else
      let c := if negb (String.prefix "CIK" c)
               then "CIK" ++ Py.zfill 10 c else c in
      Identifier c.

(** Ticker mode, lines 297-309. *)
Definition ticker_mode (user_agent input_ticker : string)
    (resp : response snapshot) : entry :=
  if negb (Py.truthy user_agent)
  then Halt (MError "Please enter a valid User-Agent.")
  else if negb (Py.truthy (Py.strip input_ticker))
  then Halt (MWarning "Please enter a ticker.")
  else
    let cik_10 := get_cik_from_ticker input_ticker resp in
    if negb (Py.truthy cik_10)
    then Halt (MError ("No CIK found for ticker '" ++ input_ticker ++ "'."))
    else Identifier cik_10.

(** Step 2 of the company mode, lines 202-210. *)
Definition selected_mode (selected_ticker : string)
    (resp : response snapshot) : entry :=
  if negb (Py.truthy selected_ticker) then Halt (MError "No ticker selected.")
  else
    let cik_10 := get_cik_from_ticker selected_ticker resp in
    if negb (Py.truthy cik_10)
    then Halt (MError ("Failed to find CIK for ticker '"
                       ++ selected_ticker ++ "'."))
    else Identifier cik_10.

(** Lines 216-224 (and 313-321, 402-410): both concepts are fetched with
    the default counts, every error is displayed, and the run stops if
    there is one. *)
Definition fetch_both (rev_resp ni_resp : response (option json))
    : result (list message + (option (list json) * option (list json))) :=
  rev <- get_financial_data
           "RevenueFromContractWithCustomerExcludingAssessedTax" rev_resp 30 10 ;;
  ni <- get_financial_data "NetIncomeLoss" ni_resp 30 10 ;;
  let '(rev_data, rev_err) := rev in
  let '(ni_data, ni_err) := ni in
  let shown_rev :=
    match rev_err with
    | Some e => if Py.truthy e then [MError ("Revenue error: " ++ e)] else []
    | None => []
    end in
  let shown_ni :=
    match ni_err with
    | Some e => if Py.truthy e then [MError ("Net Income error: " ++ e)] else []
    | None => []
    end in
  if truthy_opt rev_err || truthy_opt ni_err
  then Ok (inl (shown_rev ++ shown_ni)%list)
  else Ok (inr (rev_data, ni_data)).

(** The body of the loops of lines 228-230 and 234-236: the year of the
    [end] date and the [val] of one record. *)
Definition row_of (item : json) : result (Z * json) :=
  match item with
  | JObj fields =>
      match dict_get "end" fields with
      | None => Raise KeyError
      | Some (JStr e) =>
          match Date.strptime e with
          | None => Raise ValueError
          | Some end_date =>
              match dict_get "val" fields with
              | None => Raise KeyError
              | Some v => Ok (Date.year end_date, v)
              end
          end
      | Some _ => Raise TypeError
      end
  | _ => Raise TypeError
  end.

(** [rev_list] and [ni_list]; iterating [None] raises. *)
Fixpoint rows_of (data : list json) : result (list (Z * json)) :=
  match data with
  | [] => Ok []
  | item :: rest =>
      row <- row_of item ;;
      tl <- rows_of rest ;;
      Ok (row :: tl)
  end.

Definition build_rows (data : option (list json)) : result (list (Z * json)) :=
  match data with
  | Some l => rows_of l
  | None => Raise TypeError
  end.

(** Lines 241-273, from the combined frame: the scaled and renamed table
    is melted, which stacks the revenue column over the net-income column,
    and [MeasureSort] looks the column name up in
    [measure_order_map = {rv_col: 0, ni_col: 1}] ([None] is the NaN of a
    name that is not a key). *)
Record melted_row : Type := mk_melted {
  m_year : Z;
  m_measure : string;
  m_amount : Q;
  m_sort : option Z
}.

Definition measure_order_map (rv ni : string) : list (string * Z) :=
  if String.eqb rv ni then [(rv, 1)] else [(rv, 0); (ni, 1)].

Definition df_melt (df : frame3) : list melted_row :=
  let t := scale_table df in
  let order := measure_order_map (rv_col t) (ni_col t) in
  (map (fun row => mk_melted (fst (fst row)) (rv_col t) (snd (fst row))
                             (dict_get (rv_col t) order)) (rows t)
   ++ map (fun row => mk_melted (fst (fst row)) (ni_col t) (snd row)
                                (dict_get (ni_col t) order)) (rows t))%list.

(** The two-step session of the company mode, lines 148-151. *)
Record session : Type := mk_session {
  matched_tickers : option (list string);
  selected_ticker : option string
}.

Definition initial_session : session := mk_session None None.

(** How a run of the script ends: at its last line, on [st.stop()], or on
    an uncaught exception. *)
Inductive ending : Type :=
| Finished
| Stopped
| Crashed (e : exn).

Record company_inputs : Type := mk_inputs {
  user_agent : string;
  input_company : string;
  search_clicked : bool;
  ticker_clicked : bool;
  choice : nat;
  name_resp : response snapshot;
  cik_resp : response snapshot;
  rev_resp : response (option json);
  ni_resp : response (option json)
}.

(** [st.selectbox(label, options)]: the option at the chosen position,
    the first one by default. *)
Definition selectbox (options : list string) (choice : nat) : string :=
  nth choice options (hd "" options).

Section CompanyRun.

(** The preparation and display of the table and chart, lines 226-287,
    which read and write no session state: only whether they raise
    matters here. *)
Variable render : option (list json) -> option (list json) -> result unit.

(** Step 2, lines 195-291, from the state left by step 1. *)
Definition company_step2 (st : session) (i : company_inputs)
    (shown : list message) : session * list message * ending :=
  match matched_tickers st with
  | Some (t :: ts) =>
      let options := t :: ts in
      let selected := selectbox options (choice i) in
      let st := mk_session (matched_tickers st) (Some selected) in
      if negb (ticker_clicked i) then (st, shown, Finished)
      else
        match selected_mode selected (cik_resp i) with
        | Halt m => (st, (shown ++ [m])%list, Stopped)
        | Identifier cik_10 =>
            match fetch_both (rev_resp i) (ni_resp i) with
            | Raise e => (st, shown, Crashed e)
            | Ok (inl errors) => (st, (shown ++ errors)%list, Stopped)
            | Ok (inr (rev_data, ni_data)) =>
                match render rev_data ni_data with
                | Raise e => (st, shown, Crashed e)
                | Ok _ => (mk_session None None, shown, Finished)
                end
            end
        end
  | _ => (st, shown, Finished)
  end.

(** One run of the script in company mode, lines 174-291. *)
Definition company_run (st : session) (i : company_inputs)
    : session * list message * ending :=
  if search_clicked i then
    if negb (Py.truthy (user_agent i))
    then (st, [MError "Please enter a valid User-Agent."], Stopped)
    else if negb (Py.truthy (Py.strip (input_company i)))
    then (st, [MWarning "Please enter a company name."], Stopped)
    else
      let matched := get_ticker_from_company_name (input_company i) (name_resp i) in
      match matched with
      | [] => (st, [MError ("No matches found for '" ++ input_company i ++ "'.")],
               Stopped)
      | _ =>
          let st := mk_session (Some matched) (selected_ticker st) in
          company_step2 st i
            [MInfo "Ticker list created. Select a ticker below, then click 'Search (Ticker)' to fetch data."]
      end
  else company_step2 st i [].

End CompanyRun.

End App.

(* ================================================================== *)
(** ** Vocabulary of the statements *)
(* ================================================================== *)

Module Decimal.
Import Py.

(** What a string of decimal digits denotes. *)
Fixpoint decimal_value (s : string) : Z :=
  match s with
  | EmptyString => 0
  | String c s' => digit_val c * 10 ^ Z.of_nat (String.length s') + decimal_value s'
  end.

Fixpoint all_digits (s : string) : bool :=
  match s with
  | EmptyString => true
  | String c s' => is_digit c && all_digits s'
  end.

End Decimal.

Module ResolverSpec.
Import Py Resolver.

(** Whether a record matches the query, on the trimmed needle. *)
Definition name_matches (q : string) (info : EntityInfo) : bool :=
  contains (strip (upper (substitute_synonym q))) (upper (title info)).

(** The same test on the needle that is upper-cased but not trimmed. *)
Definition name_matches_untrimmed (q : string) (info : EntityInfo) : bool :=
  contains (upper (substitute_synonym q)) (upper (title info)).

Definition tickers_where (p : EntityInfo -> bool) (S : snapshot) : list string :=
  map ticker (filter p (map snd S)).

(** No entry of the list has the wanted ticker. *)
Definition no_ticker (t_upper : string) (S : snapshot) : Prop :=
  forall k info, In (k, info) S -> upper (ticker info) <> t_upper.

Definition one_company : snapshot := [("0", mk_info 320193 "AAPL" "Apple Inc.")].

End ResolverSpec.

Module FetcherSpec.
Import Py Date Fetcher.

Definition is_dict (u : json) : bool :=
  match u with JObj _ => true | _ => false end.

(** A 10-K, fiscal-year record with the given period and value. *)
Definition annual_fact (s e : string) (v : Z) : json :=
  JObj [("start", JStr s); ("end", JStr e); ("val", JNum v);
        ("form", JStr "10-K"); ("fp", JStr "FY")].

(** The document the facts API answers with. *)
Definition facts_document (units : json) : json :=
  JObj [("cik", JNum 320193); ("taxonomy", JStr "us-gaap");
        ("units", JObj [("USD", units)])].

(** Whether the comprehension keeps an element ([false] where it raises). *)
Definition keeps (u : json) : bool :=
  match keep_10k u with Ok b => b | Raise _ => false end.

(** A record without two parsable dates: a date field is missing, is not
    a string, or does not parse. *)
Definition unparsable_dates (item : list (string * json)) : Prop :=
  forall s e, dict_get "start" item = Some (JStr s) ->
              dict_get "end" item = Some (JStr e) ->
              strptime s = None \/ strptime e = None.

(** The response carries the USD fact list [units]. *)
Definition has_usd (resp : response (option json)) (units : json) : Prop :=
  exists f g, body resp = Some (JObj f)
              /\ dict_get "units" f = Some (JObj g)
              /\ dict_get "USD" g = Some units.

(** The response is a JSON object without the [units] / [USD] structure. *)
Definition lacks_usd (resp : response (option json)) : Prop :=
  exists f, body resp = Some (JObj f)
            /\ (dict_get "units" f = None
                \/ exists g, dict_get "units" f = Some (JObj g)
                             /\ dict_get "USD" g = None).

(** The fact list is empty (or another false value), or a list of dicts. *)
Definition iterable_records (units : json) : bool :=
  negb (truthy units)
  || match units with JArr l => forallb is_dict l | _ => false end.

(** The responses on which every step of the fetch is defined. *)
Definition well_shaped (resp : response (option json)) : bool :=
  negb (status_code resp =? 200)
  || match body resp with
     | Some (JObj f) =>
         match dict_get "units" f with
         | None => true
         | Some (JObj g) =>
             match dict_get "USD" g with
             | None => true
             | Some units => iterable_records units
             end
         | Some _ => false
         end
     | _ => false
     end.

(** Success xor error: exactly one component of the pair is [None]. *)
Definition one_sided (v : py_result) : Prop :=
  (fst v = None /\ snd v <> None) \/ (fst v <> None /\ snd v = None).

(** [a] is not older than [b], in the order of the [end] strings. *)
Definition end_ge (a b : json) : Prop :=
  String.leb (end_key b) (end_key a) = true.

(** The records whose period is seen for the first time, given the periods
    [seen] so far. *)
Fixpoint first_seen (items : list json)
    (seen : list (option json * option json)) : list json :=
  match items with
  | [] => []
  | item :: rest =>
      if mem_key (start_end item) seen then first_seen rest seen
      else item :: first_seen rest (start_end item :: seen)
  end.

(** The number of distinct [(start, end)] pairs of a list of records. *)
Definition distinct_periods (items : list json) : nat :=
  List.length (nodup key_eq_dec (map start_end items)).

(** [l] is [l'] with some elements left out. *)
Inductive sublist {A : Type} : list A -> list A -> Prop :=
| sub_nil : sublist [] []
| sub_skip x l l' : sublist l l' -> sublist l (x :: l')
| sub_take x l l' : sublist l l' -> sublist (x :: l) (x :: l').

(** The records of a successful fetch, from the facts that pass the
    filter. *)
Definition selected (kept : list json) (fetch_count final_count : Z) : list json :=
  dedup_loop final_count (slice_to fetch_count (sorted_desc kept)) [] [].

(** The zero-padded form [YYYY-MM-DD]: ten characters, digits around two
    dashes. *)
Definition is_iso (s : string) : bool :=
  match s with
  | String y1 (String y2 (String y3 (String y4 (String h1
      (String m1 (String m2 (String h2 (String d1 (String d2 EmptyString))))))))) =>
      is_digit y1 && is_digit y2 && is_digit y3 && is_digit y4 && is_dash h1
      && is_digit m1 && is_digit m2 && is_dash h2
      && is_digit d1 && is_digit d2
  | _ => false
  end.

(** A number that orders dates as the calendar does. *)
Definition date_key (d : date) : Z := year d * 10000 + month d * 100 + day d.

(** The [end] of a record as a date, and its day number (0 when the
    record has no parsable [end]). *)
Definition end_date (r : json) : option date :=
  match field r "end" with
  | Some (JStr e) => strptime e
  | _ => None
  end.

Definition end_ordinal (r : json) : Z :=
  match end_date r with
  | Some d => toordinal d
  | None => 0
  end.

(** [a] ends no earlier than [b]. *)
Definition date_ge (a b : json) : Prop := end_ordinal b <= end_ordinal a.

Definition fy2023 : json := annual_fact "2023-01-01" "2023-12-31" 1.

Definition fy2022 : json := annual_fact "2022-01-01" "2022-12-31" 2.

Definition fy_sep_2020 : json := annual_fact "2019-10-1" "2020-9-30" 1.

Definition fy_oct_2020 : json := annual_fact "2019-11-01" "2020-10-31" 2.

End FetcherSpec.

Module NormalizerSpec.
Import Normalizer.

(** The values of the two columns. *)
Definition all_values (df : frame3) : list Z :=
  (map revenue_of df ++ map net_income_of df)%list.

(** The largest absolute value of the two columns. *)
Definition max_abs (df : frame3) : Z :=
  fold_left Z.max (map Z.abs (all_values df)) 0.

End NormalizerSpec.

Module PageSpec.
Import Py Resolver Fetcher Normalizer App.

(** What the name lookup searches the titles for. *)
Definition needle (q : string) : string :=
  strip (upper (substitute_synonym q)).

(** The rows whose values are all integers, as a frame. *)
Fixpoint int_rows (rows : list (Z * json)) : option frame :=
  match rows with
  | [] => Some []
  | (y, JNum v) :: rest =>
      match int_rows rest with
      | Some fr => Some ((y, v) :: fr)
      | None => None
      end
  | _ => None
  end.

(** The sum of the values a frame holds for the year [y]. *)
Fixpoint value_at (y : Z) (fr : frame) : Z :=
  match fr with
  | [] => 0
  | (y', v) :: rest => (if y' =? y then v else 0) + value_at y rest
  end.

(** [final_count] as a limit: the first [final_count] records when it is
    at least 1, every record otherwise. *)
Definition up_to {A : Type} (final_count : Z) (l : list A) : list A :=
  if 1 <=? final_count then firstn (Z.to_nat final_count) l else l.

(** A record the filter of the fetch accepts: a 10-K of the fiscal year
    whose period, between two dates that parse, is at least 300 days. *)
Definition annual_record (r : json) : Prop :=
  field r "form" = Some (JStr "10-K")
  /\ field r "fp" = Some (JStr "FY")
  /\ exists s e ds de,
       field r "start" = Some (JStr s) /\ field r "end" = Some (JStr e)
       /\ Date.strptime s = Some ds /\ Date.strptime e = Some de
       /\ 300 <= Date.toordinal de - Date.toordinal ds.

(** A record whose [val] is an integer. *)
Definition has_int_val (r : json) : Prop :=
  exists z, field r "val" = Some (JNum z).

(** A session in which a matched list, when there is one, is not empty
    and holds the selected ticker, and in which no ticker is selected when
    there is no matched list. *)
Definition coherent (st : session) : Prop :=
  match matched_tickers st with
  | None => selected_ticker st = None
  | Some l => l <> [] /\ exists t, selected_ticker st = Some t /\ In t l
  end.

(** A message that is neither an error nor a warning. *)
Definition harmless (m : message) : bool :=
  match m with MInfo _ => true | _ => false end.

(** A search for "Apple" on a one-entry snapshot, and a click on
    "Search (Ticker)" answered by one annual fact per concept. *)
Definition sample_snapshot : response snapshot :=
  mk_response 200 [("0", mk_info 320193 "AAPL" "Apple Inc.")].

Definition sample_facts : response (option json) :=
  mk_response 200 (Some (JObj [("units", JObj [("USD", JArr
    [JObj [("start", JStr "2023-01-01"); ("end", JStr "2023-12-31");
           ("val", JNum 1); ("form", JStr "10-K"); ("fp", JStr "FY")]])])])).

Definition sample_inputs : company_inputs :=
  mk_inputs "me@example.com" "Apple" true false 0
    sample_snapshot sample_snapshot (mk_response 404 None) (mk_response 404 None).

Definition sample_cycle : company_inputs :=
  mk_inputs "me@example.com" "Apple" false true 0
    sample_snapshot sample_snapshot sample_facts sample_facts.

End PageSpec.

(* ================================================================== *)
(** ** Properties of the Python primitives *)
(* ================================================================== *)

Module PyFacts.
Import Py Decimal.

Lemma prefix_empty (s : string) : String.prefix "" s = true.
Proof. destruct s; reflexivity. Qed.

Lemma contains_empty (hay : string) : contains "" hay = true.
Proof. destruct hay; reflexivity. Qed.

Lemma prefix_app (n h : string) :
  String.prefix n h = true <-> exists post, h = n ++ post.
Proof.
  revert h; induction n as [|c n IH]; intros h.
  - rewrite prefix_empty. split; [exists h; reflexivity | reflexivity].
  - destruct h as [|c' h]; simpl.
    + split; [discriminate | intros [post H]; discriminate].
    + destruct (ascii_dec c c') as [->|Hne].
      * rewrite IH. split; intros [post H]; exists post.
        -- now rewrite H.
        -- now inversion H.
      * split; [discriminate | intros [post H]; inversion H; congruence].
Qed.

(** [contains] is the substring relation. *)
Lemma contains_spec (n h : string) :
  contains n h = true <-> exists pre post, h = pre ++ n ++ post.
Proof.
  induction h as [|c h IH].
  - cbn [contains]. rewrite orb_false_r, prefix_app. split.
    + intros [post H]. exists "", post. exact H.
    + intros [pre [post H]]. destruct pre; simpl in H.
      * exists post; exact H.
      * discriminate.
  - cbn [contains]. rewrite orb_true_iff, IH, prefix_app. split.
    + intros [[post H] | [pre [post H]]].
      * exists "", post. exact H.
      * exists (String c pre), post. simpl. now rewrite H.
    + intros [pre [post H]]. destruct pre as [|c' pre]; simpl in H.
      * left. exists post. exact H.
      * right. inversion H. exists pre, post. reflexivity.
Qed.

Lemma is_space_upper_char (c : ascii) : is_space (upper_char c) = is_space c.
Proof. destruct c as [[] [] [] [] [] [] [] []]; reflexivity. Qed.

Lemma is_space_lower_char (c : ascii) : is_space (lower_char c) = is_space c.
Proof. destruct c as [[] [] [] [] [] [] [] []]; reflexivity. Qed.

Section MapStrip.
Variable f : ascii -> ascii.
Hypothesis f_space : forall c, is_space (f c) = is_space c.

Lemma lstrip_map (s : string) : lstrip (map_string f s) = map_string f (lstrip s).
Proof.
  induction s as [|c s IH]; simpl; [reflexivity|].
  rewrite f_space. destruct (is_space c); [exact IH | reflexivity].
Qed.

Lemma rstrip_map (s : string) : rstrip (map_string f s) = map_string f (rstrip s).
Proof.
  induction s as [|c s IH]; simpl; [reflexivity|].
  rewrite IH, f_space.
  destruct (rstrip s); simpl; [destruct (is_space c)|]; reflexivity.
Qed.

Lemma strip_map (s : string) : strip (map_string f s) = map_string f (strip s).
Proof. unfold strip. now rewrite lstrip_map, rstrip_map. Qed.

End MapStrip.

Lemma strip_upper (s : string) : strip (upper s) = upper (strip s).
Proof. apply strip_map, is_space_upper_char. Qed.

Lemma strip_lower (s : string) : strip (lower s) = lower (strip s).
Proof. apply strip_map, is_space_lower_char. Qed.

Lemma length_append (s t : string) :
  String.length (s ++ t) = (String.length s + String.length t)%nat.
Proof. induction s; simpl; [reflexivity | now rewrite IHs]. Qed.

Lemma length_repeat_char (c : ascii) (n : nat) : String.length (repeat_char c n) = n.
Proof. induction n; simpl; [reflexivity | now rewrite IHn]. Qed.

Lemma digit_char (d : Z) :
  0 <= d < 10 ->
  is_digit (chr (48 + Z.to_N d)) = true /\ digit_val (chr (48 + Z.to_N d)) = d.
Proof.
  intros H.
  assert (E : d = 0 \/ d = 1 \/ d = 2 \/ d = 3 \/ d = 4 \/ d = 5 \/ d = 6
              \/ d = 7 \/ d = 8 \/ d = 9) by lia.
  repeat (destruct E as [-> | E]; [split; reflexivity|]).
  subst; split; reflexivity.
Qed.

Lemma digits_fuel_O (n : Z) (acc : string) :
  digits_fuel O n acc = String (chr (48 + Z.to_N (n mod 10))) acc.
Proof. reflexivity. Qed.

Lemma digits_fuel_S (fuel : nat) (n : Z) (acc : string) :
  digits_fuel (S fuel) n acc =
  if n <? 10 then String (chr (48 + Z.to_N (n mod 10))) acc
  else digits_fuel fuel (n / 10) (String (chr (48 + Z.to_N (n mod 10))) acc).
Proof. reflexivity. Qed.

Lemma tenth_bound (n : Z) (k : nat) :
  0 <= n < 10 ^ Z.of_nat (S (S k)) -> 0 <= n / 10 < 10 ^ Z.of_nat (S k).
Proof.
  intros Hn. split; [apply Z.div_pos; lia|].
  apply Z.div_lt_upper_bound; [lia|].
  replace (Z.of_nat (S (S k))) with (Z.succ (Z.of_nat (S k))) in Hn by lia.
  rewrite Z.pow_succ_r in Hn by lia. lia.
Qed.

Lemma digits_fuel_digits (fuel : nat) : forall n acc,
  0 <= n -> all_digits acc = true -> all_digits (digits_fuel fuel n acc) = true.
Proof.
  induction fuel as [|fuel IH]; intros n acc Hn Hacc;
    assert (Hd : all_digits (String (chr (48 + Z.to_N (n mod 10))) acc) = true)
      by (cbn [all_digits]; rewrite Hacc, andb_true_r;
          apply digit_char, Z.mod_pos_bound; lia).
  - rewrite digits_fuel_O. exact Hd.
  - rewrite digits_fuel_S. destruct (n <? 10); [exact Hd|].
    apply IH; [apply Z.div_pos; lia | exact Hd].
Qed.

Lemma digits_fuel_length (fuel : nat) : forall n acc k,
  0 <= n < 10 ^ Z.of_nat (S k) ->
  (1 <= String.length (digits_fuel fuel n acc) <= S k + String.length acc)%nat.
Proof.
  induction fuel as [|fuel IH]; intros n acc k Hn.
  - rewrite digits_fuel_O. cbn [String.length]. lia.
  - rewrite digits_fuel_S.
    destruct (Z.ltb_spec n 10) as [Hlt|Hge]; [cbn [String.length]; lia|].
    destruct k as [|k]; [change (10 ^ Z.of_nat 1) with 10 in Hn; lia|].
    specialize (IH (n / 10) (String (chr (48 + Z.to_N (n mod 10))) acc) k
                   (tenth_bound n k Hn)).
    cbn [String.length] in IH. lia.
Qed.

Lemma digits_fuel_value (fuel : nat) : forall n acc,
  0 <= n < 10 ^ Z.of_nat (S fuel) ->
  decimal_value (digits_fuel fuel n acc)
  = n * 10 ^ Z.of_nat (String.length acc) + decimal_value acc.
Proof.
  induction fuel as [|fuel IH]; intros n acc Hn.
  - change (10 ^ Z.of_nat 1) with 10 in Hn.
    rewrite digits_fuel_O. cbn [decimal_value].
    rewrite Z.mod_small by lia.
    now rewrite (proj2 (digit_char n Hn)).
  - rewrite digits_fuel_S. destruct (Z.ltb_spec n 10) as [Hlt|Hge].
    + cbn [decimal_value]. rewrite Z.mod_small by lia.
      assert (H10 : 0 <= n < 10) by lia.
      now rewrite (proj2 (digit_char n H10)).
    + rewrite IH by now apply tenth_bound.
      cbn [decimal_value String.length].
      assert (Hm : 0 <= n mod 10 < 10) by (apply Z.mod_pos_bound; lia).
      rewrite (proj2 (digit_char _ Hm)).
      rewrite Nat2Z.inj_succ, Z.pow_succ_r by lia.
      pose proof (Z.div_mod n 10 ltac:(lia)). nia.
Qed.

Lemma log2_fuel (n : Z) : 0 <= n -> 0 <= n < 10 ^ Z.of_nat (S (Z.to_nat (Z.log2 n))).
Proof.
  intros Hn. split; [exact Hn|].
  rewrite Nat2Z.inj_succ, Z2Nat.id by apply Z.log2_nonneg.
  destruct (Z.eq_dec n 0) as [->|Hne]; [reflexivity|].
  pose proof (Z.log2_spec n ltac:(lia)) as [_ H].
  eapply Z.lt_le_trans; [exact H|].
  apply Z.pow_le_mono_l. pose proof (Z.log2_nonneg n). lia.
Qed.

(** [str] of a non-negative number is its decimal notation. *)
Lemma str_nonneg (n : Z) :
  0 <= n ->
  all_digits (str n) = true /\ decimal_value (str n) = n.
Proof.
  intros Hn. unfold str.
  destruct (Z.ltb_spec n 0) as [H|_]; [lia|]. unfold digits. split.
  - now apply digits_fuel_digits.
  - rewrite digits_fuel_value by now apply log2_fuel.
    cbn [String.length decimal_value]. change (10 ^ Z.of_nat 0) with 1. lia.
Qed.

Lemma str_length (n : Z) (k : nat) :
  0 <= n < 10 ^ Z.of_nat (S k) -> (1 <= String.length (str n) <= S k)%nat.
Proof.
  intros Hn. unfold str.
  destruct (Z.ltb_spec n 0) as [H|_]; [lia|]. unfold digits.
  pose proof (digits_fuel_length (Z.to_nat (Z.log2 n)) n "" k Hn) as H.
  cbn [String.length] in H. lia.
Qed.

Lemma all_digits_app (s t : string) :
  all_digits (s ++ t) = all_digits s && all_digits t.
Proof. induction s; simpl; [reflexivity | now rewrite IHs, andb_assoc]. Qed.

Lemma zeros_digits (n : nat) : all_digits (repeat_char "0" n) = true.
Proof. induction n; simpl; auto. Qed.

Lemma zeros_value (n : nat) (s : string) :
  decimal_value (repeat_char "0" n ++ s) = decimal_value s.
Proof. induction n; simpl; [reflexivity|]. rewrite IHn. reflexivity. Qed.

(** [zfill] never shortens: the result has [max width (len s)] characters. *)
Lemma zfill_length (width : nat) (s : string) :
  String.length (zfill width s) = Nat.max width (String.length s).
Proof.
  unfold zfill. destruct s as [|c s].
  - rewrite length_repeat_char. simpl. lia.
  - destruct (Ascii.eqb c "+" || Ascii.eqb c "-")%bool; simpl String.length;
      rewrite length_append, length_repeat_char; simpl; lia.
Qed.

(** On a string of digits [zfill] only prepends zeros. *)
Lemma zfill_digits (width : nat) (s : string) :
  all_digits s = true ->
  zfill width s = repeat_char "0" (width - String.length s) ++ s.
Proof.
  unfold zfill. destruct s as [|c s]; intros H.
  - simpl. generalize (width - 0)%nat. induction n; simpl; [reflexivity | now rewrite <- IHn].
  - simpl in H. apply andb_true_iff in H as [Hc _].
    destruct (Ascii.eqb_spec c "+") as [->|_]; [discriminate|].
    destruct (Ascii.eqb_spec c "-") as [->|_]; [discriminate|].
    reflexivity.
Qed.

(** The padded identifier of a number below [10^10]: exactly ten digits
    that denote the number. *)
Lemma zfill_str_10 (n : Z) :
  0 <= n < 10 ^ 10 ->
  String.length (zfill 10 (str n)) = 10%nat
  /\ all_digits (zfill 10 (str n)) = true
  /\ decimal_value (zfill 10 (str n)) = n.
Proof.
  intros Hn.
  destruct (str_nonneg n (proj1 Hn)) as [Hd Hv].
  pose proof (str_length n 9 Hn) as Hl.
  rewrite zfill_length. split; [lia|].
  rewrite (zfill_digits _ _ Hd). split.
  - now rewrite all_digits_app, zeros_digits.
  - now rewrite zeros_value.
Qed.

End PyFacts.

(* ================================================================== *)
(** ** The identifier resolver: name and ticker lookup *)
(* ================================================================== *)

Module ResolverFacts.
Import Py Decimal PyFacts Resolver ResolverSpec.

Lemma matched_tickers_filter (name_upper : string) (S : snapshot) :
  matched_tickers name_upper S
  = tickers_where (fun info => contains name_upper (upper (title info))) S.
Proof.
  unfold tickers_where.
  induction S as [|[k info] S IH]; simpl; [reflexivity|].
  destruct (contains name_upper (upper (title info))); simpl; now rewrite IH.
Qed.

Lemma substitute_synonym_cases (q : string) :
  (forall c, dict_get (strip (lower q)) SYNONYMS = Some c -> substitute_synonym q = c)
  /\ (dict_get (strip (lower q)) SYNONYMS = None -> substitute_synonym q = q).
Proof.
  unfold substitute_synonym.
  split; [intros c H | intros H]; rewrite H; reflexivity.
Qed.

Lemma blank_not_synonym (q : string) :
  strip q = "" -> substitute_synonym q = q.
Proof.
  intros H. apply substitute_synonym_cases.
  rewrite strip_lower, H. reflexivity.
Qed.

Lemma get_ticker_loaded (q : string) (S : snapshot) :
  get_ticker_from_company_name q (mk_response 200 S)
  = matched_tickers (strip (upper (substitute_synonym q))) S.
Proof. reflexivity. Qed.

Lemma get_cik_loaded (q : string) (S : snapshot) :
  get_cik_from_ticker q (mk_response 200 S) = first_cik (strip (upper q)) S.
Proof. reflexivity. Qed.

(** C3, as worded: matching on the upper-cased query without trimming
    fails for " apple" against "Apple Inc.": the function trims the query
    and returns ["AAPL"], while no title contains " APPLE". *)
Lemma untrimmed_match_counterexample :
  get_ticker_from_company_name " apple" (mk_response 200 one_company)
  <> tickers_where (name_matches_untrimmed " apple") one_company.
Proof. vm_compute. discriminate. Qed.

(** C3, amended: on a loaded snapshot the function returns, in snapshot
    order, exactly the tickers of the records whose upper-cased title
    contains the upper-cased and trimmed query after synonym substitution;
    the substitution replaces the query by the canonical name exactly when
    the lower-cased, trimmed query is a key of the synonym table. *)
Theorem resolve_by_name_trimmed (S : snapshot) (q : string) :
  get_ticker_from_company_name q (mk_response 200 S)
  = tickers_where (name_matches q) S
  /\ (forall info,
        name_matches q info = true <->
        exists pre post,
          upper (title info) = pre ++ strip (upper (substitute_synonym q)) ++ post)
  /\ (forall c, dict_get (strip (lower q)) SYNONYMS = Some c ->
                substitute_synonym q = c)
  /\ (dict_get (strip (lower q)) SYNONYMS = None -> substitute_synonym q = q).
Proof.
  split; [|split].
  - rewrite get_ticker_loaded. apply matched_tickers_filter.
  - intros info. unfold name_matches. apply contains_spec.
  - apply substitute_synonym_cases.
Qed.

Lemma resolve_by_name_trimmed_witness :
  get_ticker_from_company_name " Google " (mk_response 200
     [("0", mk_info 320193 "AAPL" "Apple Inc.");
      ("1", mk_info 1652044 "GOOGL" "Alphabet Inc.")]) = ["GOOGL"]
  /\ substitute_synonym " Google " = "alphabet inc"
  /\ substitute_synonym "apple" = "apple".
Proof.
  pose proof (resolve_by_name_trimmed
     [("0", mk_info 320193 "AAPL" "Apple Inc.");
      ("1", mk_info 1652044 "GOOGL" "Alphabet Inc.")] " Google ")
    as [H [_ [Hs _]]].
  pose proof (resolve_by_name_trimmed [] "apple") as [_ [_ [_ Hn]]].
  split; [exact (eq_trans H eq_refl)|].
  split; [apply Hs; reflexivity | apply Hn; reflexivity].
Defined.

(** C10: a query that is blank after trimming matches every record, so on
    a loaded snapshot the function returns all tickers; only the button
    handler rejects such a query, before the function is called. *)
Theorem blank_query_returns_all (S : snapshot) (q : string) :
  strip q = "" ->
  get_ticker_from_company_name q (mk_response 200 S)
  = map (fun kv => ticker (snd kv)) S
  /\ forall user_agent resp,
       truthy user_agent = true ->
       search_company user_agent q resp = StWarning "Please enter a company name.".
Proof.
  intros Hq. split.
  - rewrite get_ticker_loaded.
    rewrite (blank_not_synonym q Hq), strip_upper, Hq. cbn [upper map_string].
    induction S as [|[k info] S IH]; cbn [matched_tickers map snd];
      [reflexivity|].
    rewrite contains_empty. now rewrite IH.
  - intros user_agent resp Hua. unfold search_company.
    rewrite Hua, Hq. reflexivity.
Qed.

Lemma blank_query_returns_all_witness :
  get_ticker_from_company_name "  " (mk_response 200
     [("0", mk_info 320193 "AAPL" "Apple Inc.");
      ("1", mk_info 1652044 "GOOGL" "Alphabet Inc.")]) = ["AAPL"; "GOOGL"].
Proof.
  exact (proj1 (blank_query_returns_all
     [("0", mk_info 320193 "AAPL" "Apple Inc.");
      ("1", mk_info 1652044 "GOOGL" "Alphabet Inc.")] "  " eq_refl)).
Defined.

Lemma first_cik_empty (t_upper : string) (S : snapshot) :
  first_cik t_upper S = "" <-> no_ticker t_upper S.
Proof.
  unfold no_ticker. induction S as [|[k info] S IH]; cbn [first_cik].
  - split; [intros _ k info [] | reflexivity].
  - destruct (String.eqb_spec (upper (ticker info)) t_upper) as [E|N].
    + split; [discriminate|]. intros H. exfalso.
      apply (H k info); [left; reflexivity | exact E].
    + rewrite IH. split.
      * intros H k' info' [Heq|Hin]; [inversion Heq; subst; exact N | eauto].
      * intros H k' info' Hin. apply (H k' info'). now right.
Qed.

Lemma first_cik_first (t_upper : string) (l1 l2 : snapshot) k info :
  no_ticker t_upper l1 ->
  upper (ticker info) = t_upper ->
  first_cik t_upper (l1 ++ (k, info) :: l2)%list
  = "CIK" ++ zfill 10 (str (cik_str info)).
Proof.
  intros Hno Hm. induction l1 as [|[k' info'] l1 IH]; cbn [first_cik app].
  - rewrite (proj2 (String.eqb_eq _ _) Hm). reflexivity.
  - destruct (String.eqb_spec (upper (ticker info')) t_upper) as [E|N].
    + exfalso. apply (Hno k' info'); [left; reflexivity | exact E].
    + apply IH. intros k0 i0 Hin. apply (Hno k0 i0). now right.
Qed.

(** C7, as worded: the padding is to ten digits at least, not exactly (an
    eleven-digit number comes back in full), and the query is trimmed
    before the comparison (" x " finds the ticker "X", to which it is not
    equal, even ignoring case). *)
Lemma ten_digit_exact_match_counterexample :
  let S := [("0", mk_info 12345678901 "X" "X Corp")] in
  get_cik_from_ticker "X" (mk_response 200 S) = "CIK12345678901"
  /\ String.length "12345678901" <> 10%nat
  /\ get_cik_from_ticker " x " (mk_response 200 S) <> ""
  /\ no_ticker (upper " x ") S.
Proof.
  cbv zeta. split; [vm_compute; reflexivity|].
  split; [vm_compute; discriminate|].
  split; [vm_compute; discriminate|].
  intros k info [H|[]]. inversion H; subst. vm_compute. discriminate.
Qed.

(** C7, amended: on a loaded snapshot the lookup answers the empty string
    exactly when no ticker of the snapshot equals, ignoring case, the
    trimmed query (a query that is only a proper substring of a known
    ticker finds nothing); otherwise it answers "CIK" followed by the
    number of the first such entry, left-padded with zeros to at least ten
    characters: for a number in [0, 10^10) these are exactly ten digits
    denoting that number. *)
Theorem ticker_lookup_is_exact (S : snapshot) (q : string) :
  let found := get_cik_from_ticker q (mk_response 200 S) in
  let t_upper := strip (upper q) in
  (found = "" <-> no_ticker t_upper S)
  /\ (forall l1 k info l2,
        S = (l1 ++ (k, info) :: l2)%list ->
        no_ticker t_upper l1 ->
        upper (ticker info) = t_upper ->
        let padded := zfill 10 (str (cik_str info)) in
        found = "CIK" ++ padded
        /\ String.length padded = Nat.max 10 (String.length (str (cik_str info)))
        /\ (0 <= cik_str info < 10 ^ 10 ->
            String.length padded = 10%nat
            /\ all_digits padded = true
            /\ decimal_value padded = cik_str info)).
Proof.
  cbv zeta. rewrite get_cik_loaded.
  split; [apply first_cik_empty|].
  intros l1 k info l2 -> Hno Hm.
  split; [now apply first_cik_first|].
  split; [apply zfill_length | apply zfill_str_10].
Qed.

Lemma ticker_lookup_is_exact_witness :
  get_cik_from_ticker " aapl " (mk_response 200
     [("0", mk_info 1652044 "GOOGL" "Alphabet Inc.");
      ("1", mk_info 320193 "AAPL" "Apple Inc.")]) = "CIK0000320193"
  /\ get_cik_from_ticker "AAP" (mk_response 200
       [("1", mk_info 320193 "AAPL" "Apple Inc.")]) = "".
Proof.
  split.
  - refine (proj1 (proj2 (ticker_lookup_is_exact _ " aapl ")
             [("0", mk_info 1652044 "GOOGL" "Alphabet Inc.")] "1"
             (mk_info 320193 "AAPL" "Apple Inc.") [] eq_refl _ eq_refl)).
    intros k info [H|[]]. inversion H; subst. vm_compute. discriminate.
  - apply (proj1 (ticker_lookup_is_exact _ "AAP")).
    intros k info [H|[]]. inversion H; subst. vm_compute. discriminate.
Defined.

End ResolverFacts.

(* ================================================================== *)
(** ** The fetcher: filter and error values *)
(* ================================================================== *)

Module FilterFacts.
Import Date Fetcher FetcherSpec.

Lemma kept_has_string_dates (item : list (string * json)) :
  is_full_year item = true ->
  exists s e, dict_get "start" item = Some (JStr s)
              /\ dict_get "end" item = Some (JStr e).
Proof.
  unfold is_full_year. intros H.
  destruct (dict_get "start" item) as [[| | |s| |]|]; try discriminate.
  destruct (dict_get "end" item) as [[| | |e| |]|]; try discriminate.
  eauto.
Qed.

Lemma is_full_year_parsed (item : list (string * json)) s e ds de :
  dict_get "start" item = Some (JStr s) ->
  dict_get "end" item = Some (JStr e) ->
  strptime s = Some ds ->
  strptime e = Some de ->
  is_full_year item = (300 <=? days_between ds de).
Proof.
  intros Hs He Hds Hde. unfold is_full_year.
  now rewrite Hs, He, Hds, Hde.
Qed.

(** C6: for a record whose two dates parse, the filter answers exactly
    whether the period is at least 300 days long: 299 days are refused and
    300 are accepted. *)
Theorem full_year_threshold (item : list (string * json)) s e ds de :
  dict_get "start" item = Some (JStr s) ->
  dict_get "end" item = Some (JStr e) ->
  strptime s = Some ds ->
  strptime e = Some de ->
  (is_full_year item = true <-> 300 <= toordinal de - toordinal ds)
  /\ (toordinal de - toordinal ds = 299 -> is_full_year item = false)
  /\ (toordinal de - toordinal ds = 300 -> is_full_year item = true)
  /\ keep_10k (JObj item)
     = Ok (eq_str (dict_get "form" item) "10-K"
           && eq_str (dict_get "fp" item) "FY"
           && (300 <=? toordinal de - toordinal ds)).
Proof.
  intros Hs He Hds Hde.
  pose proof (is_full_year_parsed item s e ds de Hs He Hds Hde) as E.
  unfold days_between in E. cbn [keep_10k]. rewrite E.
  split; [apply Z.leb_le|].
  split; [intros ->; reflexivity|].
  split; [intros ->; reflexivity | reflexivity].
Qed.

Lemma full_year_threshold_witness :
  keep_10k (annual_fact "2021-01-01" "2021-10-27" 5) = Ok false
  /\ keep_10k (annual_fact "2021-01-01" "2021-10-28" 5) = Ok true.
Proof.
  split.
  - destruct (full_year_threshold
        [("start", JStr "2021-01-01"); ("end", JStr "2021-10-27");
         ("val", JNum 5); ("form", JStr "10-K"); ("fp", JStr "FY")]
        "2021-01-01" "2021-10-27" (mk_date 2021 1 1) (mk_date 2021 10 27)
        eq_refl eq_refl eq_refl eq_refl) as [_ [_ [_ H]]].
    exact H.
  - destruct (full_year_threshold
        [("start", JStr "2021-01-01"); ("end", JStr "2021-10-28");
         ("val", JNum 5); ("form", JStr "10-K"); ("fp", JStr "FY")]
        "2021-01-01" "2021-10-28" (mk_date 2021 1 1) (mk_date 2021 10 28)
        eq_refl eq_refl eq_refl eq_refl) as [_ [_ [_ H]]].
    exact H.
Defined.

(** The comprehension on a list of dicts is a plain filter. *)
Lemma ten_k_filter_dicts (units : list json) :
  forallb is_dict units = true ->
  ten_k_filter units = Ok (filter keeps units).
Proof.
  induction units as [|u units IH]; cbn [forallb ten_k_filter filter];
    [reflexivity|].
  intros H. apply andb_true_iff in H as [Hu Hrest].
  rewrite (IH Hrest). unfold keeps.
  destruct u; try discriminate. reflexivity.
Qed.

Lemma ten_k_filter_raises (units : list json) :
  forallb is_dict units = false -> ten_k_filter units = Raise AttributeError.
Proof.
  induction units as [|u units IH]; cbn [forallb ten_k_filter];
    [discriminate|].
  intros H. apply andb_false_iff in H as [Hu|Hrest].
  - destruct u; try discriminate; reflexivity.
  - rewrite (IH Hrest). destruct u; reflexivity.
Qed.

Lemma ten_k_filter_app (l1 l2 : list json) :
  ten_k_filter (l1 ++ l2)%list =
  (a <- ten_k_filter l1 ;; b <- ten_k_filter l2 ;; Ok (a ++ b)%list).
Proof.
  induction l1 as [|u l1 IH]; cbn [app ten_k_filter].
  - destruct (ten_k_filter l2); reflexivity.
  - rewrite IH. destruct (keep_10k u) as [b|]; cbn [bind]; [|reflexivity].
    destruct (ten_k_filter l1) as [a|]; cbn [bind]; [|reflexivity].
    destruct (ten_k_filter l2) as [c|]; cbn [bind]; [|reflexivity].
    destruct b; reflexivity.
Qed.

Lemma unparsable_not_full_year (item : list (string * json)) :
  unparsable_dates item -> is_full_year item = false.
Proof.
  unfold unparsable_dates, is_full_year. intros H.
  destruct (dict_get "start" item) as [[| | |s| |]|]; try reflexivity.
  destruct (dict_get "end" item) as [[| | |e| |]|]; try reflexivity.
  destruct (H s e eq_refl eq_refl) as [E|E]; rewrite E; [reflexivity|].
  destruct (strptime s); reflexivity.
Qed.

Lemma select_records_answers concept (l : list json) fetch_count final_count :
  forallb is_dict l = true ->
  exists v, select_records concept (JArr l) fetch_count final_count = Ok v.
Proof.
  intros H. unfold select_records.
  destruct l as [|u l]; [eexists; reflexivity|].
  cbn [truthy negb iterate bind]. rewrite (ten_k_filter_dicts _ H). cbn [bind].
  destruct (filter keeps (u :: l)); eexists; reflexivity.
Qed.

Lemma fetch_with_usd concept resp units fetch_count final_count :
  status_code resp = 200 ->
  has_usd resp units ->
  get_financial_data concept resp fetch_count final_count
  = select_records concept units fetch_count final_count.
Proof.
  intros Hst (f & g & Hb & Hu & Hg). unfold get_financial_data.
  rewrite Hst, Hb. cbn [Z.eqb Pos.eqb negb subscript]. rewrite Hu.
  cbn [subscript]. now rewrite Hg.
Qed.

Lemma facts_document_has_usd (units : json) :
  has_usd (mk_response 200 (Some (facts_document units))) units.
Proof. exists [("cik", JNum 320193); ("taxonomy", JStr "us-gaap");
               ("units", JObj [("USD", units)])], [("USD", units)].
  repeat split.
Qed.

(** C9: a record whose start or end is missing or does not parse is
    refused by the filter, alone: the comprehension selects what it selects
    without that record, the selection answers as it does without it
    whenever another record is present, and a fetch whose other elements
    are records returns a value instead of raising. *)
Theorem malformed_dates_skip_one_record
    (bad : list (string * json)) (l1 l2 : list json) :
  unparsable_dates bad ->
  keep_10k (JObj bad) = Ok false
  /\ ten_k_filter (l1 ++ JObj bad :: l2)%list = ten_k_filter (l1 ++ l2)%list
  /\ (forall concept fetch_count final_count,
        (l1 ++ l2)%list <> [] ->
        select_records concept (JArr (l1 ++ JObj bad :: l2)%list)
                       fetch_count final_count
        = select_records concept (JArr (l1 ++ l2)%list) fetch_count final_count)
  /\ (forall concept resp fetch_count final_count,
        status_code resp = 200 ->
        has_usd resp (JArr (l1 ++ JObj bad :: l2)%list) ->
        forallb is_dict (l1 ++ l2)%list = true ->
        exists v,
          get_financial_data concept resp fetch_count final_count = Ok v).
Proof.
  intros Hbad.
  assert (Hk : keep_10k (JObj bad) = Ok false).
  { cbn [keep_10k]. rewrite (unparsable_not_full_year bad Hbad).
    now rewrite andb_false_r. }
  assert (Hf : ten_k_filter (l1 ++ JObj bad :: l2)%list
               = ten_k_filter (l1 ++ l2)%list).
  { rewrite !ten_k_filter_app. cbn [ten_k_filter]. rewrite Hk.
    cbn [bind]. destruct (ten_k_filter l1); cbn [bind]; [|reflexivity].
    destruct (ten_k_filter l2); reflexivity. }
  split; [exact Hk|]. split; [exact Hf|]. split.
  - intros concept fetch_count final_count Hne. unfold select_records.
    cbn [iterate bind]. rewrite Hf.
    destruct l1 as [|a l1]; [destruct l2 as [|b l2]; [contradiction|]|];
      reflexivity.
  - intros concept resp fetch_count final_count Hst Hu Hd.
    rewrite (fetch_with_usd _ _ _ _ _ Hst Hu).
    apply select_records_answers.
    rewrite forallb_app in *. cbn [forallb is_dict]. exact Hd.
Qed.

Lemma malformed_dates_skip_one_record_witness :
  ten_k_filter
    [annual_fact "2021-01-01" "2021-12-31" 1;
     JObj [("start", JStr "2022-13-01"); ("form", JStr "10-K"); ("fp", JStr "FY")];
     annual_fact "2022-01-01" "2022-12-31" 2]
  = Ok [annual_fact "2021-01-01" "2021-12-31" 1;
        annual_fact "2022-01-01" "2022-12-31" 2].
Proof.
  refine (eq_trans (proj1 (proj2 (malformed_dates_skip_one_record
    [("start", JStr "2022-13-01"); ("form", JStr "10-K"); ("fp", JStr "FY")]
    [annual_fact "2021-01-01" "2021-12-31" 1]
    [annual_fact "2022-01-01" "2022-12-31" 2] _))) eq_refl).
  intros s e Hs He. discriminate He.
Defined.

Lemma select_records_one_sided concept units fetch_count final_count v :
  select_records concept units fetch_count final_count = Ok v -> one_sided v.
Proof.
  unfold select_records, one_sided.
  destruct (truthy units); cbn [negb].
  - destruct (iterate units) as [elems|]; cbn [bind]; [|discriminate].
    destruct (ten_k_filter elems) as [[|x xs]|]; cbn [bind];
      [| |discriminate]; intros H; inversion H; cbn [fst snd].
    + left. split; [reflexivity | discriminate].
    + right. split; [discriminate | reflexivity].
  - intros H; inversion H; cbn [fst snd].
    left. split; [reflexivity | discriminate].
Qed.

Lemma select_records_shape concept units fetch_count final_count :
  iterable_records units = true <->
  exists v, select_records concept units fetch_count final_count = Ok v.
Proof.
  unfold iterable_records, select_records.
  destruct (truthy units) eqn:Ht; cbn [negb orb].
  2: { split; [eexists; reflexivity | reflexivity]. }
  destruct units as [| b | z | s | l | f]; cbn [iterate bind].
  - discriminate.
  - split; [discriminate | intros [v H]; discriminate].
  - split; [discriminate | intros [v H]; discriminate].
  - split; [discriminate|]. intros [v H]. exfalso.
    destruct s as [|c s]; [discriminate|].
    cbn [list_ascii_of_string map ten_k_filter keep_10k bind] in H.
    discriminate.
  - destruct (forallb is_dict l) eqn:Hd.
    + rewrite (ten_k_filter_dicts _ Hd). cbn [bind].
      split; [|reflexivity]. intros _.
      destruct (filter keeps l); eexists; reflexivity.
    + rewrite (ten_k_filter_raises _ Hd). cbn [bind].
      split; [discriminate | intros [v H]; discriminate].
  - split; [discriminate|]. intros [v H]. exfalso.
    destruct f as [|[k x] f]; [discriminate|].
    cbn [map fst ten_k_filter keep_10k bind] in H. discriminate.
Qed.

(** C4, as worded: the fetch does raise.  A 200 response whose text is not
    JSON raises in [resp.json()]; a document whose [units] is [null], and a
    fact list with an element that is not an object, raise a [TypeError]
    and an [AttributeError] that [except KeyError] does not catch. *)
Lemma fetch_never_raises_counterexample :
  get_financial_data "NetIncomeLoss" (mk_response 200 None) 30 10
  = Raise JSONDecodeError
  /\ get_financial_data "NetIncomeLoss"
       (mk_response 200 (Some (JObj [("units", JNull)]))) 30 10
     = Raise TypeError
  /\ get_financial_data "NetIncomeLoss"
       (mk_response 200 (Some (facts_document (JArr [JNull])))) 30 10
     = Raise AttributeError.
Proof. repeat split. Qed.

(** The fetch returns a value on the well-shaped responses, and on no
    other. *)
Lemma fetch_answers_iff_well_shaped
    concept (resp : response (option json)) fetch_count final_count :
  well_shaped resp = true <->
  exists v, get_financial_data concept resp fetch_count final_count = Ok v.
Proof.
  unfold well_shaped, get_financial_data.
  destruct (status_code resp =? 200); cbn [negb orb];
    [|split; [eexists; reflexivity | reflexivity]].
  destruct (body resp) as [[| | | | |f]|]; cbn [subscript];
    try (split; [discriminate | intros [v H]; discriminate]).
  destruct (dict_get "units" f) as [[| | | | |g]|]; cbn [subscript];
    try (split; [discriminate | intros [v H]; discriminate]).
  - destruct (dict_get "USD" g) as [units|].
    + apply select_records_shape.
    + split; [eexists; reflexivity | reflexivity].
  - split; [eexists; reflexivity | reflexivity].
Qed.

(** C4, amended: on every well-shaped response (any non-200 response, or
    a 200 response whose body is a JSON object whose [units], when
    present, is an object whose [USD], when present, is a false value or a
    list of objects) the fetch returns a value, and every value it returns
    is a success payload xor an error message: a non-200 status, a missing
    [units] or [USD] key, an empty USD list and a filter that keeps nothing
    each give an error message, and a filter that keeps something gives
    the records. *)
Theorem fetch_returns_payload_xor_error
    concept (resp : response (option json)) fetch_count final_count :
  let out := get_financial_data concept resp fetch_count final_count in
  (well_shaped resp = true -> exists v, out = Ok v)
  /\ (forall v, out = Ok v -> one_sided v)
  /\ (status_code resp <> 200 ->
      out = Ok (None, Some ("Request failed (status "
                            ++ Py.str (status_code resp) ++ ") for " ++ concept)))
  /\ (status_code resp = 200 -> lacks_usd resp ->
      out = Ok (None, Some ("USD unit not found for " ++ concept)))
  /\ (status_code resp = 200 -> has_usd resp (JArr []) ->
      out = Ok (None, Some ("No " ++ concept ++ " (USD) data found")))
  /\ (forall u l, status_code resp = 200 -> has_usd resp (JArr (u :: l)) ->
                  ten_k_filter (u :: l) = Ok [] ->
      out = Ok (None, Some ("No 10-K full-year data found for " ++ concept)))
  /\ (forall l x xs, status_code resp = 200 -> has_usd resp (JArr l) ->
                     ten_k_filter l = Ok (x :: xs) ->
      exists recs, out = Ok (Some recs, None)).
Proof.
  cbv zeta. split; [|split; [|split; [|split; [|split; [|split]]]]].
  - apply fetch_answers_iff_well_shaped.
  - intros v. unfold get_financial_data.
    destruct (status_code resp =? 200); cbn [negb].
    2: { intros H; inversion H. left. split; [reflexivity | discriminate]. }
    destruct (body resp) as [data|]; [|discriminate].
    destruct (subscript data "units") as [u| |]; [| |discriminate].
    2: { intros H; inversion H. left. split; [reflexivity | discriminate]. }
    destruct (subscript u "USD") as [units| |]; [| |discriminate].
    2: { intros H; inversion H. left. split; [reflexivity | discriminate]. }
    apply select_records_one_sided.
  - intros Hst. unfold get_financial_data.
    destruct (Z.eqb_spec (status_code resp) 200); [contradiction | reflexivity].
  - intros Hst (f & Hb & H). unfold get_financial_data.
    rewrite Hst, Hb. cbn [Z.eqb Pos.eqb negb subscript].
    destruct H as [Hu | (g & Hu & Hg)]; rewrite Hu; [reflexivity|].
    cbn [subscript]. now rewrite Hg.
  - intros Hst Hu. now rewrite (fetch_with_usd _ _ _ _ _ Hst Hu).
  - intros u l Hst Hu Hf. rewrite (fetch_with_usd _ _ _ _ _ Hst Hu).
    unfold select_records. cbn [truthy negb iterate bind]. now rewrite Hf.
  - intros l x xs Hst Hu Hf. rewrite (fetch_with_usd _ _ _ _ _ Hst Hu).
    unfold select_records.
    destruct l as [|u l]; [discriminate|].
    cbn [truthy negb iterate bind]. rewrite Hf. cbn [bind].
    eexists; reflexivity.
Qed.

Lemma fetch_returns_payload_xor_error_witness :
  get_financial_data "NetIncomeLoss" (mk_response 404 None) 30 10
  = Ok (None, Some "Request failed (status 404) for NetIncomeLoss")
  /\ get_financial_data "NetIncomeLoss"
       (mk_response 200 (Some (facts_document (JArr [])))) 30 10
     = Ok (None, Some "No NetIncomeLoss (USD) data found")
  /\ get_financial_data "NetIncomeLoss"
       (mk_response 200 (Some (JObj [("units", JObj [("EUR", JArr [])])]))) 30 10
     = Ok (None, Some "USD unit not found for NetIncomeLoss")
  /\ get_financial_data "NetIncomeLoss"
       (mk_response 200 (Some (facts_document
          (JArr [annual_fact "2021-01-01" "2021-03-31" 1])))) 30 10
     = Ok (None, Some "No 10-K full-year data found for NetIncomeLoss").
Proof.
  split; [|split; [|split]].
  - refine (eq_trans (proj1 (proj2 (proj2
      (fetch_returns_payload_xor_error "NetIncomeLoss" (mk_response 404 None) 30 10))) _)
      eq_refl).
    discriminate.
  - apply (proj1 (proj2 (proj2 (proj2 (proj2
      (fetch_returns_payload_xor_error "NetIncomeLoss"
         (mk_response 200 (Some (facts_document (JArr [])))) 30 10)))))).
    + reflexivity.
    + apply facts_document_has_usd.
  - apply (proj1 (proj2 (proj2 (proj2
      (fetch_returns_payload_xor_error "NetIncomeLoss"
         (mk_response 200 (Some (JObj [("units", JObj [("EUR", JArr [])])]))) 30 10))))).
    + reflexivity.
    + eexists. split; [reflexivity|]. right. eexists. split; reflexivity.
  - apply (proj1 (proj2 (proj2 (proj2 (proj2 (proj2
      (fetch_returns_payload_xor_error "NetIncomeLoss"
         (mk_response 200 (Some (facts_document
            (JArr [annual_fact "2021-01-01" "2021-03-31" 1])))) 30 10))))))
      (annual_fact "2021-01-01" "2021-03-31" 1) []).
    + reflexivity.
    + apply facts_document_has_usd.
    + reflexivity.
Defined.

End FilterFacts.

(* ================================================================== *)
(** ** The fetcher: sort, truncation and deduplication *)
(* ================================================================== *)

Module OrderFacts.

Lemma compare_lt_trans (s : string) : forall t u,
  String.compare s t = Lt -> String.compare t u = Lt -> String.compare s u = Lt.
Proof.
  induction s as [|a s IH]; intros [|b t] [|c u]; simpl;
    try discriminate; try reflexivity.
  unfold Ascii.compare.
  destruct (N.compare_spec (N_of_ascii a) (N_of_ascii b)) as [E1|L1|G1];
    destruct (N.compare_spec (N_of_ascii b) (N_of_ascii c)) as [E2|L2|G2];
    destruct (N.compare_spec (N_of_ascii a) (N_of_ascii c)) as [E3|L3|G3];
    try discriminate; try lia; try reflexivity.
  apply IH.
Qed.

Lemma compare_refl (s : string) : String.compare s s = Eq.
Proof.
  induction s as [|a s IH]; simpl; [reflexivity|].
  unfold Ascii.compare. now rewrite N.compare_refl.
Qed.

Lemma ltb_false_leb (s t : string) : String.ltb s t = false <-> String.leb t s = true.
Proof.
  unfold String.ltb, String.leb. rewrite (String.compare_antisym t s).
  destruct (String.compare s t); simpl; split; congruence.
Qed.

Lemma leb_refl (s : string) : String.leb s s = true.
Proof. unfold String.leb. now rewrite compare_refl. Qed.

Lemma leb_trans (s t u : string) :
  String.leb s t = true -> String.leb t u = true -> String.leb s u = true.
Proof.
  unfold String.leb. intros H1 H2.
  destruct (String.compare s t) eqn:E1; [| |discriminate].
  - apply String.compare_eq_iff in E1. now subst.
  - destruct (String.compare t u) eqn:E2; [| |discriminate].
    + apply String.compare_eq_iff in E2. subst. now rewrite E1.
    + now rewrite (compare_lt_trans s t u E1 E2).
Qed.

End OrderFacts.

Module DedupFacts.
Import Fetcher FetcherSpec FilterFacts OrderFacts.

Lemma mem_key_In k seen : mem_key k seen = true <-> In k seen.
Proof.
  unfold mem_key. destruct (in_dec key_eq_dec k seen); split;
    auto; discriminate.
Qed.

(** *** The sort *)

Lemma insert_desc_perm (x : json) (l : list json) :
  Permutation (insert_desc x l) (x :: l).
Proof.
  induction l as [|y l IH]; cbn [insert_desc]; [reflexivity|].
  destruct (String.ltb (end_key x) (end_key y)); [|reflexivity].
  rewrite IH. apply perm_swap.
Qed.

Lemma sorted_desc_perm (l : list json) : Permutation (sorted_desc l) l.
Proof.
  induction l as [|x l IH]; cbn [sorted_desc]; [reflexivity|].
  rewrite insert_desc_perm. now constructor.
Qed.

Lemma insert_desc_sorted (x : json) (l : list json) :
  StronglySorted end_ge l -> StronglySorted end_ge (insert_desc x l).
Proof.
  induction l as [|y l IH]; intros Hs; cbn [insert_desc].
  - repeat constructor.
  - inversion Hs as [|? ? Hl Hy]; subst.
    destruct (String.ltb (end_key x) (end_key y)) eqn:E.
    + constructor; [now apply IH|].
      apply Forall_forall. intros z Hz.
      apply (Permutation_in _ (insert_desc_perm x l)) in Hz.
      destruct Hz as [<-|Hz].
      * unfold end_ge, String.leb. unfold String.ltb in E.
        destruct (String.compare (end_key x) (end_key y)); congruence.
      * rewrite Forall_forall in Hy. now apply Hy.
    + apply ltb_false_leb in E. constructor; [exact Hs|].
      constructor; [exact E|].
      rewrite Forall_forall in Hy |- *. intros z Hz.
      unfold end_ge in *. eapply leb_trans; [apply (Hy z Hz) | exact E].
Qed.

Lemma sorted_desc_sorted (l : list json) : StronglySorted end_ge (sorted_desc l).
Proof.
  induction l as [|x l IH]; cbn [sorted_desc]; [constructor|].
  now apply insert_desc_sorted.
Qed.

(** *** Sublists keep order and distinctness *)

Lemma sublist_nil {A : Type} (l : list A) : sublist [] l.
Proof. induction l; constructor; assumption. Qed.

Lemma sublist_refl {A : Type} (l : list A) : sublist l l.
Proof. induction l; constructor; assumption. Qed.

Lemma sublist_In {A : Type} (l l' : list A) :
  sublist l l' -> forall x, In x l -> In x l'.
Proof.
  induction 1; intros y Hy; [exact Hy | right; auto |].
  destruct Hy as [<-|Hy]; [now left | right; auto].
Qed.

Lemma sublist_trans {A : Type} (l2 l3 : list A) :
  sublist l2 l3 -> forall l1, sublist l1 l2 -> sublist l1 l3.
Proof.
  induction 1; intros l1 H1; [exact H1 | apply sub_skip; auto |].
  inversion H1; subst; [apply sub_skip | apply sub_take]; auto.
Qed.

Lemma sublist_firstn {A : Type} (n : nat) (l : list A) : sublist (firstn n l) l.
Proof.
  revert n; induction l as [|x l IH]; intros [|n]; cbn [firstn].
  - constructor.
  - constructor.
  - apply sublist_nil.
  - apply sub_take, IH.
Qed.

Lemma sublist_map {A B : Type} (f : A -> B) (l l' : list A) :
  sublist l l' -> sublist (map f l) (map f l').
Proof. induction 1; cbn [map]; constructor; assumption. Qed.

Lemma sublist_sorted {A : Type} (R : A -> A -> Prop) (l l' : list A) :
  sublist l l' -> StronglySorted R l' -> StronglySorted R l.
Proof.
  induction 1 as [|x l l' Hsub IH|x l l' Hsub IH]; intros Hs;
    [constructor | |]; inversion Hs as [|? ? Hl Hx]; subst; [auto|].
  constructor; [auto|].
  rewrite Forall_forall in Hx |- *. intros y Hy.
  apply Hx. eapply sublist_In; eauto.
Qed.

Lemma sublist_NoDup {A : Type} (l l' : list A) :
  sublist l l' -> NoDup l' -> NoDup l.
Proof.
  induction 1 as [|x l l' Hsub IH|x l l' Hsub IH]; intros Hn;
    [constructor | |]; inversion Hn as [|? ? Hx Hl]; subst; [auto|].
  constructor; [|auto]. intros Hin. apply Hx. eapply sublist_In; eauto.
Qed.

Lemma sublist_slice_to {A : Type} (n : Z) (l : list A) : sublist (slice_to n l) l.
Proof. unfold slice_to. destruct (0 <=? n); apply sublist_firstn. Qed.

Lemma slice_to_all {A : Type} (n : Z) (l : list A) :
  Z.of_nat (List.length l) <= n -> slice_to n l = l.
Proof.
  intros H. unfold slice_to.
  destruct (Z.leb_spec 0 n); [|lia].
  apply firstn_all2. lia.
Qed.

(** *** The deduplication loop *)

Lemma first_seen_sublist (items : list json) : forall seen,
  sublist (first_seen items seen) items.
Proof.
  induction items as [|item rest IH]; intros seen; cbn [first_seen];
    [constructor|].
  destruct (mem_key (start_end item) seen); constructor; apply IH.
Qed.

Lemma first_seen_keys (items : list json) : forall seen k,
  In k (map start_end (first_seen items seen)) <->
  In k (map start_end items) /\ ~ In k seen.
Proof.
  induction items as [|item rest IH]; intros seen k; cbn [first_seen map].
  - simpl. tauto.
  - destruct (mem_key (start_end item) seen) eqn:E.
    + apply mem_key_In in E. rewrite IH. cbn [In]. split.
      * tauto.
      * intros [[<-|H] Hn]; [contradiction | tauto].
    + assert (Hn : ~ In (start_end item) seen).
      { intros H. apply mem_key_In in H. congruence. }
      cbn [map In]. rewrite IH. cbn [In].
      destruct (key_eq_dec (start_end item) k) as [<-|Hne]; tauto.
Qed.

Lemma first_seen_NoDup (items : list json) : forall seen,
  NoDup (map start_end (first_seen items seen)).
Proof.
  induction items as [|item rest IH]; intros seen; cbn [first_seen map];
    [constructor|].
  destruct (mem_key (start_end item) seen); [apply IH|].
  cbn [map]. constructor; [|apply IH].
  rewrite first_seen_keys. cbn [In]. tauto.
Qed.

Lemma first_seen_length (items : list json) :
  List.length (first_seen items []) = distinct_periods items.
Proof.
  unfold distinct_periods. rewrite <- (length_map start_end).
  apply Permutation_length, NoDup_Permutation.
  - apply first_seen_NoDup.
  - apply NoDup_nodup.
  - intros k. rewrite first_seen_keys, nodup_In. cbn [In]. tauto.
Qed.

Lemma distinct_periods_perm (l l' : list json) :
  Permutation l l' -> distinct_periods l = distinct_periods l'.
Proof.
  intros H. unfold distinct_periods.
  apply Permutation_length, NoDup_Permutation; try apply NoDup_nodup.
  intros k. rewrite !nodup_In.
  split; apply Permutation_in; [|symmetry]; now apply Permutation_map.
Qed.

(** Whatever [final_count] is, the loop returns what it had plus a prefix
    of the first-seen records. *)
Lemma dedup_loop_prefix (final_count : Z) (items : list json) :
  forall unique_rev seen,
  exists n, dedup_loop final_count items unique_rev seen
            = (rev unique_rev ++ firstn n (first_seen items seen))%list.
Proof.
  induction items as [|item rest IH]; intros unique_rev seen;
    cbn [dedup_loop first_seen].
  - exists O. now rewrite app_nil_r.
  - destruct (mem_key (start_end item) seen); cbn [negb].
    + destruct (Z.of_nat (List.length unique_rev) =? final_count).
      * exists O. now rewrite app_nil_r.
      * apply IH.
    + destruct (Z.of_nat (List.length (item :: unique_rev)) =? final_count).
      * exists 1%nat. reflexivity.
      * destruct (IH (item :: unique_rev) (start_end item :: seen)) as [n Hn].
        exists (S n). rewrite Hn. cbn [rev firstn].
        now rewrite <- app_assoc.
Qed.

(** With a positive [final_count] not yet reached, the loop stops exactly
    when [final_count] records are collected. *)
Lemma dedup_loop_exact (final_count : Z) (items : list json) :
  forall unique_rev seen,
  Z.of_nat (List.length unique_rev) < final_count ->
  dedup_loop final_count items unique_rev seen
  = (rev unique_rev
     ++ firstn (Z.to_nat final_count - List.length unique_rev)
               (first_seen items seen))%list.
Proof.
  induction items as [|item rest IH]; intros unique_rev seen Hlt;
    cbn [dedup_loop first_seen].
  - now rewrite firstn_nil, app_nil_r.
  - destruct (mem_key (start_end item) seen); cbn [negb].
    + destruct (Z.eqb_spec (Z.of_nat (List.length unique_rev)) final_count);
        [lia | now apply IH].
    + destruct (Z.eqb_spec (Z.of_nat (List.length (item :: unique_rev)))
                           final_count) as [E|N].
      * cbn [List.length] in E.
        replace (Z.to_nat final_count - List.length unique_rev)%nat
          with 1%nat by lia.
        reflexivity.
      * cbn [List.length] in N |- *. rewrite IH by (cbn [List.length]; lia).
        replace (Z.to_nat final_count - List.length unique_rev)%nat
          with (S (Z.to_nat final_count - S (List.length unique_rev)))%nat by lia.
        cbn [rev firstn List.length]. now rewrite <- app_assoc.
Qed.

Lemma select_records_kept concept (l : list json) fetch_count final_count x xs :
  ten_k_filter l = Ok (x :: xs) ->
  select_records concept (JArr l) fetch_count final_count
  = Ok (Some (selected (x :: xs) fetch_count final_count), None).
Proof.
  intros H. unfold select_records.
  destruct l as [|u l]; [discriminate|].
  cbn [truthy negb iterate bind]. rewrite H. reflexivity.
Qed.

Lemma selected_sublist kept fetch_count final_count :
  sublist (selected kept fetch_count final_count) (sorted_desc kept).
Proof.
  unfold selected.
  destruct (dedup_loop_prefix final_count
              (slice_to fetch_count (sorted_desc kept)) [] []) as [n ->].
  cbn [rev app].
  eapply sublist_trans; [apply sublist_slice_to|].
  eapply sublist_trans; [apply first_seen_sublist | apply sublist_firstn].
Qed.

Lemma selected_NoDup kept fetch_count final_count :
  NoDup (map start_end (selected kept fetch_count final_count)).
Proof.
  unfold selected.
  destruct (dedup_loop_prefix final_count
              (slice_to fetch_count (sorted_desc kept)) [] []) as [n ->].
  cbn [rev app].
  eapply sublist_NoDup; [apply sublist_map, sublist_firstn|].
  apply first_seen_NoDup.
Qed.

Lemma selected_length kept fetch_count final_count :
  1 <= final_count ->
  Z.of_nat (List.length (selected kept fetch_count final_count))
  = Z.min (Z.of_nat (distinct_periods (slice_to fetch_count (sorted_desc kept))))
          final_count.
Proof.
  intros H. unfold selected.
  rewrite dedup_loop_exact by (cbn [List.length]; lia).
  cbn [rev app List.length]. rewrite length_firstn, first_seen_length. lia.
Qed.

Lemma ten_k_filter_all_kept (units : list json) :
  forallb keeps units = true -> ten_k_filter units = Ok units.
Proof.
  induction units as [|u units IH]; cbn [forallb ten_k_filter];
    [reflexivity|].
  intros H. apply andb_true_iff in H as [Hu Hrest].
  rewrite (IH Hrest). unfold keeps in Hu.
  destruct (keep_10k u) as [[|]|]; try discriminate. reflexivity.
Qed.

Lemma ten_k_filter_keeps (units : list json) : forall kept,
  ten_k_filter units = Ok kept -> Forall (fun u => keeps u = true) kept.
Proof.
  induction units as [|u units IH]; cbn [ten_k_filter]; intros kept H.
  - inversion H. constructor.
  - destruct (keep_10k u) as [b|] eqn:Eu; cbn [bind] in H; [|discriminate].
    destruct (ten_k_filter units) as [tl|]; cbn [bind] in H; [|discriminate].
    inversion H; subst. specialize (IH tl eq_refl).
    destruct b; [|exact IH].
    constructor; [|exact IH]. unfold keeps. now rewrite Eu.
Qed.

Lemma keeps_string_dates (r : json) :
  keeps r = true ->
  exists s e, field r "start" = Some (JStr s)
              /\ field r "end" = Some (JStr e) /\ end_key r = e.
Proof.
  unfold keeps. destruct r as [| | | | |f]; cbn [keep_10k]; try discriminate.
  intros H. apply andb_true_iff in H as [_ H].
  destruct (kept_has_string_dates f H) as (s & e & Hs & He).
  exists s, e. cbn [field end_key]. rewrite He. auto.
Qed.

Lemma select_records_success concept units fetch_count final_count recs :
  select_records concept units fetch_count final_count = Ok (Some recs, None) ->
  exists kept, Forall (fun u => keeps u = true) kept
               /\ recs = selected kept fetch_count final_count.
Proof.
  unfold select_records. destruct (truthy units); cbn [negb]; [|discriminate].
  destruct (iterate units) as [elems|]; cbn [bind]; [|discriminate].
  destruct (ten_k_filter elems) as [kept|] eqn:E; cbn [bind]; [|discriminate].
  destruct kept as [|x xs]; [discriminate|].
  intros H. inversion H. exists (x :: xs).
  split; [now apply (ten_k_filter_keeps elems) | reflexivity].
Qed.

Lemma fetch_success concept resp fetch_count final_count recs :
  get_financial_data concept resp fetch_count final_count = Ok (Some recs, None) ->
  exists kept, Forall (fun u => keeps u = true) kept
               /\ recs = selected kept fetch_count final_count.
Proof.
  unfold get_financial_data.
  destruct (status_code resp =? 200); cbn [negb]; [|discriminate].
  destruct (body resp) as [data|]; [|discriminate].
  destruct (subscript data "units") as [u| |]; try discriminate.
  destruct (subscript u "USD") as [units| |]; try discriminate.
  apply select_records_success.
Qed.

(** C1, as worded: with the default counts, thirty filings of one period
    followed by one filing of an older period are N = 31 facts with K = 2
    distinct periods, all admitted by the filter; the thirty most recent
    are kept before the deduplication, and one record comes back, not
    min(2, 10) = 2. *)
Lemma crowded_out_counterexample :
  let units := (repeat fy2023 30 ++ [fy2022])%list in
  forallb keeps units = true
  /\ distinct_periods units = 2%nat
  /\ (distinct_periods units < List.length units)%nat
  /\ get_financial_data "Revenues"
       (mk_response 200 (Some (facts_document (JArr units)))) 30 10
     = Ok (Some [fy2023], None)
  /\ Z.of_nat (List.length [fy2023]) <> Z.min (Z.of_nat (distinct_periods units)) 10.
Proof.
  cbv zeta. repeat split; try (vm_compute; reflexivity).
  - vm_compute. lia.
  - vm_compute. discriminate.
Qed.

(** C1, amended: when the filter admits all N >= 1 facts and final_count
    is at least 1, the fetch returns exactly min(K', final_count) records,
    K' being the number of distinct (start, end) pairs among the first
    fetch_count facts in descending order of end; when N <= fetch_count,
    K' is the number K of distinct pairs of the whole input. *)
Theorem dedup_returns_min_count
    concept (resp : response (option json)) (units : list json)
    (fetch_count final_count : Z) :
  status_code resp = 200 ->
  has_usd resp (JArr units) ->
  units <> [] ->
  forallb keeps units = true ->
  1 <= final_count ->
  exists recs,
    get_financial_data concept resp fetch_count final_count = Ok (Some recs, None)
    /\ Z.of_nat (List.length recs)
       = Z.min (Z.of_nat (distinct_periods
                            (slice_to fetch_count (sorted_desc units))))
               final_count
    /\ (Z.of_nat (List.length units) <= fetch_count ->
        Z.of_nat (List.length recs)
        = Z.min (Z.of_nat (distinct_periods units)) final_count).
Proof.
  intros Hst Hu Hne Hk Hfc.
  exists (selected units fetch_count final_count).
  rewrite (fetch_with_usd _ _ _ _ _ Hst Hu).
  destruct units as [|x xs]; [contradiction|].
  rewrite (select_records_kept concept _ fetch_count final_count x xs
             (ten_k_filter_all_kept _ Hk)).
  split; [reflexivity|]. split; [now apply selected_length|].
  intros Hlen. rewrite (selected_length _ _ _ Hfc).
  rewrite slice_to_all.
  - now rewrite (distinct_periods_perm _ _ (sorted_desc_perm (x :: xs))).
  - now rewrite (Permutation_length (sorted_desc_perm (x :: xs))).
Qed.

Lemma dedup_returns_min_count_witness :
  exists recs,
    get_financial_data "Revenues"
      (mk_response 200 (Some (facts_document
         (JArr [fy2022; fy2023; fy2022])))) 30 10 = Ok (Some recs, None)
    /\ Z.of_nat (List.length recs) = 2.
Proof.
  destruct (dedup_returns_min_count "Revenues"
      (mk_response 200 (Some (facts_document (JArr [fy2022; fy2023; fy2022]))))
      [fy2022; fy2023; fy2022] 30 10
      eq_refl (facts_document_has_usd _) ltac:(discriminate) eq_refl
      ltac:(lia)) as (recs & H & _ & Hlen).
  exists recs. split; [exact H|].
  rewrite Hlen; [reflexivity | cbn; lia].
Defined.

End DedupFacts.

(* ================================================================== *)
(** ** Calendar facts: zero-padded dates sort chronologically *)
(* ================================================================== *)

Module DateFacts.
Import Py Date FetcherSpec.

Lemma days_before_year_step (y : Z) :
  days_before_year (y + 1)
  = days_before_year y + 365 + (if is_leap y then 1 else 0).
Proof.
  unfold days_before_year, is_leap. cbv zeta.
  replace (y + 1 - 1) with y by lia.
  destruct (Z.eqb_spec (y mod 4) 0), (Z.eqb_spec (y mod 100) 0),
    (Z.eqb_spec (y mod 400) 0); cbn [negb orb andb];
    Z.div_mod_to_equations; lia.
Qed.

Lemma days_before_year_mono (y y' : Z) :
  y <= y' -> days_before_year y <= days_before_year y'.
Proof.
  intros H. unfold days_before_year. cbv zeta.
  Z.div_mod_to_equations; lia.
Qed.

Lemma month_cases (m : Z) :
  1 <= m <= 12 ->
  m = 1 \/ m = 2 \/ m = 3 \/ m = 4 \/ m = 5 \/ m = 6 \/ m = 7 \/ m = 8
  \/ m = 9 \/ m = 10 \/ m = 11 \/ m = 12.
Proof. lia. Qed.

Ltac each_month H :=
  repeat (destruct H as [H | H]; [subst |]); [.. | subst].

(** The months of one year follow each other without gap or overlap. *)
Lemma days_before_next_month (y m : Z) :
  1 <= m <= 11 ->
  days_before_month y (m + 1) = days_before_month y m + days_in_month y m.
Proof.
  intros Hm. assert (H : 1 <= m <= 12) by lia.
  apply month_cases in H. unfold days_before_month, days_in_month.
  each_month H; try lia; cbn; destruct (is_leap y); reflexivity.
Qed.

Lemma days_before_month_mono (y m m' : Z) :
  1 <= m -> m <= m' <= 12 ->
  days_before_month y m <= days_before_month y m'.
Proof.
  intros H1 H2.
  assert (Hm : 1 <= m <= 12) by lia. assert (Hm' : 1 <= m' <= 12) by lia.
  apply month_cases in Hm. apply month_cases in Hm'.
  unfold days_before_month.
  each_month Hm; each_month Hm'; try lia; cbn; destruct (is_leap y); lia.
Qed.

Lemma days_in_month_pos (y m : Z) : 28 <= days_in_month y m <= 31.
Proof.
  unfold days_in_month.
  destruct (m =? 2); [destruct (is_leap y); lia|].
  destruct ((m =? 4) || (m =? 6) || (m =? 9) || (m =? 11)); lia.
Qed.

Lemma year_end_bound (y m : Z) :
  1 <= m <= 12 ->
  days_before_month y m + days_in_month y m
  <= 365 + (if is_leap y then 1 else 0).
Proof.
  intros H. apply month_cases in H. unfold days_before_month, days_in_month.
  each_month H; cbn; destruct (is_leap y); lia.
Qed.

Lemma valid_bounds (d : date) :
  valid d = true ->
  1 <= year d <= 9999 /\ 1 <= month d <= 12
  /\ 1 <= day d <= days_in_month (year d) (month d).
Proof.
  unfold valid. rewrite !andb_true_iff, !Z.leb_le. tauto.
Qed.

(** [toordinal] is monotone in the calendar order of valid dates. *)
Lemma toordinal_mono (d1 d2 : date) :
  valid d1 = true -> valid d2 = true ->
  date_key d1 <= date_key d2 -> toordinal d1 <= toordinal d2.
Proof.
  intros V1 V2. apply valid_bounds in V1, V2.
  destruct d1 as [y1 m1 a1], d2 as [y2 m2 a2].
  unfold date_key, toordinal. cbn [year month day] in *.
  pose proof (days_in_month_pos y1 m1). pose proof (days_in_month_pos y2 m2).
  intros Hk.
  assert (C : y1 < y2 \/ (y1 = y2 /\ m1 < m2) \/ (y1 = y2 /\ m1 = m2 /\ a1 <= a2))
    by lia.
  destruct C as [Hy | [[-> Hm] | (-> & -> & Ha)]].
  - pose proof (year_end_bound y1 m1 ltac:(lia)).
    pose proof (days_before_year_step y1).
    pose proof (days_before_year_mono (y1 + 1) y2 ltac:(lia)).
    pose proof (days_before_month_mono y2 1 m2 ltac:(lia) ltac:(lia)) as Hb.
    change (days_before_month y2 1) with 0 in Hb. lia.
  - pose proof (days_before_next_month y2 m1 ltac:(lia)).
    pose proof (days_before_month_mono y2 (m1 + 1) m2 ltac:(lia) ltac:(lia)).
    lia.
  - lia.
Qed.

Lemma digit_bounds (c : ascii) :
  is_digit c = true -> (48 <= N_of_ascii c <= 57)%N /\ 0 <= digit_val c <= 9.
Proof.
  unfold is_digit, digit_val, ord. rewrite andb_true_iff, !N.leb_le. lia.
Qed.

Lemma digit_not_dash (c : ascii) : is_digit c = true -> is_dash c = false.
Proof.
  intros H. unfold is_dash. destruct (Ascii.eqb_spec c "-") as [->|]; [|reflexivity].
  discriminate H.
Qed.

Lemma parse_month_iso (m1 m2 h : ascii) (rest : string) (m : Z) (rest' : string) :
  is_digit m1 = true -> is_digit m2 = true ->
  parse_month (String m1 (String m2 (String h rest))) = Some (m, rest') ->
  m = 10 * digit_val m1 + digit_val m2 /\ rest' = rest.
Proof.
  intros H1 H2. unfold parse_month. rewrite H1, H2, (digit_not_dash m2 H2).
  cbn [andb]. rewrite andb_false_r.
  destruct ((digit_val m1 =? 1) && (digit_val m2 <=? 2)
            || (digit_val m1 =? 0) && (1 <=? digit_val m2)); [|discriminate].
  destruct (is_dash h); [|discriminate].
  intros E; inversion E; auto.
Qed.

Lemma parse_day_iso (d1 d2 : ascii) (d : Z) :
  is_digit d1 = true -> is_digit d2 = true ->
  parse_day (String d1 (String d2 EmptyString)) = Some d ->
  d = 10 * digit_val d1 + digit_val d2.
Proof.
  intros H1 H2. unfold parse_day. rewrite H1, H2. cbn [andb].
  destruct ((digit_val d1 =? 3) && (digit_val d2 <=? 1)
            || (1 <=? digit_val d1) && (digit_val d1 <=? 2)
            || (digit_val d1 =? 0) && (1 <=? digit_val d2)).
  - intros E; inversion E; reflexivity.
  - destruct (1 <=? digit_val d1); [discriminate|].
    destruct (Ascii.eqb_spec d1 " ") as [->|]; [discriminate H1 | discriminate].
Qed.

Lemma strptime_valid (s : string) (d : date) :
  strptime s = Some d -> valid d = true.
Proof.
  unfold strptime.
  destruct s as [|y1 [|y2 [|y3 [|y4 [|h rest]]]]]; try discriminate.
  destruct (is_digit y1 && is_digit y2 && is_digit y3 && is_digit y4 && is_dash h);
    [|discriminate].
  destruct (parse_month rest) as [[m rest']|]; [|discriminate].
  destruct (parse_day rest') as [a|]; [|discriminate].
  destruct (valid _) eqn:V; [|discriminate].
  intros E; inversion E; subst. exact V.
Qed.

Lemma strptime_iso (y1 y2 y3 y4 h1 m1 m2 h2 d1 d2 : ascii) (d : date) :
  is_digit m1 = true -> is_digit m2 = true ->
  is_digit d1 = true -> is_digit d2 = true ->
  strptime (String y1 (String y2 (String y3 (String y4 (String h1
     (String m1 (String m2 (String h2 (String d1 (String d2 EmptyString))))))))))
  = Some d ->
  year d = 1000 * digit_val y1 + 100 * digit_val y2
           + 10 * digit_val y3 + digit_val y4
  /\ month d = 10 * digit_val m1 + digit_val m2
  /\ day d = 10 * digit_val d1 + digit_val d2.
Proof.
  intros Hm1 Hm2 Hd1 Hd2. unfold strptime.
  destruct (is_digit y1 && is_digit y2 && is_digit y3 && is_digit y4 && is_dash h1);
    [|discriminate].
  destruct (parse_month _) as [[m rest']|] eqn:Em; [|discriminate].
  apply (parse_month_iso _ _ _ _ _ _ Hm1 Hm2) in Em as [-> ->].
  destruct (parse_day _) as [a|] eqn:Ea; [|discriminate].
  apply (parse_day_iso _ _ _ Hd1 Hd2) in Ea as ->.
  destruct (valid _); [|discriminate].
  intros E; inversion E; subst. cbn [year month day]. auto.
Qed.

Ltac next_char H :=
  match type of H with
  | context [N.compare ?a ?b] =>
      destruct (N.compare_spec a b); cbv beta iota in H
  end.

(** On zero-padded dates the order of the strings is the order of the
    calendar. *)
Lemma iso_order (s t : string) (ds dt : date) :
  is_iso s = true -> is_iso t = true ->
  strptime s = Some ds -> strptime t = Some dt ->
  String.leb s t = true -> date_key ds <= date_key dt.
Proof.
  intros Is It Ps Pt Hle.
  destruct s as [|y1 [|y2 [|y3 [|y4 [|h1 [|m1 [|m2 [|h2 [|d1 [|d2 [|x s]]]]]]]]]]];
    try discriminate Is.
  destruct t as [|z1 [|z2 [|z3 [|z4 [|g1 [|n1 [|n2 [|g2 [|e1 [|e2 [|x' t]]]]]]]]]]];
    try discriminate It.
  cbn [is_iso] in Is, It. rewrite !andb_true_iff in Is, It.
  destruct Is as [[[[[[[[[Y1 Y2] Y3] Y4] H1] M1] M2] H2] D1] D2].
  destruct It as [[[[[[[[[Z1 Z2] Z3] Z4] G1] N1] N2] G2] E1] E2].
  apply (strptime_iso _ _ _ _ _ _ _ _ _ _ _ M1 M2 D1 D2) in Ps as (Py & Pm & Pd).
  apply (strptime_iso _ _ _ _ _ _ _ _ _ _ _ N1 N2 E1 E2) in Pt as (Qy & Qm & Qd).
  unfold is_dash in H1, H2, G1, G2.
  apply Ascii.eqb_eq in H1, H2, G1, G2. subst h1 h2 g1 g2.
  unfold date_key. rewrite Py, Pm, Pd, Qy, Qm, Qd.
  apply digit_bounds in Y1, Y2, Y3, Y4, M1, M2, D1, D2.
  apply digit_bounds in Z1, Z2, Z3, Z4, N1, N2, E1, E2.
  unfold digit_val, ord in *.
  unfold String.leb in Hle. cbn [String.compare] in Hle.
  unfold Ascii.compare in Hle.
  change (N_of_ascii "-") with 45%N in Hle.
  change (45 ?= 45)%N with Eq in Hle. cbv beta iota in Hle.
  repeat (next_char Hle; try discriminate Hle; try lia).
Qed.

End DateFacts.

(* ================================================================== *)
(** ** The fetcher: what every successful result satisfies *)
(* ================================================================== *)

Module FetchInvariants.
Import Date Fetcher FetcherSpec FilterFacts DedupFacts DateFacts.

Lemma keeps_end_parses (r : json) :
  keeps r = true ->
  exists d, end_date r = Some d /\ strptime (end_key r) = Some d.
Proof.
  unfold keeps, end_date.
  destruct r as [| | | | |f]; cbn [keep_10k]; try discriminate.
  intros H. apply andb_true_iff in H as [_ H]. cbn [field end_key].
  unfold is_full_year in H.
  destruct (dict_get "start" f) as [[| | |s| |]|]; try discriminate.
  destruct (dict_get "end" f) as [[| | |e| |]|]; try discriminate.
  destruct (strptime s); [|discriminate].
  destruct (strptime e) as [de|]; [|discriminate].
  exists de. auto.
Qed.

Lemma sorted_weaken {A : Type} (R R' : A -> A -> Prop) (l : list A) :
  (forall a b, In a l -> In b l -> R a b -> R' a b) ->
  StronglySorted R l -> StronglySorted R' l.
Proof.
  intros Himp Hs. induction Hs as [|a l Hs IH Ha]; [constructor|].
  constructor.
  - apply IH. intros x y Hx Hy. apply Himp; now right.
  - rewrite Forall_forall in Ha |- *. intros y Hy.
    apply Himp; [now left | now right | now apply Ha].
Qed.

Lemma selected_kept kept fetch_count final_count r :
  Forall (fun u => keeps u = true) kept ->
  In r (selected kept fetch_count final_count) -> keeps r = true.
Proof.
  intros Hk Hin. rewrite Forall_forall in Hk. apply Hk.
  eapply Permutation_in; [apply sorted_desc_perm|].
  eapply sublist_In; [apply selected_sublist | exact Hin].
Qed.

(** C8, as worded: the records are ordered by the [end] strings, which is
    not the order of the dates when a date is not zero-padded: both
    periods below pass the filter, and the one ending on September 30th
    comes before the one ending on October 31st of the same year. *)
Lemma most_recent_first_counterexample :
  get_financial_data "Revenues"
    (mk_response 200 (Some (facts_document (JArr [fy_oct_2020; fy_sep_2020]))))
    30 10
  = Ok (Some [fy_sep_2020; fy_oct_2020], None)
  /\ end_ordinal fy_sep_2020 < end_ordinal fy_oct_2020
  /\ ~ StronglySorted date_ge [fy_sep_2020; fy_oct_2020].
Proof.
  split; [vm_compute; reflexivity|].
  split; [vm_compute; reflexivity|].
  intros H. inversion H as [|? ? _ Hf]; subst.
  inversion Hf as [|? ? Hge _]; subst.
  vm_compute in Hge. apply Hge. reflexivity.
Qed.

(** With [final_count = 0] the test [len(unique_records) == final_count]
    never holds after an append, and every distinct period is returned. *)
Lemma zero_final_count_returns_all :
  get_financial_data "Revenues"
    (mk_response 200 (Some (facts_document (JArr [fy2022; fy2023]))))
    30 0
  = Ok (Some [fy2023; fy2022], None).
Proof. vm_compute. reflexivity. Qed.

(** C8, amended: in every successful result no two records share their
    (start, end) pair; there are at most final_count records when
    final_count is at least 1; and the records are in descending order of
    their [end] strings, each of which is the parsable [end] of its
    record, so that they are in descending order of end date whenever the
    [end] strings are zero-padded YYYY-MM-DD. *)
Theorem successful_fetch_invariants
    concept (resp : response (option json)) fetch_count final_count recs :
  get_financial_data concept resp fetch_count final_count = Ok (Some recs, None) ->
  NoDup (map start_end recs)
  /\ (1 <= final_count -> Z.of_nat (List.length recs) <= final_count)
  /\ StronglySorted end_ge recs
  /\ Forall (fun r => exists d, end_date r = Some d
                                /\ strptime (end_key r) = Some d) recs
  /\ (Forall (fun r => is_iso (end_key r) = true) recs ->
      StronglySorted date_ge recs).
Proof.
  intros H. apply fetch_success in H as (kept & Hk & ->).
  assert (Hs : StronglySorted end_ge (selected kept fetch_count final_count)).
  { eapply sublist_sorted; [apply selected_sublist | apply sorted_desc_sorted]. }
  assert (Hp : forall r, In r (selected kept fetch_count final_count) ->
                 exists d, end_date r = Some d /\ strptime (end_key r) = Some d).
  { intros r Hr. apply keeps_end_parses. eapply selected_kept; eauto. }
  split; [apply selected_NoDup|].
  split; [intros Hfc; rewrite (selected_length _ _ _ Hfc); lia|].
  split; [exact Hs|].
  split; [now apply Forall_forall|].
  intros Hiso. rewrite Forall_forall in Hiso.
  apply (sorted_weaken end_ge); [|exact Hs].
  intros a b Ha Hb Hab. unfold date_ge, end_ordinal.
  destruct (Hp a Ha) as (da & -> & Pa). destruct (Hp b Hb) as (db & -> & Pb).
  apply toordinal_mono; try (eapply strptime_valid; eassumption).
  apply (iso_order (end_key b) (end_key a)); auto.
Qed.

Lemma successful_fetch_invariants_witness :
  NoDup (map start_end [fy2023; fy2022])
  /\ Z.of_nat (List.length [fy2023; fy2022]) <= 10
  /\ StronglySorted date_ge [fy2023; fy2022].
Proof.
  destruct (successful_fetch_invariants "Revenues"
      (mk_response 200 (Some (facts_document
         (JArr [fy2022; fy2023; fy2022; fy2023]))))
      30 10 [fy2023; fy2022] eq_refl) as (Hn & Hl & _ & _ & Hd).
  split; [exact Hn|]. split; [apply Hl; lia|].
  apply Hd. repeat constructor.
Defined.

End FetchInvariants.

(* ================================================================== *)
(** ** The normaliser: join on the year and unit scale *)
(* ================================================================== *)

Module NormalizerFacts.
Import Normalizer NormalizerSpec.

(** *** Grouping *)

Lemma add_to_group_keys (y v : Z) (groups : frame) (k : Z) :
  In k (map fst (add_to_group y v groups)) <-> k = y \/ In k (map fst groups).
Proof.
  induction groups as [|[y' v'] rest IH]; cbn [add_to_group map fst In].
  - intuition.
  - destruct (Z.ltb_spec y y'); [cbn [map fst In]; intuition|].
    destruct (Z.eqb_spec y y'); cbn [map fst In].
    + subst. intuition.
    + rewrite IH. intuition.
Qed.

Lemma add_to_group_sorted (y v : Z) (groups : frame) :
  StronglySorted Z.lt (map fst groups) ->
  StronglySorted Z.lt (map fst (add_to_group y v groups)).
Proof.
  induction groups as [|[y' v'] rest IH]; cbn [add_to_group map fst];
    intros Hs.
  - repeat constructor.
  - inversion Hs as [|? ? Hrest Hall]; subst.
    destruct (Z.ltb_spec y y'); [|destruct (Z.eqb_spec y y')]; cbn [map fst].
    + constructor; [exact Hs|]. constructor; [assumption|].
      rewrite Forall_forall in Hall |- *. intros z Hz.
      specialize (Hall z Hz). lia.
    + exact Hs.
    + constructor; [now apply IH|].
      rewrite Forall_forall in Hall |- *. intros z Hz.
      apply add_to_group_keys in Hz as [->|Hz]; [lia | now apply Hall].
Qed.

Lemma groupby_sum_from (rows groups : frame) :
  StronglySorted Z.lt (map fst groups) ->
  StronglySorted Z.lt
    (map fst (fold_left (fun g r => add_to_group (fst r) (snd r) g) rows groups))
  /\ forall k,
       In k (map fst (fold_left (fun g r => add_to_group (fst r) (snd r) g)
                                rows groups))
       <-> In k (map fst rows) \/ In k (map fst groups).
Proof.
  revert groups. induction rows as [|[y v] rows IH]; intros groups Hs;
    cbn [fold_left map fst In].
  - split; [exact Hs | intuition].
  - destruct (IH (add_to_group y v groups) (add_to_group_sorted y v groups Hs))
      as [Hsorted Hkeys].
    split; [exact Hsorted|].
    intros k. rewrite Hkeys, add_to_group_keys. intuition.
Qed.

(** The grouped frame has one row per year of the input, in ascending
    order of the years. *)
Lemma groupby_sum_years (rows : frame) :
  StronglySorted Z.lt (map fst (groupby_sum rows))
  /\ forall k, In k (map fst (groupby_sum rows)) <-> In k (map fst rows).
Proof.
  destruct (groupby_sum_from rows [] (SSorted_nil _)) as [Hs Hk].
  split; [exact Hs|]. intros k. rewrite (Hk k). cbn [map In]. intuition.
Qed.

Lemma strictly_sorted_NoDup (l : list Z) : StronglySorted Z.lt l -> NoDup l.
Proof.
  induction 1 as [|a l Hs IH Ha]; constructor; [|exact IH].
  intros Hin. rewrite Forall_forall in Ha. specialize (Ha a Hin). lia.
Qed.

Lemma sorted_NoDup_strict (l : list Z) :
  StronglySorted Z.le l -> NoDup l -> StronglySorted Z.lt l.
Proof.
  induction 1 as [|a l Hs IH Ha]; intros Hn; [constructor|].
  inversion Hn as [|? ? Hnotin Hn']; subst.
  constructor; [now apply IH|].
  rewrite Forall_forall in Ha |- *. intros z Hz.
  specialize (Ha z Hz). assert (z <> a) by congruence. lia.
Qed.

(** *** The inner merge *)

Lemma join_row_years (y r : Z) (right : frame) (k : Z) :
  In k (map year_of (join_row y r right)) <-> k = y /\ In y (map fst right).
Proof.
  unfold join_row. rewrite map_map. cbn [year_of fst].
  induction right as [|[y' n] right IH]; cbn [filter map fst In].
  - intuition.
  - destruct (Z.eqb_spec y' y); cbn [map In]; rewrite IH; intuition.
Qed.

Lemma merge_inner_years (left right : frame) (k : Z) :
  In k (map year_of (merge_inner left right))
  <-> In k (map fst left) /\ In k (map fst right).
Proof.
  unfold merge_inner.
  induction left as [|[y r] left IH]; cbn [flat_map map fst In].
  - intuition.
  - rewrite map_app, in_app_iff, IH, join_row_years. cbn [fst snd].
    intuition; subst; auto.
Qed.

Lemma join_row_unique (y r : Z) (right : frame) :
  NoDup (map fst right) -> NoDup (map year_of (join_row y r right)).
Proof.
  unfold join_row. rewrite map_map. cbn [year_of fst].
  induction right as [|[y' n] right IH]; cbn [filter map fst];
    intros Hn; [constructor|].
  inversion Hn as [|? ? Hnotin Hn']; subst.
  destruct (Z.eqb_spec y' y); [|now apply IH].
  subst. cbn [map]. constructor; [|now apply IH].
  intros Hin. apply in_map_iff in Hin as ([y'' n'] & _ & Hin).
  apply filter_In in Hin as [Hin Heq]. cbn [fst] in Heq.
  apply Z.eqb_eq in Heq. subst. apply Hnotin.
  apply in_map_iff. exists (y, n'). auto.
Qed.

Lemma merge_inner_unique (left right : frame) :
  NoDup (map fst left) -> NoDup (map fst right) ->
  NoDup (map year_of (merge_inner left right)).
Proof.
  unfold merge_inner. intros Hl Hr.
  induction left as [|[y r] left IH]; cbn [flat_map map fst]; [constructor|].
  cbn [map fst] in Hl. inversion Hl as [|? ? Hnotin Hl']; subst.
  rewrite map_app. cbn [fst snd].
  assert (Hd : forall k, In k (map year_of (join_row y r right)) ->
                         ~ In k (map year_of (merge_inner left right))).
  { intros k Hk Hk'. apply join_row_years in Hk as [-> _].
    apply merge_inner_years in Hk' as [Hk' _]. contradiction. }
  generalize (join_row_unique y r right Hr) Hd.
  generalize (map year_of (join_row y r right)) as l.
  induction l as [|a l IHl]; cbn [app]; intros Hn Hdis; [now apply IH|].
  inversion Hn as [|? ? Ha Hn']; subst. constructor.
  - rewrite in_app_iff. intros [H|H]; [contradiction|].
    apply (Hdis a); [now left | exact H].
  - apply IHl; [exact Hn'|]. intros k Hk. apply Hdis. now right.
Qed.

(** *** The sort *)

Lemma insert_by_year_perm (row : Z * Z * Z) (l : frame3) :
  Permutation (insert_by_year row l) (row :: l).
Proof.
  induction l as [|row' l IH]; cbn [insert_by_year]; [reflexivity|].
  destruct (year_of row' <? year_of row); [|reflexivity].
  rewrite IH. apply perm_swap.
Qed.

Lemma sort_values_perm (df : frame3) : Permutation (sort_values df) df.
Proof.
  induction df as [|row df IH]; cbn [sort_values]; [reflexivity|].
  rewrite insert_by_year_perm. now constructor.
Qed.

Lemma insert_by_year_sorted (row : Z * Z * Z) (l : frame3) :
  StronglySorted Z.le (map year_of l) ->
  StronglySorted Z.le (map year_of (insert_by_year row l)).
Proof.
  induction l as [|row' l IH]; cbn [insert_by_year map]; intros Hs.
  - repeat constructor.
  - inversion Hs as [|? ? Hl Hall]; subst.
    destruct (Z.ltb_spec (year_of row') (year_of row)); cbn [map].
    + constructor; [now apply IH|].
      rewrite Forall_forall in Hall |- *. intros z Hz.
      apply (Permutation_in _ (Permutation_map year_of (insert_by_year_perm row l)))
        in Hz.
      destruct Hz as [<-|Hz]; [lia | now apply Hall].
    + constructor; [exact Hs|]. constructor; [assumption|].
      rewrite Forall_forall in Hall |- *. intros z Hz.
      specialize (Hall z Hz). lia.
Qed.

Lemma sort_values_sorted (df : frame3) :
  StronglySorted Z.le (map year_of (sort_values df)).
Proof.
  induction df as [|row df IH]; cbn [sort_values]; [constructor|].
  now apply insert_by_year_sorted.
Qed.

Lemma combine_years (df_rev df_ni : frame) (k : Z) :
  In k (map year_of (combine df_rev df_ni))
  <-> In k (map fst df_rev) /\ In k (map fst df_ni).
Proof.
  unfold combine. rewrite <- merge_inner_years.
  split; apply Permutation_in, Permutation_map;
    [|symmetry]; apply sort_values_perm.
Qed.

(** C5: the combined frame holds exactly the years present in both
    frames, in ascending order; built from two grouped series, it holds
    each such year once, in strictly ascending order; revenue years 2020,
    2021, 2022 and net-income years 2021, 2022, 2023 give the rows of 2021
    and 2022, in that order. *)
Theorem combined_is_sorted_inner_join :
  (forall df_rev df_ni : frame,
     StronglySorted Z.le (map year_of (combine df_rev df_ni))
     /\ forall y, In y (map year_of (combine df_rev df_ni))
                  <-> In y (map fst df_rev) /\ In y (map fst df_ni))
  /\ (forall rev_list ni_list : frame,
       let df := combine (groupby_sum rev_list) (groupby_sum ni_list) in
       StronglySorted Z.lt (map year_of df)
       /\ forall y, In y (map year_of df)
                    <-> In y (map fst rev_list) /\ In y (map fst ni_list))
  /\ (forall a b c d e f : Z,
       df_combined [(2020, a); (2021, b); (2022, c)]
                   [(2021, d); (2022, e); (2023, f)]
       = Ok [(2021, b, d); (2022, c, e)]).
Proof.
  split; [|split].
  - intros df_rev df_ni. split; [apply sort_values_sorted | apply combine_years].
  - intros rev_list ni_list df.
    destruct (groupby_sum_years rev_list) as [Hrs Hrk].
    destruct (groupby_sum_years ni_list) as [Hns Hnk].
    split.
    + apply sorted_NoDup_strict; [apply sort_values_sorted|].
      eapply Permutation_NoDup;
        [symmetry; apply Permutation_map, sort_values_perm|].
      apply merge_inner_unique; now apply strictly_sorted_NoDup.
    + intros y. unfold df. rewrite combine_years, Hrk, Hnk. reflexivity.
  - intros a b c d e f. reflexivity.
Qed.

(** *** The unit scale *)

Lemma fold_max_spec (col : list Z) : forall x,
  let m := fold_left Z.max col x in
  (m = x \/ In m col) /\ x <= m /\ forall v, In v col -> v <= m.
Proof.
  induction col as [|y col IH]; intros x; cbn [fold_left In].
  - split; [now left|]. split; [lia | intros v []].
  - destruct (IH (Z.max x y)) as (Hin & Hge & Hall). cbv zeta in *.
    split; [|split].
    + destruct Hin as [E|Hin]; [|now right; right].
      rewrite E. destruct (Z.max_spec x y) as [[_ ->]|[_ ->]]; auto.
    + lia.
    + intros v [<-|Hv]; [lia | now apply Hall].
Qed.

Lemma series_max_spec (col : list Z) :
  col <> [] ->
  exists m, series_max col = Some m /\ In m col /\ forall v, In v col -> v <= m.
Proof.
  destruct col as [|x col]; [contradiction|]. intros _.
  exists (fold_left Z.max col x). cbn [series_max].
  destruct (fold_max_spec col x) as (Hin & Hge & Hall). cbv zeta in *.
  split; [reflexivity|]. split.
  - destruct Hin as [->|Hin]; [now left | now right].
  - intros v [<-|Hv]; [exact Hge | now apply Hall].
Qed.

Lemma max_val_spec (df : frame3) :
  df <> [] ->
  exists m, max_val df = Some m
            /\ In m (all_values df)
            /\ forall v, In v (all_values df) -> v <= m.
Proof.
  intros Hne. unfold max_val, all_values.
  destruct (series_max_spec (map revenue_of df)) as (mr & Er & Hr & Hrmax).
  { destruct df; [contradiction | discriminate]. }
  destruct (series_max_spec (map net_income_of df)) as (mn & En & Hn & Hnmax).
  { destruct df; [contradiction | discriminate]. }
  rewrite Er, En. cbn [py_max].
  destruct (Z.ltb_spec mr mn).
  - exists mn. split; [reflexivity|]. split; [apply in_or_app; now right|].
    intros v Hv. apply in_app_or in Hv as [Hv|Hv];
      [specialize (Hrmax v Hv); lia | now apply Hnmax].
  - exists mr. split; [reflexivity|]. split; [apply in_or_app; now left|].
    intros v Hv. apply in_app_or in Hv as [Hv|Hv];
      [now apply Hrmax | specialize (Hnmax v Hv); lia].
Qed.

(** C2, as worded: the scale is decided by the largest value, not by the
    largest absolute value: a net loss of two trillions next to a revenue
    of one billion is scaled in billions. *)
Lemma absolute_maximum_counterexample :
  let df := [(2020, 1000000000, -2000000000000)] in
  10 ^ 12 <= max_abs df
  /\ unit_scale df = (10 ^ 9, "(in Billions USD)").
Proof. cbv zeta. split; [vm_compute; discriminate | reflexivity]. Qed.

(** C2, amended: for a non-empty combined table, the divisor is chosen
    from the largest (signed) value m found in the revenue and net-income
    columns together: 10^12 with the trillions label when m >= 10^12, and
    10^9 with the billions label otherwise; both columns are divided by
    that one divisor and both labels carry that one unit. *)
Theorem unit_scale_from_global_maximum (df : frame3) :
  df <> [] ->
  exists m factor unit_label,
    In m (all_values df)
    /\ (forall v, In v (all_values df) -> v <= m)
    /\ unit_scale df = (factor, unit_label)
    /\ (10 ^ 12 <= m -> factor = 10 ^ 12 /\ unit_label = "(in Trillions USD)")
    /\ (m < 10 ^ 12 -> factor = 10 ^ 9 /\ unit_label = "(in Billions USD)")
    /\ rows (scale_table df)
       = map (fun row => (year_of row,
                          scaled (revenue_of row) factor,
                          scaled (net_income_of row) factor)) df
    /\ rv_col (scale_table df) = "Revenue " ++ unit_label
    /\ ni_col (scale_table df) = "NetIncome " ++ unit_label.
Proof.
  intros Hne. destruct (max_val_spec df Hne) as (m & Em & Hin & Hmax).
  exists m, (fst (unit_scale df)), (snd (unit_scale df)).
  split; [exact Hin|]. split; [exact Hmax|].
  split; [now destruct (unit_scale df)|].
  unfold scale_table. unfold unit_scale at 1 2 3 4. rewrite Em.
  destruct (Z.leb_spec (10 ^ 12) m); cbn [fst snd].
  - split; [auto|]. split; [lia|]. unfold unit_scale. rewrite Em.
    destruct (Z.leb_spec (10 ^ 12) m); [|lia]. repeat split.
  - split; [lia|]. split; [auto|]. unfold unit_scale. rewrite Em.
    destruct (Z.leb_spec (10 ^ 12) m); [lia|]. repeat split.
Qed.

Lemma unit_scale_from_global_maximum_witness :
  unit_scale [(2021, 2000000000000, 50000000000)]
  = (10 ^ 12, "(in Trillions USD)")
  /\ rows (scale_table [(2021, 2000000000000, 50000000000)])
     = [(2021, scaled 2000000000000 (10 ^ 12), scaled 50000000000 (10 ^ 12))].
Proof.
  destruct (unit_scale_from_global_maximum
              [(2021, 2000000000000, 50000000000)] ltac:(discriminate))
    as (m & factor & unit_label & Hin & Hmax & Hs & Ht & _ & Hrows & _).
  assert (Hm : 10 ^ 12 <= m).
  { specialize (Hmax 2000000000000 (or_introl eq_refl)).
    change (10 ^ 12) with 1000000000000. lia. }
  destruct (Ht Hm) as [-> ->].
  split; [exact Hs | exact Hrows].
Defined.

End NormalizerFacts.

(* ================================================================== *)
(** ** More on the resolver: case, padding, narrowing, composition *)
(* ================================================================== *)

Module ResolverMore.
Import Py Decimal PyFacts Resolver ResolverSpec FetcherSpec
       ResolverFacts DedupFacts PageSpec.

Lemma upper_char_idem (c : ascii) : upper_char (upper_char c) = upper_char c.
Proof. destruct c as [[] [] [] [] [] [] [] []]; reflexivity. Qed.

Lemma lower_upper_char (c : ascii) : lower_char (upper_char c) = lower_char c.
Proof. destruct c as [[] [] [] [] [] [] [] []]; reflexivity. Qed.

Lemma upper_lower_char (c : ascii) : upper_char (lower_char c) = upper_char c.
Proof. destruct c as [[] [] [] [] [] [] [] []]; reflexivity. Qed.

Lemma lower_char_idem (c : ascii) : lower_char (lower_char c) = lower_char c.
Proof. destruct c as [[] [] [] [] [] [] [] []]; reflexivity. Qed.

Lemma map_string_compose (f g h : ascii -> ascii) (s : string) :
  (forall c, f (g c) = h c) -> map_string f (map_string g s) = map_string h s.
Proof. intros H. induction s as [|c s IH]; simpl; [reflexivity | now rewrite H, IH]. Qed.

Lemma upper_upper (s : string) : upper (upper s) = upper s.
Proof. apply map_string_compose, upper_char_idem. Qed.

Lemma lower_upper (s : string) : lower (upper s) = lower s.
Proof. apply map_string_compose, lower_upper_char. Qed.

Lemma upper_lower (s : string) : upper (lower s) = upper s.
Proof. apply map_string_compose, upper_lower_char. Qed.

Lemma lower_lower (s : string) : lower (lower s) = lower s.
Proof. apply map_string_compose, lower_char_idem. Qed.

Lemma rstrip_cons (c : ascii) (s : string) :
  is_space c = false -> rstrip (String c s) = String c (rstrip s).
Proof. intros H. cbn [rstrip]. rewrite H. destruct (rstrip s); reflexivity. Qed.

Lemma rstrip_idem (s : string) : rstrip (rstrip s) = rstrip s.
Proof.
  induction s as [|c s IH]; [reflexivity|]. cbn [rstrip].
  destruct (rstrip s) as [|c' r] eqn:E.
  - destruct (is_space c) eqn:Ec; [reflexivity|]. cbn [rstrip]. now rewrite Ec.
  - cbn [rstrip]. cbn [rstrip] in IH. rewrite IH. reflexivity.
Qed.

Lemma lstrip_head (s : string) :
  lstrip s = "" \/ exists c r, lstrip s = String c r /\ is_space c = false.
Proof.
  induction s as [|c s IH]; [now left|]. cbn [lstrip].
  destruct (is_space c) eqn:E; [exact IH | right; eauto].
Qed.

Lemma strip_idem (s : string) : strip (strip s) = strip s.
Proof.
  unfold strip. destruct (lstrip_head s) as [->|(c & r & -> & Hc)];
    [reflexivity|].
  rewrite (rstrip_cons c r Hc). cbn [lstrip]. rewrite Hc.
  rewrite (rstrip_cons c _ Hc). now rewrite rstrip_idem.
Qed.

Lemma needle_upper (q : string) : needle (upper q) = needle q.
Proof.
  unfold needle, substitute_synonym. rewrite lower_upper.
  destruct (dict_get (strip (lower q)) SYNONYMS); [reflexivity|].
  now rewrite upper_upper.
Qed.

Lemma needle_lower (q : string) : needle (lower q) = needle q.
Proof.
  unfold needle, substitute_synonym. rewrite lower_lower.
  destruct (dict_get (strip (lower q)) SYNONYMS); [reflexivity|].
  now rewrite upper_lower.
Qed.

Lemma needle_strip (q : string) : needle (strip q) = needle q.
Proof.
  unfold needle, substitute_synonym.
  rewrite (strip_lower (strip q)), strip_idem, <- strip_lower.
  destruct (dict_get (strip (lower q)) SYNONYMS); [reflexivity|].
  now rewrite !strip_upper, strip_idem.
Qed.

Lemma get_ticker_needle (q : string) (resp : response snapshot) :
  get_ticker_from_company_name q resp
  = if negb (status_code resp =? 200) then []
    else matched_tickers (needle q) (body resp).
Proof. reflexivity. Qed.

(** X1: the name lookup does not depend on the letter case of the query
    nor on the whitespace around it. *)
Theorem name_lookup_ignores_case_and_padding
    (q : string) (resp : response snapshot) :
  get_ticker_from_company_name (upper q) resp
  = get_ticker_from_company_name q resp
  /\ get_ticker_from_company_name (lower q) resp
     = get_ticker_from_company_name q resp
  /\ get_ticker_from_company_name (strip q) resp
     = get_ticker_from_company_name q resp.
Proof.
  rewrite !get_ticker_needle, needle_upper, needle_lower, needle_strip.
  auto.
Qed.


Lemma contains_trans (a b c : string) :
  contains a b = true -> contains b c = true -> contains a c = true.
Proof.
  rewrite !contains_spec. intros (p1 & s1 & ->) (p2 & s2 & ->).
  exists (p2 ++ p1), (s1 ++ s2).
  assert (A : forall x y z : string, (x ++ y) ++ z = x ++ (y ++ z)).
  { intros x y z. induction x as [|ch x IH]; simpl; [reflexivity | now rewrite IH]. }
  now rewrite !A.
Qed.

Lemma matched_tickers_narrow (n1 n2 : string) (S : snapshot) :
  contains n1 n2 = true ->
  sublist (matched_tickers n2 S) (matched_tickers n1 S).
Proof.
  intros H. induction S as [|[k info] S IH]; cbn [matched_tickers];
    [constructor|].
  destruct (contains n2 (upper (title info))) eqn:E2.
  - rewrite (contains_trans _ _ _ H E2). now apply sub_take.
  - destruct (contains n1 (upper (title info))); [now apply sub_skip | exact IH].
Qed.

(** X3: a query whose search string contains the search string of another
    query can only narrow the list: its tickers are among the tickers of
    the other query, in the same order. *)
Theorem longer_query_narrows (q1 q2 : string) (resp : response snapshot) :
  contains (needle q1) (needle q2) = true ->
  sublist (get_ticker_from_company_name q2 resp)
          (get_ticker_from_company_name q1 resp).
Proof.
  intros H. rewrite !get_ticker_needle.
  destruct (negb (status_code resp =? 200)); [constructor|].
  now apply matched_tickers_narrow.
Qed.

Lemma longer_query_narrows_witness :
  sublist
    (get_ticker_from_company_name "apple inc" (mk_response 200
       [("0", mk_info 320193 "AAPL" "Apple Inc.");
        ("1", mk_info 1418121 "APLE" "Apple Hospitality REIT, Inc.")]))
    (get_ticker_from_company_name "Apple" (mk_response 200
       [("0", mk_info 320193 "AAPL" "Apple Inc.");
        ("1", mk_info 1418121 "APLE" "Apple Hospitality REIT, Inc.")])).
Proof. apply longer_query_narrows. reflexivity. Defined.

(** X4: when the snapshot could not be loaded (any status but 200) the
    name lookup finds no ticker and the ticker lookup no identifier,
    whatever was received and whatever is asked; the page then reports
    that nothing matched. *)
Theorem unloaded_snapshot_matches_nothing
    (q : string) (resp : response snapshot) :
  status_code resp <> 200 ->
  get_ticker_from_company_name q resp = []
  /\ get_cik_from_ticker q resp = ""
  /\ (forall user_agent,
        truthy user_agent = true -> truthy (strip q) = true ->
        search_company user_agent q resp
        = StError ("No matches found for '" ++ q ++ "'.")
        /\ App.ticker_mode user_agent q resp
           = App.Halt (App.MError ("No CIK found for ticker '" ++ q ++ "'."))).
Proof.
  intros Hst.
  assert (E : negb (status_code resp =? 200) = true).
  { destruct (Z.eqb_spec (status_code resp) 200); [contradiction | reflexivity]. }
  assert (Ht : get_ticker_from_company_name q resp = []).
  { unfold get_ticker_from_company_name. now rewrite E. }
  assert (Hc : get_cik_from_ticker q resp = "").
  { unfold get_cik_from_ticker. now rewrite E. }
  split; [exact Ht|]. split; [exact Hc|].
  intros user_agent Hua Hq. split.
  - unfold search_company. now rewrite Hua, Hq, Ht.
  - unfold App.ticker_mode. now rewrite Hua, Hq, Hc.
Qed.

Lemma unloaded_snapshot_matches_nothing_witness :
  search_company "me@example.com" "Apple"
    (mk_response 503 [("0", mk_info 320193 "AAPL" "Apple Inc.")])
  = StError "No matches found for 'Apple'.".
Proof.
  destruct (unloaded_snapshot_matches_nothing "Apple"
      (mk_response 503 [("0", mk_info 320193 "AAPL" "Apple Inc.")])
      ltac:(discriminate)) as (_ & _ & H).
  exact (proj1 (H "me@example.com" eq_refl eq_refl)).
Defined.

Lemma first_cik_cases (t_upper : string) (S : snapshot) :
  (first_cik t_upper S = "" /\ no_ticker t_upper S)
  \/ exists k info,
       In (k, info) S /\ upper (ticker info) = t_upper
       /\ first_cik t_upper S = "CIK" ++ zfill 10 (str (cik_str info)).
Proof.
  induction S as [|[k info] S IH]; cbn [first_cik].
  - left. split; [reflexivity | intros k info []].
  - destruct (String.eqb_spec (upper (ticker info)) t_upper) as [E|N].
    + right. exists k, info. split; [now left | auto].
    + destruct IH as [[H0 Hno] | (k' & info' & Hin & Hm & Hf)].
      * left. split; [exact H0|].
        intros k' info' [Heq|Hin]; [inversion Heq; subst; exact N | eauto].
      * right. exists k', info'. split; [now right | auto].
Qed.

Lemma matched_tickers_In (n t : string) (S : snapshot) :
  In t (matched_tickers n S) ->
  exists k info, In (k, info) S /\ ticker info = t.
Proof.
  induction S as [|[k info] S IH]; cbn [matched_tickers]; [intros []|].
  destruct (contains n (upper (title info))).
  - intros [<-|H]; [exists k, info; split; [now left | reflexivity]|].
    destruct (IH H) as (k' & i' & Hin & Ht). exists k', i'. split; [now right | auto].
  - intros H. destruct (IH H) as (k' & i' & Hin & Ht).
    exists k', i'. split; [now right | auto].
Qed.

(** X5: on one loaded snapshot whose tickers carry no surrounding
    whitespace, every ticker the name lookup returns is resolved by the
    ticker lookup: the answer is not empty and is "CIK" followed by the
    padded number of an entry with that ticker (ignoring case). *)
Theorem matched_ticker_resolves (q t : string) (S : snapshot) :
  (forall k info, In (k, info) S -> strip (ticker info) = ticker info) ->
  In t (get_ticker_from_company_name q (mk_response 200 S)) ->
  get_cik_from_ticker t (mk_response 200 S) <> ""
  /\ exists k info,
       In (k, info) S /\ upper (ticker info) = upper t
       /\ get_cik_from_ticker t (mk_response 200 S)
          = "CIK" ++ zfill 10 (str (cik_str info)).
Proof.
  intros Hclean Hin. rewrite get_ticker_loaded in Hin.
  apply matched_tickers_In in Hin as (k & info & Hk & <-).
  rewrite get_cik_loaded, strip_upper, (Hclean k info Hk).
  destruct (first_cik_cases (upper (ticker info)) S)
    as [[_ Hno] | (k' & info' & Hin' & Hm & Hf)].
  - exfalso. exact (Hno k info Hk eq_refl).
  - split; [rewrite Hf; discriminate|]. exists k', info'. auto.
Qed.

Lemma matched_ticker_resolves_witness :
  get_cik_from_ticker "GOOGL" (mk_response 200
     [("0", mk_info 320193 "AAPL" "Apple Inc.");
      ("1", mk_info 1652044 "GOOGL" "Alphabet Inc.")]) <> "".
Proof.
  refine (proj1 (matched_ticker_resolves "google" "GOOGL"
     [("0", mk_info 320193 "AAPL" "Apple Inc.");
      ("1", mk_info 1652044 "GOOGL" "Alphabet Inc.")] _ _)).
  - intros k info [H|[H|[]]]; inversion H; reflexivity.
  - left. reflexivity.
Defined.

(** X6: whatever the response and the ticker asked, if the numbers of the
    snapshot lie in [0, 10^10) the ticker lookup answers either the empty
    string or "CIK" followed by exactly ten digits. *)
Theorem identifier_is_empty_or_ten_digits
    (q : string) (resp : response snapshot) :
  (forall k info, In (k, info) (body resp) -> 0 <= cik_str info < 10 ^ 10) ->
  get_cik_from_ticker q resp = ""
  \/ exists d, get_cik_from_ticker q resp = "CIK" ++ d
               /\ String.length d = 10%nat /\ all_digits d = true.
Proof.
  intros Hrange. unfold get_cik_from_ticker.
  destruct (negb (status_code resp =? 200)); [now left|].
  destruct (first_cik_cases (strip (upper q)) (body resp))
    as [[H0 _] | (k & info & Hin & _ & Hf)]; [now left|].
  right. exists (zfill 10 (str (cik_str info))). split; [exact Hf|].
  destruct (zfill_str_10 _ (Hrange k info Hin)) as (Hl & Hd & _). auto.
Qed.

Lemma identifier_is_empty_or_ten_digits_witness :
  get_cik_from_ticker "aapl" (mk_response 200
     [("0", mk_info 320193 "AAPL" "Apple Inc.")]) = ""
  \/ exists d, get_cik_from_ticker "aapl" (mk_response 200
                 [("0", mk_info 320193 "AAPL" "Apple Inc.")]) = "CIK" ++ d
               /\ String.length d = 10%nat /\ all_digits d = true.
Proof.
  apply identifier_is_empty_or_ten_digits.
  intros k info [H|[]]. inversion H; subst. cbn [cik_str]. lia.
Defined.

End ResolverMore.

(* ================================================================== *)
(** ** Identifier entry: the CIK mode *)
(* ================================================================== *)

Module EntryFacts.
Import Py Decimal PyFacts Resolver ResolverSpec ResolverFacts ResolverMore App.

Lemma digit_not_space (c : ascii) : is_digit c = true -> is_space c = false.
Proof. destruct c as [[] [] [] [] [] [] [] []]; cbn; congruence. Qed.

Lemma rstrip_zeros (n : nat) (x : string) :
  rstrip x = x -> rstrip (repeat_char "0" n ++ x) = repeat_char "0" n ++ x.
Proof.
  intros H. induction n as [|n IH]; [exact H|].
  cbn [repeat_char append]. rewrite rstrip_cons by reflexivity. now rewrite IH.
Qed.

Lemma rstrip_tail (c : ascii) (s : string) :
  rstrip (String c s) = String c s -> s <> "" -> rstrip s = s.
Proof.
  cbn [rstrip]. destruct (rstrip s) as [|c' r]; intros H Hne.
  - destruct (is_space c); [discriminate | inversion H; congruence].
  - now inversion H.
Qed.

Lemma rstrip_zfill (width : nat) (s : string) :
  rstrip s = s -> rstrip (zfill width s) = zfill width s.
Proof.
  intros H. unfold zfill. destruct s as [|c s].
  - generalize (width - String.length "")%nat as n.
    induction n as [|n IH]; [reflexivity|].
    cbn [repeat_char]. rewrite rstrip_cons by reflexivity. now rewrite IH.
  - destruct (Ascii.eqb c "+" || Ascii.eqb c "-")%bool eqn:E;
      [|now apply rstrip_zeros].
    assert (Hc : is_space c = false).
    { apply orb_true_iff in E as [E|E]; apply Ascii.eqb_eq in E; now subst. }
    rewrite rstrip_cons by exact Hc. f_equal.
    apply rstrip_zeros. destruct s as [|c' s']; [reflexivity|].
    apply (rstrip_tail c); [exact H | discriminate].
Qed.

Lemma strip_cik_prefixed (z : string) :
  rstrip z = z -> strip ("CIK" ++ z) = "CIK" ++ z.
Proof.
  intros H. unfold strip. cbn [append lstrip].
  change (is_space "C") with false. cbv iota.
  rewrite !rstrip_cons by reflexivity. now rewrite H.
Qed.

Lemma cik_mode_prefix (user_agent input_cik c : string) :
  cik_mode user_agent input_cik = Identifier c -> String.prefix "CIK" c = true.
Proof.
  unfold cik_mode.
  destruct (truthy user_agent); cbn [negb]; [|discriminate].
  destruct (truthy (strip input_cik)); cbn [negb]; [|discriminate].
  destruct (String.prefix "CIK" (strip input_cik)) eqn:Hp; cbn [negb];
    intros E; inversion E; subst c; [exact Hp|].
  apply prefix_app. eexists; reflexivity.
Qed.

(** X7: in CIK mode the identifier handed to the fetch always starts with
    "CIK", and entering that identifier again gives it back unchanged. *)
Theorem cik_entry_is_stable (user_agent input_cik c : string) :
  cik_mode user_agent input_cik = Identifier c ->
  String.prefix "CIK" c = true
  /\ cik_mode user_agent c = Identifier c.
Proof.
  unfold cik_mode.
  destruct (truthy user_agent); cbn [negb]; [|discriminate].
  destruct (truthy (strip input_cik)) eqn:Ht; cbn [negb]; [|discriminate].
  destruct (String.prefix "CIK" (strip input_cik)) eqn:Hp; cbn [negb];
    intros E; inversion E; subst c; clear E.
  - split; [exact Hp|]. now rewrite strip_idem, Ht, Hp.
  - assert (Hz : rstrip (zfill 10 (strip input_cik)) = zfill 10 (strip input_cik)).
    { apply rstrip_zfill. unfold strip. apply rstrip_idem. }
    change (String "C" (String "I" (String "K" (zfill 10 (strip input_cik)))))
      with ("CIK" ++ zfill 10 (strip input_cik)).
    assert (Hpre : String.prefix "CIK" ("CIK" ++ zfill 10 (strip input_cik)) = true)
      by (apply prefix_app; eexists; reflexivity).
    rewrite (strip_cik_prefixed _ Hz), Hpre. split; reflexivity.
Qed.

Lemma cik_entry_is_stable_witness :
  cik_mode "me@example.com" "CIK0000320193" = Identifier "CIK0000320193".
Proof.
  exact (proj2 (cik_entry_is_stable "me@example.com" " 320193 "
                  "CIK0000320193" eq_refl)).
Defined.

Lemma decimal_value_bound (s : string) :
  all_digits s = true -> 0 <= decimal_value s < 10 ^ Z.of_nat (String.length s).
Proof.
  induction s as [|c s IH]; cbn [all_digits decimal_value String.length].
  - intros _. change (10 ^ Z.of_nat 0) with 1. lia.
  - intros H. apply andb_true_iff in H as [Hc Hs]. specialize (IH Hs).
    assert (Hd : 0 <= digit_val c <= 9).
    { unfold is_digit in Hc. unfold digit_val.
      apply andb_true_iff in Hc as [H1 H2]. apply N.leb_le in H1, H2. lia. }
    rewrite Nat2Z.inj_succ, Z.pow_succ_r by lia. nia.
Qed.

Lemma digit_val_inj (c c' : ascii) :
  is_digit c = true -> is_digit c' = true ->
  digit_val c = digit_val c' -> c = c'.
Proof.
  unfold digit_val, ord. intros _ _ H.
  rewrite <- (ascii_N_embedding c), <- (ascii_N_embedding c').
  f_equal. lia.
Qed.

(** Digit strings of one length that denote one number are equal. *)
Lemma digits_inj (a : string) : forall b,
  all_digits a = true -> all_digits b = true ->
  String.length a = String.length b ->
  decimal_value a = decimal_value b -> a = b.
Proof.
  induction a as [|c a IH]; intros [|c' b]; cbn [String.length];
    try discriminate; [reflexivity|].
  cbn [all_digits decimal_value]. intros Ha Hb Hl Hv.
  apply andb_true_iff in Ha as [Hc Ha]. apply andb_true_iff in Hb as [Hc' Hb].
  injection Hl as Hl. rewrite Hl in Hv.
  pose proof (decimal_value_bound a Ha) as Ba.
  pose proof (decimal_value_bound b Hb) as Bb. rewrite Hl in Ba.
  set (p := 10 ^ Z.of_nat (String.length b)) in *.
  assert (Hd : digit_val c = digit_val c') by nia.
  rewrite Hd in Hv.
  f_equal; [now apply digit_val_inj | apply IH; auto; lia].
Qed.

Lemma rstrip_digits (s : string) : all_digits s = true -> rstrip s = s.
Proof.
  induction s as [|c s IH]; [reflexivity|]. cbn [all_digits].
  intros H. apply andb_true_iff in H as [Hc Hs].
  rewrite rstrip_cons by now apply digit_not_space. now rewrite IH.
Qed.

Lemma strip_digits (s : string) : all_digits s = true -> strip s = s.
Proof.
  intros H. unfold strip. destruct s as [|c s]; [reflexivity|].
  cbn [lstrip]. cbn [all_digits] in H.
  pose proof H as H'. apply andb_true_iff in H' as [Hc _].
  rewrite (digit_not_space c Hc). now apply rstrip_digits.
Qed.

Lemma zfill_canonical (s : string) :
  all_digits s = true -> (1 <= String.length s <= 10)%nat ->
  zfill 10 s = zfill 10 (str (decimal_value s)).
Proof.
  intros Hd Hl.
  pose proof (decimal_value_bound s Hd) as Hb.
  assert (Hv : 0 <= decimal_value s < 10 ^ Z.of_nat 10).
  { split; [lia|]. eapply Z.lt_le_trans; [apply Hb|].
    apply Z.pow_le_mono_r; lia. }
  destruct (zfill_str_10 _ Hv) as (L2 & D2 & V2).
  apply digits_inj.
  - rewrite (zfill_digits _ _ Hd), all_digits_app, zeros_digits. exact Hd.
  - exact D2.
  - rewrite L2, zfill_length. lia.
  - rewrite V2, (zfill_digits _ _ Hd). apply zeros_value.
Qed.

(** X8: in CIK mode a number typed in digits, with or without leading
    zeros and up to ten digits long, becomes "CIK" followed by the ten
    digits of that number: the identifier the ticker lookup returns for
    the registrant with that number. *)
Theorem typed_number_agrees_with_ticker_lookup
    (user_agent typed q : string) (S l1 l2 : snapshot) k info :
  truthy user_agent = true ->
  all_digits typed = true ->
  (1 <= String.length typed <= 10)%nat ->
  decimal_value typed = cik_str info ->
  S = (l1 ++ (k, info) :: l2)%list ->
  no_ticker (strip (upper q)) l1 ->
  upper (ticker info) = strip (upper q) ->
  cik_mode user_agent typed
  = Identifier (get_cik_from_ticker q (mk_response 200 S))
  /\ cik_mode user_agent typed
     = Identifier ("CIK" ++ zfill 10 (str (decimal_value typed))).
Proof.
  intros Hua Hd Hl Hv -> Hno Hm.
  assert (E : cik_mode user_agent typed
              = Identifier ("CIK" ++ zfill 10 (str (decimal_value typed)))).
  { unfold cik_mode. rewrite Hua, (strip_digits _ Hd). cbn [negb].
    destruct typed as [|c r]; [cbn in Hl; lia|]. cbn [truthy negb].
    assert (Hp : String.prefix "CIK" (String c r) = false).
    { cbn [String.prefix]. cbn [all_digits] in Hd.
      apply andb_true_iff in Hd as [Hc _].
      destruct (ascii_dec "C" c) as [<-|]; [discriminate Hc | reflexivity]. }
    rewrite Hp. cbn [negb]. now rewrite (zfill_canonical _ Hd Hl). }
  split; [|exact E].
  rewrite E, get_cik_loaded, (first_cik_first _ l1 l2 k info Hno Hm).
  now rewrite Hv.
Qed.

Lemma typed_number_agrees_with_ticker_lookup_witness :
  cik_mode "me@example.com" "0000320193"
  = Identifier (get_cik_from_ticker "aapl" (mk_response 200
      [("0", mk_info 320193 "AAPL" "Apple Inc.")])).
Proof.
  refine (proj1 (typed_number_agrees_with_ticker_lookup
    "me@example.com" "0000320193" "aapl"
    [("0", mk_info 320193 "AAPL" "Apple Inc.")] []
    [] "0" (mk_info 320193 "AAPL" "Apple Inc.")
    eq_refl eq_refl _ eq_refl eq_refl _ eq_refl)).
  - cbn. lia.
  - intros k info [].
Defined.

(** X9: in each of the three modes, an identifier that reaches the fetch
    starts with "CIK": the ticker lookups answer "CIK..." or nothing, and
    the CIK mode adds the prefix when it is missing. *)
Theorem every_identifier_starts_with_cik
    (user_agent typed : string) (resp : response snapshot) (c : string) :
  cik_mode user_agent typed = Identifier c
  \/ ticker_mode user_agent typed resp = Identifier c
  \/ selected_mode typed resp = Identifier c ->
  String.prefix "CIK" c = true.
Proof.
  assert (Hcik : forall q, negb (truthy (get_cik_from_ticker q resp)) = false ->
                 String.prefix "CIK" (get_cik_from_ticker q resp) = true).
  { intros q. unfold get_cik_from_ticker.
    destruct (negb (status_code resp =? 200)); [discriminate|].
    destruct (first_cik_cases (strip (upper q)) (body resp))
      as [[-> _] | (k & info & _ & _ & ->)]; [discriminate|].
    intros _. apply prefix_app. eexists; reflexivity. }
  intros [H | [H | H]].
  - exact (cik_mode_prefix _ _ _ H).
  - unfold ticker_mode in H.
    destruct (negb (truthy user_agent)); [discriminate|].
    destruct (negb (truthy (strip typed))); [discriminate|].
    destruct (negb (truthy (get_cik_from_ticker typed resp))) eqn:E;
      [discriminate|]. inversion H; subst. now apply Hcik.
  - unfold selected_mode in H.
    destruct (negb (truthy typed)); [discriminate|].
    destruct (negb (truthy (get_cik_from_ticker typed resp))) eqn:E;
      [discriminate|]. inversion H; subst. now apply Hcik.
Qed.

Lemma every_identifier_starts_with_cik_witness :
  String.prefix "CIK" "CIK0000000042" = true.
Proof.
  apply (every_identifier_starts_with_cik "me@example.com" "42"
           (mk_response 200 []) "CIK0000000042").
  left. reflexivity.
Defined.

End EntryFacts.

(* ================================================================== *)
(** ** More on the fetcher: what is returned, and from what *)
(* ================================================================== *)

Module FetchMore.
Import Date Fetcher FetcherSpec FilterFacts OrderFacts DedupFacts PageSpec.

Lemma dedup_loop_no_stop (final_count : Z) (items : list json) :
  final_count <= 0 ->
  forall unique_rev seen,
  (unique_rev <> [] \/ seen = []) ->
  dedup_loop final_count items unique_rev seen
  = (rev unique_rev ++ first_seen items seen)%list.
Proof.
  intros Hfc. induction items as [|item rest IH]; intros unique_rev seen Hinv;
    cbn [dedup_loop first_seen].
  - now rewrite app_nil_r.
  - destruct (mem_key (start_end item) seen) eqn:E; cbn [negb].
    + assert (Hne : unique_rev <> []).
      { destruct Hinv as [H | ->]; [exact H|]. discriminate E. }
      destruct (Z.eqb_spec (Z.of_nat (List.length unique_rev)) final_count) as [L|_].
      * destruct unique_rev; [contradiction | cbn [List.length] in L; lia].
      * apply IH. now left.
    + destruct (Z.eqb_spec (Z.of_nat (List.length (item :: unique_rev)))
                           final_count) as [L|_];
        [cbn [List.length] in L; lia|].
      rewrite IH by (left; discriminate).
      cbn [rev]. now rewrite <- app_assoc.
Qed.

Lemma selected_up_to (kept : list json) (fetch_count final_count : Z) :
  selected kept fetch_count final_count
  = up_to final_count
      (first_seen (slice_to fetch_count (sorted_desc kept)) []).
Proof.
  unfold selected, up_to. destruct (Z.leb_spec 1 final_count).
  - rewrite dedup_loop_exact by (cbn [List.length]; lia).
    cbn [rev app List.length]. now rewrite Nat.sub_0_r.
  - rewrite dedup_loop_no_stop by (auto; lia). reflexivity.
Qed.

(** X10: on a fact list of records the fetch is a pipeline of list
    operations: an empty list and a filter that keeps nothing give their
    error messages; otherwise the kept facts are sorted by descending
    [end], cut to [fetch_count], reduced to the first record of each
    (start, end) pair, and cut to [final_count] when it is at least 1 (a
    [final_count] of 0 or less does not limit the result). *)
Theorem fetch_is_a_list_pipeline
    concept (resp : response (option json)) (l : list json)
    (fetch_count final_count : Z) :
  status_code resp = 200 ->
  has_usd resp (JArr l) ->
  forallb is_dict l = true ->
  get_financial_data concept resp fetch_count final_count
  = match l, filter keeps l with
    | [], _ => Ok (None, Some ("No " ++ concept ++ " (USD) data found"))
    | _, [] => Ok (None, Some ("No 10-K full-year data found for " ++ concept))
    | _, kept =>
        Ok (Some (up_to final_count
                    (first_seen (slice_to fetch_count (sorted_desc kept)) [])),
            None)
    end.
Proof.
  intros Hst Hu Hd. rewrite (fetch_with_usd _ _ _ _ _ Hst Hu).
  destruct l as [|u l]; [reflexivity|].
  unfold select_records. cbn [truthy negb iterate bind].
  rewrite (ten_k_filter_dicts _ Hd). cbn [bind].
  destruct (filter keeps (u :: l)) as [|x xs]; [reflexivity|].
  now rewrite <- selected_up_to.
Qed.

Lemma fetch_is_a_list_pipeline_witness :
  get_financial_data "Revenues"
    (mk_response 200 (Some (facts_document
       (JArr [fy2022; fy2023; fy2022; fy_sep_2020])))) 30 2
  = Ok (Some [fy2023; fy2022], None).
Proof.
  exact (eq_trans (fetch_is_a_list_pipeline "Revenues"
    (mk_response 200 (Some (facts_document
       (JArr [fy2022; fy2023; fy2022; fy_sep_2020]))))
    [fy2022; fy2023; fy2022; fy_sep_2020] 30 2
    eq_refl (facts_document_has_usd _) eq_refl) eq_refl).
Defined.

Lemma ten_k_filter_sublist (units : list json) : forall kept,
  ten_k_filter units = Ok kept -> sublist kept units.
Proof.
  induction units as [|u units IH]; cbn [ten_k_filter]; intros kept H.
  - inversion H. constructor.
  - destruct (keep_10k u) as [b|]; cbn [bind] in H; [|discriminate].
    destruct (ten_k_filter units) as [tl|]; cbn [bind] in H; [|discriminate].
    inversion H; subst. destruct b; constructor; now apply IH.
Qed.

Lemma select_records_from (concept : string) (l : list json)
    (fetch_count final_count : Z) (recs : list json) :
  select_records concept (JArr l) fetch_count final_count = Ok (Some recs, None) ->
  exists kept, ten_k_filter l = Ok kept /\ kept <> []
               /\ recs = selected kept fetch_count final_count.
Proof.
  unfold select_records. destruct (truthy (JArr l)); cbn [negb]; [|discriminate].
  cbn [iterate bind].
  destruct (ten_k_filter l) as [kept|]; cbn [bind]; [|discriminate].
  destruct kept as [|x xs]; [discriminate|].
  intros H. inversion H. exists (x :: xs). repeat split. discriminate.
Qed.

Lemma keeps_annual (r : json) : keeps r = true -> annual_record r.
Proof.
  unfold keeps, annual_record.
  destruct r as [| | | | |f]; cbn [keep_10k]; try discriminate.
  rewrite !andb_true_iff. intros [[Hform Hfp] Hfull]. cbn [field].
  unfold eq_str in Hform, Hfp.
  destruct (dict_get "form" f) as [[| | |x| |]|]; try discriminate.
  apply String.eqb_eq in Hform as ->.
  destruct (dict_get "fp" f) as [[| | |y| |]|]; try discriminate.
  apply String.eqb_eq in Hfp as ->.
  split; [reflexivity|]. split; [reflexivity|].
  unfold is_full_year in Hfull.
  destruct (dict_get "start" f) as [[| | |s| |]|]; try discriminate.
  destruct (dict_get "end" f) as [[| | |e| |]|]; try discriminate.
  destruct (strptime s) as [ds|] eqn:Es; [|discriminate].
  destruct (strptime e) as [de|] eqn:Ee; [|discriminate].
  apply Z.leb_le in Hfull. exists s, e, ds, de. auto.
Qed.

(** X11: every record of a successful fetch is one of the facts of the
    response, and is a 10-K of the fiscal year whose period of at least
    300 days lies between two dates that parse. *)
Theorem returned_records_are_annual_facts
    concept (resp : response (option json)) (l : list json)
    (fetch_count final_count : Z) (recs : list json) :
  status_code resp = 200 ->
  has_usd resp (JArr l) ->
  get_financial_data concept resp fetch_count final_count = Ok (Some recs, None) ->
  forall r, In r recs -> In r l /\ annual_record r.
Proof.
  intros Hst Hu H r Hr. rewrite (fetch_with_usd _ _ _ _ _ Hst Hu) in H.
  apply select_records_from in H as (kept & Hf & _ & ->).
  assert (Hk : In r kept).
  { eapply Permutation_in; [apply sorted_desc_perm|].
    eapply sublist_In; [apply selected_sublist | exact Hr]. }
  split.
  - eapply sublist_In; [apply (ten_k_filter_sublist _ _ Hf) | exact Hk].
  - apply keeps_annual.
    pose proof (ten_k_filter_keeps _ _ Hf) as Hall.
    rewrite Forall_forall in Hall. now apply Hall.
Qed.

Lemma returned_records_are_annual_facts_witness :
  In fy2023 [fy2022; fy2023] /\ annual_record fy2023.
Proof.
  apply (returned_records_are_annual_facts "Revenues"
    (mk_response 200 (Some (facts_document (JArr [fy2022; fy2023]))))
    [fy2022; fy2023] 30 10 [fy2023; fy2022]
    eq_refl (facts_document_has_usd _) eq_refl).
  left. reflexivity.
Defined.

Lemma selected_head (kept : list json) (fetch_count final_count : Z) x xs :
  sorted_desc kept = x :: xs ->
  1 <= fetch_count ->
  exists rest, selected kept fetch_count final_count = x :: rest.
Proof.
  intros Hs Hfc. unfold selected. rewrite Hs. unfold slice_to.
  destruct (Z.leb_spec 0 fetch_count); [|lia].
  destruct (Z.to_nat fetch_count) as [|n] eqn:En; [lia|].
  cbn [firstn dedup_loop].
  change (mem_key (start_end x) []) with false. cbn [negb].
  destruct (Z.of_nat (List.length [x]) =? final_count); [now exists []|].
  destruct (dedup_loop_prefix final_count (firstn n xs) [x] [start_end x])
    as [m ->].
  cbn [rev app]. eexists. reflexivity.
Qed.

(** X12: with a [fetch_count] of at least 1, a successful fetch returns at
    least one record, and the first one has the greatest [end] of all the
    facts that pass the filter: the most recent annual period is never
    missing. *)
Theorem most_recent_period_is_returned
    concept (resp : response (option json)) (l : list json)
    (fetch_count final_count : Z) (recs : list json) :
  status_code resp = 200 ->
  has_usd resp (JArr l) ->
  1 <= fetch_count ->
  get_financial_data concept resp fetch_count final_count = Ok (Some recs, None) ->
  exists first rest,
    recs = first :: rest
    /\ forall u, In u l -> keeps u = true ->
                 String.leb (end_key u) (end_key first) = true.
Proof.
  intros Hst Hu Hfc H. rewrite (fetch_with_usd _ _ _ _ _ Hst Hu) in H.
  apply select_records_from in H as (kept & Hf & Hne & ->).
  destruct (sorted_desc kept) as [|x xs] eqn:Hs.
  { exfalso. apply Hne.
    apply Permutation_nil. rewrite <- Hs. apply sorted_desc_perm. }
  destruct (selected_head kept fetch_count final_count x xs Hs Hfc) as [rest ->].
  exists x, rest. split; [reflexivity|].
  intros u Hin Hk.
  assert (Hkept : In u kept).
  { clear - Hf Hin Hk. revert kept Hf.
    induction l as [|a l IH]; [destruct Hin|]. cbn [ten_k_filter]. intros kept Hf.
    destruct (keep_10k a) as [b|] eqn:Ea; cbn [bind] in Hf; [|discriminate].
    destruct (ten_k_filter l) as [tl|]; cbn [bind] in Hf; [|discriminate].
    inversion Hf; subst. destruct Hin as [->|Hin].
    - unfold keeps in Hk. rewrite Ea in Hk. subst b. now left.
    - specialize (IH Hin tl eq_refl). destruct b; [now right | exact IH]. }
  apply (Permutation_in _ (Permutation_sym (sorted_desc_perm kept))) in Hkept.
  rewrite Hs in Hkept. pose proof (sorted_desc_sorted kept) as Hsorted.
  rewrite Hs in Hsorted. inversion Hsorted as [|? ? _ Hall]; subst.
  destruct Hkept as [<-|Hin']; [apply leb_refl|].
  rewrite Forall_forall in Hall. exact (Hall u Hin').
Qed.

Lemma most_recent_period_is_returned_witness :
  exists first rest,
    [fy2023; fy2022] = first :: rest
    /\ forall u, In u [fy2022; fy2023; fy_sep_2020] -> keeps u = true ->
                 String.leb (end_key u) (end_key first) = true.
Proof.
  apply (most_recent_period_is_returned "Revenues"
    (mk_response 200 (Some (facts_document
       (JArr [fy2022; fy2023; fy_sep_2020]))))
    [fy2022; fy2023; fy_sep_2020] 30 2 [fy2023; fy2022]
    eq_refl (facts_document_has_usd _) ltac:(lia) eq_refl).
Defined.

(** X13: a fact that is not a 10-K, or not of the fiscal year, is
    invisible: as long as another fact is present, the fetch answers as it
    does on the fact list without it. *)
Theorem other_filings_are_invisible
    concept (resp resp' : response (option json))
    (f : list (string * json)) (l1 l2 : list json)
    (fetch_count final_count : Z) :
  status_code resp = 200 -> status_code resp' = 200 ->
  has_usd resp (JArr (l1 ++ JObj f :: l2)%list) ->
  has_usd resp' (JArr (l1 ++ l2)%list) ->
  (l1 ++ l2)%list <> [] ->
  eq_str (dict_get "form" f) "10-K" = false
  \/ eq_str (dict_get "fp" f) "FY" = false ->
  get_financial_data concept resp fetch_count final_count
  = get_financial_data concept resp' fetch_count final_count.
Proof.
  intros Hst Hst' Hu Hu' Hne Hno.
  rewrite (fetch_with_usd _ _ _ _ _ Hst Hu), (fetch_with_usd _ _ _ _ _ Hst' Hu').
  assert (Hk : keep_10k (JObj f) = Ok false).
  { cbn [keep_10k]. destruct Hno as [-> | ->];
      [reflexivity | now rewrite andb_false_r]. }
  assert (Hf : ten_k_filter (l1 ++ JObj f :: l2)%list
               = ten_k_filter (l1 ++ l2)%list).
  { rewrite !ten_k_filter_app. cbn [ten_k_filter]. rewrite Hk. cbn [bind].
    destruct (ten_k_filter l1); cbn [bind]; [|reflexivity].
    destruct (ten_k_filter l2); reflexivity. }
  unfold select_records. cbn [iterate bind]. rewrite Hf.
  destruct l1 as [|a l1]; [destruct l2 as [|b l2]; [contradiction|]|];
    reflexivity.
Qed.

Lemma other_filings_are_invisible_witness :
  get_financial_data "Revenues"
    (mk_response 200 (Some (facts_document (JArr
       [fy2022;
        JObj [("start", JStr "2023-01-01"); ("end", JStr "2023-12-31");
              ("val", JNum 7); ("form", JStr "10-Q"); ("fp", JStr "FY")];
        fy2023])))) 30 10
  = get_financial_data "Revenues"
      (mk_response 200 (Some (facts_document (JArr [fy2022; fy2023])))) 30 10.
Proof.
  apply (other_filings_are_invisible "Revenues"
    (mk_response 200 (Some (facts_document (JArr
       [fy2022;
        JObj [("start", JStr "2023-01-01"); ("end", JStr "2023-12-31");
              ("val", JNum 7); ("form", JStr "10-Q"); ("fp", JStr "FY")];
        fy2023]))))
    (mk_response 200 (Some (facts_document (JArr [fy2022; fy2023]))))
    [("start", JStr "2023-01-01"); ("end", JStr "2023-12-31");
     ("val", JNum 7); ("form", JStr "10-Q"); ("fp", JStr "FY")]
    [fy2022] [fy2023] 30 10 eq_refl eq_refl
    (facts_document_has_usd _) (facts_document_has_usd _)).
  - discriminate.
  - left. reflexivity.
Defined.

Lemma sorted_desc_fixed (l : list json) :
  StronglySorted end_ge l -> sorted_desc l = l.
Proof.
  induction 1 as [|x l Hs IH Hall]; cbn [sorted_desc]; [reflexivity|].
  rewrite IH. destruct l as [|y l']; [reflexivity|]. cbn [insert_desc].
  inversion Hall as [|? ? Hxy _]; subst.
  apply ltb_false_leb in Hxy. now rewrite Hxy.
Qed.

Lemma first_seen_fixed (l : list json) : forall seen,
  NoDup (map start_end l) ->
  (forall k, In k (map start_end l) -> ~ In k seen) ->
  first_seen l seen = l.
Proof.
  induction l as [|x l IH]; intros seen Hn Hdis; cbn [first_seen];
    [reflexivity|].
  cbn [map] in Hn, Hdis. inversion Hn as [|? ? Hx Hn']; subst.
  destruct (mem_key (start_end x) seen) eqn:E.
  - apply mem_key_In in E. exfalso. apply (Hdis (start_end x)); [now left | exact E].
  - f_equal. apply IH; [exact Hn'|].
    intros k Hk [<-|Hin]; [contradiction|].
    apply (Hdis k); [now right | exact Hin].
Qed.

Lemma sublist_length {A : Type} (l l' : list A) :
  sublist l l' -> (List.length l <= List.length l')%nat.
Proof. induction 1; cbn [List.length]; lia. Qed.

Lemma selected_in_slice (kept : list json) (fetch_count final_count : Z) :
  sublist (selected kept fetch_count final_count)
          (slice_to fetch_count (sorted_desc kept)).
Proof.
  unfold selected.
  destruct (dedup_loop_prefix final_count
              (slice_to fetch_count (sorted_desc kept)) [] []) as [n ->].
  cbn [rev app].
  eapply sublist_trans; [apply first_seen_sublist | apply sublist_firstn].
Qed.

Lemma slice_to_length {A : Type} (n : Z) (l : list A) :
  0 <= n -> Z.of_nat (List.length (slice_to n l)) <= n.
Proof.
  intros H. unfold slice_to. destruct (Z.leb_spec 0 n); [|lia].
  rewrite length_firstn. lia.
Qed.

Lemma fetch_success_nonempty concept resp fetch_count final_count recs :
  get_financial_data concept resp fetch_count final_count = Ok (Some recs, None) ->
  exists kept, kept <> [] /\ Forall (fun u => keeps u = true) kept
               /\ recs = selected kept fetch_count final_count.
Proof.
  unfold get_financial_data.
  destruct (status_code resp =? 200); cbn [negb]; [|discriminate].
  destruct (body resp) as [data|]; [|discriminate].
  destruct (subscript data "units") as [u| |]; try discriminate.
  destruct (subscript u "USD") as [units| |]; try discriminate.
  unfold select_records. destruct (truthy units); cbn [negb]; [|discriminate].
  destruct (iterate units) as [elems|]; cbn [bind]; [|discriminate].
  destruct (ten_k_filter elems) as [kept|] eqn:E; cbn [bind]; [|discriminate].
  destruct kept as [|x xs]; [discriminate|].
  intros H. inversion H. exists (x :: xs).
  split; [discriminate|]. split; [now apply (ten_k_filter_keeps elems) | reflexivity].
Qed.

(** X14: the records of a successful fetch are a fixed point: with counts
    of at least 1, fetching again from a response whose fact list is the
    list of records just returned gives the same records, in the same
    order. *)
Theorem fetch_result_is_a_fixed_point
    concept concept' (resp resp' : response (option json))
    (fetch_count final_count : Z) (recs : list json) :
  1 <= fetch_count -> 1 <= final_count ->
  get_financial_data concept resp fetch_count final_count = Ok (Some recs, None) ->
  status_code resp' = 200 ->
  has_usd resp' (JArr recs) ->
  get_financial_data concept' resp' fetch_count final_count
  = Ok (Some recs, None).
Proof.
  intros Hfc Hfn H Hst' Hu'.
  apply fetch_success_nonempty in H as (kept & Hne & Hk & ->).
  assert (Hhead : exists x rest, selected kept fetch_count final_count = x :: rest).
  { destruct (sorted_desc kept) as [|x xs] eqn:Hs.
    - exfalso. apply Hne. apply Permutation_nil. rewrite <- Hs.
      apply sorted_desc_perm.
    - destruct (selected_head kept fetch_count final_count x xs Hs Hfc) as [rest E].
      eauto. }
  set (recs := selected kept fetch_count final_count) in *.
  assert (Hkeeps : forallb keeps recs = true).
  { apply forallb_forall. intros r Hr. rewrite Forall_forall in Hk. apply Hk.
    eapply Permutation_in; [apply sorted_desc_perm|].
    eapply sublist_In; [apply selected_sublist | exact Hr]. }
  assert (Hsorted : StronglySorted end_ge recs).
  { eapply sublist_sorted; [apply selected_sublist | apply sorted_desc_sorted]. }
  assert (Hlen : Z.of_nat (List.length recs) <= fetch_count).
  { pose proof (sublist_length _ _ (selected_in_slice kept fetch_count final_count)) as L.
    pose proof (slice_to_length fetch_count (sorted_desc kept) ltac:(lia)).
    fold recs in L. lia. }
  assert (Hfix : selected recs fetch_count final_count = recs).
  { unfold selected at 1.
    rewrite (sorted_desc_fixed _ Hsorted), (slice_to_all _ _ Hlen).
    rewrite dedup_loop_exact by (cbn [List.length]; lia).
    cbn [rev app List.length].
    rewrite first_seen_fixed;
      [|apply selected_NoDup | intros k _ []].
    apply firstn_all2.
    pose proof (selected_length kept fetch_count final_count Hfn) as L.
    fold recs in L. lia. }
  rewrite (fetch_with_usd _ _ _ _ _ Hst' Hu').
  destruct Hhead as (x & rest & E). rewrite E in *.
  rewrite (select_records_kept concept' _ fetch_count final_count x rest
             (ten_k_filter_all_kept _ Hkeeps)).
  now rewrite Hfix.
Qed.

Lemma fetch_result_is_a_fixed_point_witness :
  get_financial_data "NetIncomeLoss"
    (mk_response 200 (Some (facts_document (JArr [fy2023; fy2022])))) 30 10
  = Ok (Some [fy2023; fy2022], None).
Proof.
  apply (fetch_result_is_a_fixed_point "Revenues" "NetIncomeLoss"
    (mk_response 200 (Some (facts_document
       (JArr [fy2022; fy2023; fy2022]))))
    (mk_response 200 (Some (facts_document (JArr [fy2023; fy2022]))))
    30 10 [fy2023; fy2022] ltac:(lia) ltac:(lia) eq_refl eq_refl
    (facts_document_has_usd _)).
Defined.

End FetchMore.

(* ================================================================== *)
(** ** More on the table: rows, sums, join, scale, melt *)
(* ================================================================== *)

Module TableMore.
Import Date Fetcher FetcherSpec FilterFacts DedupFacts FetchInvariants
       FetchMore Normalizer NormalizerSpec NormalizerFacts App PageSpec.

Lemma row_of_kept (r : json) :
  keeps r = true ->
  exists d, end_date r = Some d
            /\ row_of r = match field r "val" with
                          | Some v => Ok (year d, v)
                          | None => Raise KeyError
                          end.
Proof.
  unfold keeps, end_date.
  destruct r as [| | | | |f]; cbn [keep_10k]; try discriminate.
  intros H. apply andb_true_iff in H as [_ H]. cbn [field row_of].
  unfold is_full_year in H.
  destruct (dict_get "start" f) as [[| | |s| |]|]; try discriminate.
  destruct (dict_get "end" f) as [[| | |e| |]|]; try discriminate.
  destruct (strptime s); [|discriminate].
  destruct (strptime e) as [de|]; [|discriminate].
  exists de. split; [reflexivity|]. destruct (dict_get "val" f); reflexivity.
Qed.

Lemma rows_of_kept (recs : list json) :
  Forall (fun r => keeps r = true) recs ->
  (Exists (fun r => field r "val" = None) recs
   /\ rows_of recs = Raise KeyError)
  \/ exists rows,
       rows_of recs = Ok rows
       /\ Forall2 (fun r row =>
                     (exists d, end_date r = Some d /\ fst row = year d)
                     /\ field r "val" = Some (snd row)) recs rows.
Proof.
  induction 1 as [|r recs Hr Hall IH]; cbn [rows_of].
  - right. exists []. split; [reflexivity | constructor].
  - destruct (row_of_kept r Hr) as (d & Hd & ->).
    destruct (field r "val") as [v|] eqn:Hv; cbn [bind].
    + destruct IH as [[Hex ->] | (rows & -> & Hf2)]; cbn [bind].
      * left. split; [now apply Exists_cons_tl | reflexivity].
      * right. exists ((year d, v) :: rows). split; [reflexivity|].
        constructor; [|exact Hf2]. cbn [fst snd]. split; [eauto | exact Hv].
    + left. split; [now apply Exists_cons_hd | reflexivity].
Qed.

(** X15: on the records of a successful fetch, the loops that build the
    year/value rows never fail on a date: they either raise [KeyError],
    exactly when a record has no [val], or give one row per record, with
    the year of its [end] date and its [val], in the same order. *)
Theorem rows_of_fetched_records
    concept (resp : response (option json)) fetch_count final_count recs :
  get_financial_data concept resp fetch_count final_count = Ok (Some recs, None) ->
  (Exists (fun r => field r "val" = None) recs
   /\ build_rows (Some recs) = Raise KeyError)
  \/ exists rows,
       build_rows (Some recs) = Ok rows
       /\ Forall2 (fun r row =>
                     (exists d, end_date r = Some d /\ fst row = year d)
                     /\ field r "val" = Some (snd row)) recs rows.
Proof.
  intros H. apply fetch_success in H as (kept & Hk & ->).
  cbn [build_rows]. apply rows_of_kept.
  apply Forall_forall. intros r Hr. eapply selected_kept; eauto.
Qed.

Lemma rows_of_fetched_records_witness :
  build_rows (Some [fy2023; fy2022]) = Ok [(2023, JNum 1); (2022, JNum 2)].
Proof.
  destruct (rows_of_fetched_records "Revenues"
    (mk_response 200 (Some (facts_document (JArr [fy2022; fy2023]))))
    30 10 [fy2023; fy2022] eq_refl) as [[_ H] | (rows & H & _)].
  - discriminate H.
  - reflexivity.
Defined.

Lemma add_to_group_value (y v : Z) (groups : frame) (k : Z) :
  value_at k (add_to_group y v groups)
  = (if y =? k then v else 0) + value_at k groups.
Proof.
  induction groups as [|[y' v'] rest IH]; cbn [add_to_group value_at].
  - lia.
  - destruct (Z.ltb_spec y y'); [cbn [value_at]; lia|].
    destruct (Z.eqb_spec y y'); cbn [value_at].
    + subst. destruct (y' =? k); lia.
    + rewrite IH. lia.
Qed.

Lemma groupby_sum_value_from (rows groups : frame) (k : Z) :
  value_at k (fold_left (fun g r => add_to_group (fst r) (snd r) g) rows groups)
  = value_at k rows + value_at k groups.
Proof.
  revert groups. induction rows as [|[y v] rows IH]; intros groups;
    cbn [fold_left value_at fst snd]; [lia|].
  rewrite IH, add_to_group_value. lia.
Qed.

Lemma value_at_absent (y : Z) (fr : frame) :
  ~ In y (map fst fr) -> value_at y fr = 0.
Proof.
  induction fr as [|[y' v] fr IH]; cbn [map fst In value_at]; [reflexivity|].
  intros H. destruct (Z.eqb_spec y' y); [exfalso; auto|].
  rewrite IH; [lia | tauto].
Qed.

Lemma value_at_unique (y v : Z) (fr : frame) :
  NoDup (map fst fr) -> In (y, v) fr -> value_at y fr = v.
Proof.
  induction fr as [|[y' v'] fr IH]; cbn [map fst In value_at]; [intros _ []|].
  intros Hn [E|Hin]; inversion Hn as [|? ? Hx Hn']; subst.
  - inversion E; subst. rewrite Z.eqb_refl, value_at_absent by exact Hx. lia.
  - destruct (Z.eqb_spec y' y) as [->|_].
    + exfalso. apply Hx. apply in_map_iff. exists (y, v). auto.
    + rewrite (IH Hn' Hin). lia.
Qed.

Lemma groupby_sum_NoDup (rows : frame) : NoDup (map fst (groupby_sum rows)).
Proof. apply strictly_sorted_NoDup, groupby_sum_years. Qed.

Lemma groupby_sum_value (rows : frame) (y : Z) :
  value_at y (groupby_sum rows) = value_at y rows.
Proof.
  unfold groupby_sum. rewrite groupby_sum_value_from. cbn [value_at]. lia.
Qed.

Lemma grouped_In (rows : frame) (y v : Z) :
  In (y, v) (groupby_sum rows) <-> In y (map fst rows) /\ v = value_at y rows.
Proof.
  pose proof (groupby_sum_NoDup rows) as Hn. split.
  - intros Hin. split.
    + apply (proj2 (groupby_sum_years rows)). apply in_map_iff.
      exists (y, v). auto.
    + rewrite <- groupby_sum_value. symmetry. now apply value_at_unique.
  - intros [Hy ->].
    apply (proj2 (groupby_sum_years rows)) in Hy.
    apply in_map_iff in Hy as ([y' v'] & E & Hy). cbn [fst] in E. subst y'.
    rewrite <- (groupby_sum_value rows y), (value_at_unique y v' _ Hn Hy).
    exact Hy.
Qed.


Lemma join_row_In (y r : Z) (right : frame) (row : Z * Z * Z) :
  In row (join_row y r right) <-> exists n, row = (y, r, n) /\ In (y, n) right.
Proof.
  unfold join_row. rewrite in_map_iff. split.
  - intros ([y' n] & <- & Hin). apply filter_In in Hin as [Hin E].
    cbn [fst] in E. apply Z.eqb_eq in E. subst. exists n. auto.
  - intros (n & -> & Hin). exists (y, n). split; [reflexivity|].
    apply filter_In. split; [exact Hin | apply Z.eqb_refl].
Qed.

Lemma merge_inner_In (left right : frame) (y r n : Z) :
  In (y, r, n) (merge_inner left right) <-> In (y, r) left /\ In (y, n) right.
Proof.
  unfold merge_inner. rewrite in_flat_map. split.
  - intros ([y' r'] & Hl & Hj). cbn [fst snd] in Hj.
    apply join_row_In in Hj as (n' & E & Hr). inversion E; subst. auto.
  - intros [Hl Hr]. exists (y, r). split; [exact Hl|].
    apply join_row_In. exists n. auto.
Qed.

Lemma combine_In (df_rev df_ni : frame) (y r n : Z) :
  In (y, r, n) (combine df_rev df_ni) <-> In (y, r) df_rev /\ In (y, n) df_ni.
Proof.
  unfold combine. rewrite <- merge_inner_In.
  split; apply Permutation_in; [|symmetry]; apply sort_values_perm.
Qed.


(** X18: when no year is common to the two row lists, no error is raised:
    the combined table is empty, it is labelled in billions, and nothing
    is left to chart. *)
Theorem disjoint_years_give_an_empty_table (rev_list ni_list : frame) :
  rev_list <> [] -> ni_list <> [] ->
  (forall y, In y (map fst rev_list) -> ~ In y (map fst ni_list)) ->
  df_combined rev_list ni_list = Ok []
  /\ scale_table (combine (groupby_sum rev_list) (groupby_sum ni_list))
     = mk_scaled [] "Revenue (in Billions USD)" "NetIncome (in Billions USD)"
  /\ df_melt (combine (groupby_sum rev_list) (groupby_sum ni_list)) = [].
Proof.
  intros Hr Hn Hdis.
  assert (E : combine (groupby_sum rev_list) (groupby_sum ni_list) = []).
  { destruct (combine (groupby_sum rev_list) (groupby_sum ni_list))
      as [|[[y r] n] rest] eqn:Ec; [reflexivity|]. exfalso.
    assert (Hin : In (y, r, n)
                     (combine (groupby_sum rev_list) (groupby_sum ni_list)))
      by (rewrite Ec; now left).
    apply combine_In in Hin as [H1 H2].
    apply grouped_In in H1 as [H1 _]. apply grouped_In in H2 as [H2 _].
    exact (Hdis y H1 H2). }
  rewrite E. split; [|split; reflexivity].
  unfold df_combined. rewrite E.
  destruct rev_list; [contradiction|]. destruct ni_list; [contradiction|].
  reflexivity.
Qed.

Lemma disjoint_years_give_an_empty_table_witness :
  df_combined [(2019, 5); (2020, 6)] [(2021, 1)] = Ok [].
Proof.
  apply (disjoint_years_give_an_empty_table [(2019, 5); (2020, 6)] [(2021, 1)]);
    try discriminate.
  intros y [<-|[<-|[]]] [H|[]]; discriminate H.
Defined.

Lemma rows_of_int (recs : list json) :
  Forall (fun r => keeps r = true) recs ->
  Forall has_int_val recs ->
  exists rows fr,
    rows_of recs = Ok rows /\ int_rows rows = Some fr
    /\ Forall2 (fun r row =>
                  (exists d, end_date r = Some d /\ fst row = year d)
                  /\ field r "val" = Some (JNum (snd row))) recs fr.
Proof.
  induction 1 as [|r recs Hr Hall IH]; intros Hint.
  - exists [], []. repeat split. constructor.
  - inversion Hint as [|? ? [z Hz] Hint']; subst.
    destruct (IH Hint') as (rows & fr & Hrows & Hfr & Hf2).
    destruct (row_of_kept r Hr) as (d & Hd & Hrow). rewrite Hz in Hrow.
    exists ((year d, JNum z) :: rows), ((year d, z) :: fr).
    cbn [rows_of int_rows]. rewrite Hrow, Hrows, Hfr. cbn [bind].
    split; [reflexivity|]. split; [reflexivity|].
    constructor; [|exact Hf2]. cbn [fst snd]. split; [eauto | exact Hz].
Qed.

Lemma fetched_rows (concept : string) (resp : response (option json))
    (fetch_count final_count : Z) (recs : list json) :
  1 <= fetch_count ->
  get_financial_data concept resp fetch_count final_count = Ok (Some recs, None) ->
  Forall has_int_val recs ->
  exists rows fr,
    build_rows (Some recs) = Ok rows /\ int_rows rows = Some fr /\ fr <> []
    /\ Forall2 (fun r row =>
                  (exists d, end_date r = Some d /\ fst row = year d)
                  /\ field r "val" = Some (JNum (snd row))) recs fr.
Proof.
  intros Hfc H Hint.
  apply fetch_success_nonempty in H as (kept & Hne & Hk & ->).
  assert (Hkeeps : Forall (fun r => keeps r = true)
                          (selected kept fetch_count final_count)).
  { apply Forall_forall. intros r Hr. eapply selected_kept; eauto. }
  destruct (rows_of_int _ Hkeeps Hint) as (rows & fr & Hrows & Hfr & Hf2).
  exists rows, fr. cbn [build_rows].
  split; [exact Hrows|]. split; [exact Hfr|]. split; [|exact Hf2].
  destruct (sorted_desc kept) as [|x xs] eqn:Hs.
  - exfalso. apply Hne. apply Permutation_nil. rewrite <- Hs.
    apply sorted_desc_perm.
  - destruct (selected_head kept fetch_count final_count x xs Hs Hfc) as [rest E].
    rewrite E in Hf2. inversion Hf2. discriminate.
Qed.

(** X25: after two successful fetches with a [fetch_count] of at least 1
    whose records all carry an integer [val], the preparation of the
    combined table raises nothing: both row lists are built, one row per
    record with the year of its [end] date and its value, neither is
    empty, and the grouped and merged table is obtained. *)
Theorem table_preparation_succeeds
    concept concept' (resp resp' : response (option json))
    (fetch_count final_count fetch_count' final_count' : Z)
    (rev_data ni_data : list json) :
  1 <= fetch_count -> 1 <= fetch_count' ->
  get_financial_data concept resp fetch_count final_count
  = Ok (Some rev_data, None) ->
  get_financial_data concept' resp' fetch_count' final_count'
  = Ok (Some ni_data, None) ->
  Forall has_int_val rev_data -> Forall has_int_val ni_data ->
  exists rev_rows ni_rows rev_list ni_list,
    build_rows (Some rev_data) = Ok rev_rows
    /\ build_rows (Some ni_data) = Ok ni_rows
    /\ int_rows rev_rows = Some rev_list
    /\ int_rows ni_rows = Some ni_list
    /\ Forall2 (fun r row =>
                  (exists d, end_date r = Some d /\ fst row = year d)
                  /\ field r "val" = Some (JNum (snd row))) rev_data rev_list
    /\ Forall2 (fun r row =>
                  (exists d, end_date r = Some d /\ fst row = year d)
                  /\ field r "val" = Some (JNum (snd row))) ni_data ni_list
    /\ df_combined rev_list ni_list
       = Ok (combine (groupby_sum rev_list) (groupby_sum ni_list)).
Proof.
  intros Hfc Hfc' Hr Hn Hir Hin.
  destruct (fetched_rows _ _ _ _ _ Hfc Hr Hir) as (rr & rl & H1 & H2 & H3 & H4).
  destruct (fetched_rows _ _ _ _ _ Hfc' Hn Hin) as (nr & nl & H5 & H6 & H7 & H8).
  exists rr, nr, rl, nl. repeat (split; [assumption|]).
  unfold df_combined. destruct rl; [contradiction|]. destruct nl; [contradiction|].
  reflexivity.
Qed.

Lemma table_preparation_succeeds_witness :
  exists rev_list ni_list,
    int_rows [(2023, JNum 1); (2022, JNum 2)] = Some rev_list
    /\ int_rows [(2023, JNum 1)] = Some ni_list
    /\ df_combined rev_list ni_list = Ok [(2023, 1, 1)].
Proof.
  destruct (table_preparation_succeeds "Revenues" "NetIncomeLoss"
    (mk_response 200 (Some (facts_document (JArr [fy2022; fy2023]))))
    (mk_response 200 (Some (facts_document (JArr [fy2023]))))
    30 10 30 10 [fy2023; fy2022] [fy2023]
    ltac:(lia) ltac:(lia) eq_refl eq_refl)
    as (rr & nr & rl & nl & H1 & H2 & H3 & H4 & _ & _ & H7).
  - repeat constructor; eexists; reflexivity.
  - repeat constructor; eexists; reflexivity.
  - exists rl, nl. inversion H1; subst rr. inversion H2; subst nr.
    split; [exact H3|]. split; [exact H4|].
    inversion H3; subst rl. inversion H4; subst nl. exact H7.
Defined.

End TableMore.

(* ================================================================== *)
(** ** More on the page: unit of the values, chart order, errors, session *)
(* ================================================================== *)

Module PageMore.
Import Py Fetcher FetcherSpec FilterFacts Normalizer NormalizerSpec
       NormalizerFacts App PageSpec.

Lemma scaled_lt (v f k : Z) :
  0 < f -> v < k * f -> (scaled v f < inject_Z k)%Q.
Proof.
  intros Hf H. unfold scaled. apply Qlt_shift_div_r.
  - change 0%Q with (inject_Z 0). rewrite <- Zlt_Qlt. exact Hf.
  - rewrite <- inject_Z_mult, <- Zlt_Qlt. exact H.
Qed.

Lemma scaled_ge (v f k : Z) :
  0 < f -> k * f <= v -> (inject_Z k <= scaled v f)%Q.
Proof.
  intros Hf H. unfold scaled. apply Qle_shift_div_l.
  - change 0%Q with (inject_Z 0). rewrite <- Zlt_Qlt. exact Hf.
  - rewrite <- inject_Z_mult, <- Zle_Qle. exact H.
Qed.

Lemma scale_table_rows (df : frame3) (factor : Z) (unit_label : string) :
  unit_scale df = (factor, unit_label) ->
  scale_table df
  = mk_scaled
      (map (fun row => (year_of row, scaled (revenue_of row) factor,
                        scaled (net_income_of row) factor)) df)
      ("Revenue " ++ unit_label) ("NetIncome " ++ unit_label).
Proof. intros E. unfold scale_table. now rewrite E. Qed.

Lemma unit_scale_cases (df : frame3) :
  unit_scale df = (10 ^ 9, "(in Billions USD)")
  \/ unit_scale df = (10 ^ 12, "(in Trillions USD)").
Proof.
  unfold unit_scale. destruct (max_val df) as [m|]; [|now left].
  destruct (10 ^ 12 <=? m); [now right | now left].
Qed.

(** X19: the unit fits the values of a non-empty table: in billions every
    scaled revenue and net income is below 1000, and in trillions at least
    one scaled value reaches 1. *)
Theorem scaled_values_fit_the_unit (df : frame3) :
  df <> [] ->
  (unit_scale df = (10 ^ 9, "(in Billions USD)")
   /\ Forall (fun row => (snd (fst row) < 1000)%Q /\ (snd row < 1000)%Q)
             (rows (scale_table df)))
  \/ (unit_scale df = (10 ^ 12, "(in Trillions USD)")
      /\ Exists (fun row => (1 <= snd (fst row))%Q \/ (1 <= snd row)%Q)
                (rows (scale_table df))).
Proof.
  intros Hne. destruct (max_val_spec df Hne) as (m & Em & Hin & Hmax).
  assert (Hu : unit_scale df
               = if 10 ^ 12 <=? m then (10 ^ 12, "(in Trillions USD)")
                 else (10 ^ 9, "(in Billions USD)")).
  { unfold unit_scale. now rewrite Em. }
  destruct (Z.leb_spec (10 ^ 12) m) as [Hbig|Hsmall].
  - right. split; [exact Hu|]. rewrite (scale_table_rows _ _ _ Hu).
    cbn [rows]. apply Exists_exists. unfold all_values in Hin.
    apply in_app_or in Hin as [Hin|Hin];
      apply in_map_iff in Hin as (row & Erow & Hrow);
      eexists; (split; [apply in_map; exact Hrow|]); cbn [fst snd];
      [left | right]; rewrite Erow;
      apply (scaled_ge m (10 ^ 12) 1); lia.
  - left. split; [exact Hu|]. rewrite (scale_table_rows _ _ _ Hu).
    cbn [rows]. apply Forall_forall. intros x Hx.
    apply in_map_iff in Hx as (row & <- & Hrow). cbn [fst snd].
    assert (Hr : revenue_of row <= m).
    { apply Hmax. unfold all_values. apply in_or_app. left. now apply in_map. }
    assert (Hn : net_income_of row <= m).
    { apply Hmax. unfold all_values. apply in_or_app. right. now apply in_map. }
    split; apply (scaled_lt _ (10 ^ 9) 1000); lia.
Qed.

Lemma scaled_values_fit_the_unit_witness :
  unit_scale [(2021, 365817000000, 94680000000)] = (10 ^ 9, "(in Billions USD)")
  /\ Forall (fun row => (snd (fst row) < 1000)%Q /\ (snd row < 1000)%Q)
            (rows (scale_table [(2021, 365817000000, 94680000000)])).
Proof.
  destruct (scaled_values_fit_the_unit [(2021, 365817000000, 94680000000)]
              ltac:(discriminate)) as [H | [H _]].
  - exact H.
  - discriminate H.
Defined.

(** X20: in the melted table the revenue rows come first and carry the
    offset 0, the net-income rows follow and carry the offset 1, whatever
    the unit: the two column names never coincide and none is left without
    an offset, so that revenue is drawn on the left. *)
Theorem melt_puts_revenue_first (df : frame3) :
  let t := scale_table df in
  df_melt df
  = (map (fun row => mk_melted (fst (fst row)) (rv_col t) (snd (fst row)) (Some 0))
         (rows t)
     ++ map (fun row => mk_melted (fst (fst row)) (ni_col t) (snd row) (Some 1))
            (rows t))%list
  /\ rv_col t <> ni_col t
  /\ List.length (df_melt df) = (2 * List.length df)%nat.
Proof.
  cbv zeta.
  destruct (unit_scale df) as [factor unit_label] eqn:E.
  unfold df_melt. rewrite (scale_table_rows _ _ _ E). cbn [rv_col ni_col rows].
  assert (Hne : String.eqb ("Revenue " ++ unit_label) ("NetIncome " ++ unit_label)
                = false) by reflexivity.
  unfold measure_order_map. rewrite Hne. cbn [dict_get].
  rewrite Hne, !String.eqb_refl.
  split; [reflexivity|]. split.
  - intros H. apply String.eqb_eq in H. congruence.
  - rewrite length_app, !length_map. lia.
Qed.

Lemma fetch_outcomes concept resp fetch_count final_count v :
  get_financial_data concept resp fetch_count final_count = Ok v ->
  (exists recs, v = (Some recs, None))
  \/ (exists e, v = (None, Some e) /\ Py.truthy e = true).
Proof.
  unfold get_financial_data.
  destruct (status_code resp =? 200); cbn [negb].
  2: { intros H; inversion H. right. eexists. split; reflexivity. }
  destruct (body resp) as [data|]; [|discriminate].
  destruct (subscript data "units") as [u| |]; [| |discriminate].
  2: { intros H; inversion H. right. eexists. split; reflexivity. }
  destruct (subscript u "USD") as [units| |]; [| |discriminate].
  2: { intros H; inversion H. right. eexists. split; reflexivity. }
  unfold select_records. destruct (Fetcher.truthy units); cbn [negb].
  - destruct (iterate units) as [elems|]; cbn [bind]; [|discriminate].
    destruct (ten_k_filter elems) as [[|x xs]|]; cbn [bind];
      [| |discriminate]; intros H; inversion H.
    + right. eexists. split; reflexivity.
    + left. eexists. reflexivity.
  - intros H; inversion H. right. eexists. split; reflexivity.
Qed.

(** X21: the table is prepared only from two successful payloads; when a
    fetch returns an error the run stops after displaying it, and when
    both do, both messages are displayed, revenue first. *)
Theorem both_errors_are_reported (rev_resp ni_resp : response (option json)) :
  (forall rev_data ni_data,
     fetch_both rev_resp ni_resp = Ok (inr (rev_data, ni_data)) <->
     exists r n,
       rev_data = Some r /\ ni_data = Some n
       /\ get_financial_data
            "RevenueFromContractWithCustomerExcludingAssessedTax" rev_resp 30 10
          = Ok (Some r, None)
       /\ get_financial_data "NetIncomeLoss" ni_resp 30 10 = Ok (Some n, None))
  /\ (forall e1 e2,
        get_financial_data
          "RevenueFromContractWithCustomerExcludingAssessedTax" rev_resp 30 10
        = Ok (None, Some e1) ->
        get_financial_data "NetIncomeLoss" ni_resp 30 10 = Ok (None, Some e2) ->
        fetch_both rev_resp ni_resp
        = Ok (inl [MError ("Revenue error: " ++ e1);
                   MError ("Net Income error: " ++ e2)]))
  /\ (forall e1 n,
        get_financial_data
          "RevenueFromContractWithCustomerExcludingAssessedTax" rev_resp 30 10
        = Ok (None, Some e1) ->
        get_financial_data "NetIncomeLoss" ni_resp 30 10 = Ok (Some n, None) ->
        fetch_both rev_resp ni_resp
        = Ok (inl [MError ("Revenue error: " ++ e1)]))
  /\ (forall r e2,
        get_financial_data
          "RevenueFromContractWithCustomerExcludingAssessedTax" rev_resp 30 10
        = Ok (Some r, None) ->
        get_financial_data "NetIncomeLoss" ni_resp 30 10 = Ok (None, Some e2) ->
        fetch_both rev_resp ni_resp
        = Ok (inl [MError ("Net Income error: " ++ e2)])).
Proof.
  unfold fetch_both.
  destruct (get_financial_data
              "RevenueFromContractWithCustomerExcludingAssessedTax" rev_resp 30 10)
    as [rv|ex] eqn:Er; cbn [bind].
  2: { repeat split; try discriminate. intros (r & n & _ & _ & H & _).
       discriminate H. }
  destruct (get_financial_data "NetIncomeLoss" ni_resp 30 10)
    as [nv|ex] eqn:En; cbn [bind].
  2: { repeat split; try discriminate. intros (r & n & _ & _ & _ & H).
       discriminate H. }
  destruct (fetch_outcomes _ _ _ _ _ Er) as [(r & ->) | (e1 & -> & T1)];
    destruct (fetch_outcomes _ _ _ _ _ En) as [(n & ->) | (e2 & -> & T2)];
    cbn [truthy_opt orb]; rewrite ?T1, ?T2; cbn [orb app].
  - repeat split; try discriminate.
    + intros H. inversion H. eauto 6.
    + intros (r' & n' & -> & -> & H1 & H2). now inversion H1; inversion H2.
  - repeat split; try discriminate.
    + intros (r' & n' & _ & _ & _ & H). discriminate H.
    + intros r' e H1 H2. inversion H2. reflexivity.
  - repeat split; try discriminate.
    + intros (r' & n' & _ & _ & H & _). discriminate H.
    + intros e n' H1 H2. inversion H1. reflexivity.
  - repeat split; try discriminate.
    + intros (r' & n' & _ & _ & H & _). discriminate H.
    + intros e e' H1 H2. inversion H1; inversion H2. reflexivity.
Qed.

Lemma both_errors_are_reported_witness :
  fetch_both (mk_response 404 None) (mk_response 200 (Some (facts_document (JArr []))))
  = Ok (inl [MError "Revenue error: Request failed (status 404) for RevenueFromContractWithCustomerExcludingAssessedTax";
             MError "Net Income error: No NetIncomeLoss (USD) data found"]).
Proof.
  exact (proj1 (proj2 (both_errors_are_reported
    (mk_response 404 None) (mk_response 200 (Some (facts_document (JArr [])))))) _ _
    eq_refl eq_refl).
Defined.

End PageMore.

(* ================================================================== *)
(** ** The two-step session of the company mode *)
(* ================================================================== *)

Module SessionFacts.
Import Py Resolver App PageSpec.

Lemma selectbox_In (options : list string) (choice : nat) :
  options <> [] -> In (selectbox options choice) options.
Proof.
  intros Hne. unfold selectbox.
  destruct (nth_in_or_default choice options (hd "" options)) as [H | ->];
    [exact H|].
  destruct options; [contradiction | now left].
Qed.

Section Run.
Variable render : option (list json) -> option (list json) -> result unit.

Lemma company_step2_coherent (st : session) (i : company_inputs)
    (shown : list message) :
  coherent st \/ (exists t ts, App.matched_tickers st = Some (t :: ts)) ->
  coherent (fst (fst (company_step2 render st i shown))).
Proof.
  intros H. unfold company_step2.
  destruct (App.matched_tickers st) as [[|t ts]|] eqn:Em.
  - destruct H as [H | (t & ts & E)]; [|discriminate E].
    cbn [fst]. exact H.
  - assert (Hc : coherent (mk_session (Some (t :: ts))
                             (Some (selectbox (t :: ts) (choice i))))).
    { unfold coherent. cbn [App.matched_tickers selected_ticker].
      split; [discriminate|]. eexists. split; [reflexivity|].
      apply selectbox_In. discriminate. }
    destruct (ticker_clicked i); cbn [negb fst]; [|exact Hc].
    destruct (selected_mode _ _); cbn [fst]; [exact Hc|].
    destruct (fetch_both _ _) as [[errors|[rev_data ni_data]]|e];
      cbn [fst]; try exact Hc.
    destruct (render rev_data ni_data); cbn [fst]; [reflexivity | exact Hc].
  - destruct H as [H | (t & ts & E)]; [|discriminate E].
    cbn [fst]. exact H.
Qed.

(** X22: the session stays coherent from run to run: the matched list is
    never an empty list, the selected ticker is one of the matched
    tickers, and no ticker is selected when there is no matched list;
    this holds at the start and after any run, whatever is typed, clicked
    or received. *)
Theorem session_stays_coherent (st : session) (i : company_inputs) :
  coherent initial_session
  /\ (coherent st -> coherent (fst (fst (company_run render st i)))).
Proof.
  split; [reflexivity|]. intros Hc. unfold company_run.
  destruct (search_clicked i); [|apply company_step2_coherent; now left].
  destruct (negb (truthy (user_agent i))); [exact Hc|].
  destruct (negb (truthy (strip (input_company i)))); [exact Hc|].
  destruct (get_ticker_from_company_name (input_company i) (name_resp i))
    as [|t ts]; [exact Hc|].
  apply company_step2_coherent. right. exists t, ts. reflexivity.
Qed.

(** X23: a search that fails (no user agent, a blank name, or no match)
    displays one message, stops the run and leaves the session as it
    was: a list matched earlier stays available. *)
Theorem failed_search_keeps_the_session (st : session) (i : company_inputs) :
  search_clicked i = true ->
  truthy (user_agent i) = false
  \/ truthy (strip (input_company i)) = false
  \/ get_ticker_from_company_name (input_company i) (name_resp i) = [] ->
  exists m, harmless m = false
            /\ company_run render st i = (st, [m], Stopped).
Proof.
  intros Hs H. unfold company_run. rewrite Hs.
  destruct (truthy (user_agent i)) eqn:Eu; cbn [negb];
    [|eexists; split; [|reflexivity]; reflexivity].
  destruct (truthy (strip (input_company i))) eqn:Eq; cbn [negb];
    [|eexists; split; [|reflexivity]; reflexivity].
  destruct H as [H | [H | H]]; try discriminate H.
  rewrite H. eexists; split; [|reflexivity]; reflexivity.
Qed.

(** X24: a run in which "Search (Ticker)" was clicked and that reaches its
    last line has reset the session to its initial state, and displayed
    neither an error nor a warning on the way. *)
Theorem completed_cycle_resets_the_session
    (st st' : session) (i : company_inputs) (shown : list message) :
  coherent st ->
  ticker_clicked i = true ->
  company_run render st i = (st', shown, Finished) ->
  st' = initial_session /\ forallb harmless shown = true.
Proof.
  intros Hc Ht.
  assert (Hstep : forall s0 sh,
            forallb harmless sh = true ->
            (App.matched_tickers s0 = None -> selected_ticker s0 = None) ->
            App.matched_tickers s0 <> Some [] ->
            company_step2 render s0 i sh = (st', shown, Finished) ->
            st' = initial_session /\ forallb harmless shown = true).
  { intros s0 sh Hsh Hnone Hne. unfold company_step2.
    destruct (App.matched_tickers s0) as [[|t ts]|] eqn:Em.
    - contradiction.
    - rewrite Ht. cbn [negb].
      destruct (selected_mode _ _); [discriminate|].
      destruct (fetch_both _ _) as [[errors|[rev_data ni_data]]|e];
        try discriminate.
      destruct (render rev_data ni_data); [|discriminate].
      intros E; inversion E; subst. auto.
    - intros E; inversion E; subst. split; [|exact Hsh].
      destruct st' as [m s]. cbn in Em. specialize (Hnone eq_refl).
      cbn in Hnone. now subst. }
  unfold company_run. destruct (search_clicked i).
  - destruct (negb (truthy (user_agent i))); [discriminate|].
    destruct (negb (truthy (strip (input_company i)))); [discriminate|].
    destruct (get_ticker_from_company_name (input_company i) (name_resp i))
      as [|t ts]; [discriminate|].
    apply Hstep; [reflexivity | discriminate | discriminate].
  - apply Hstep; [reflexivity| |].
    + unfold coherent in Hc. intros E. now rewrite E in Hc.
    + unfold coherent in Hc. intros E. rewrite E in Hc. now destruct Hc.
Qed.

End Run.

Lemma session_stays_coherent_witness :
  coherent (fst (fst (company_run (fun _ _ => Ok tt) initial_session
                                  sample_inputs))).
Proof.
  apply (session_stays_coherent (fun _ _ => Ok tt) initial_session sample_inputs).
  reflexivity.
Defined.

Lemma failed_search_keeps_the_session_witness :
  exists m, harmless m = false
    /\ company_run (fun _ _ => Ok tt)
         (mk_session (Some ["AAPL"]) (Some "AAPL"))
         (mk_inputs "me@example.com" "Zzz" true false 0
            (mk_response 200 [("0", mk_info 320193 "AAPL" "Apple Inc.")])
            (mk_response 200 []) (mk_response 404 None) (mk_response 404 None))
       = (mk_session (Some ["AAPL"]) (Some "AAPL"), [m], Stopped).
Proof.
  apply failed_search_keeps_the_session; [reflexivity|].
  right. right. reflexivity.
Defined.

Lemma completed_cycle_resets_the_session_witness :
  initial_session = initial_session /\ forallb harmless [] = true.
Proof.
  apply (completed_cycle_resets_the_session (fun _ _ => Ok tt)
           (mk_session (Some ["AAPL"]) (Some "AAPL")) initial_session
           sample_cycle []).
  - split; [discriminate|]. exists "AAPL". split; [reflexivity | now left].
  - reflexivity.
  - reflexivity.
Defined.

End SessionFacts.
